(** * A model of [migration/scripts/run_migration.py]

    The migration script is a linear batch job: resolve a configuration
    document, create the directories, read a CSV file, validate its header,
    filter and enrich the rows, write the result twice, write a report and
    log the outcome.

    Conventions of the model.
    - A character is a code point below 256; a string is a [string].
    - A Python [dict] is an association list with one binding per key, in
      insertion order; assignment replaces a binding in place or appends.
    - What the [csv], [yaml] and [json] modules do to text is not part of
      the script.  An input file is the sequence of records [csv.reader]
      yields for it, a configuration file is the value [yaml.safe_load]
      returns for it, and a written table is the sequence of records given
      to [csv.writer].
    - Messages built with f-strings are kept as their template together with
      the interpolated values.
    - A configuration value is what [yaml.safe_load] can return: null, a
      boolean, an integer, a string, a sequence, a mapping, and the three
      kinds of value JSON has no form for, a time stamp (a [date] or a
      [datetime]), binary data ([bytes]) and a set.  Two kinds are left
      out: floating-point scalars, and mappings with a key that is not a
      string (the script looks entries up by a string only); the
      statements about documents are about documents without them.  A set
      is given with its elements in the order its iteration yields them.
    - A path is a directory joined with file names.  [Child d name] is the
      file [name] in [d] when [name] is a single path component; what the
      platform makes of another name (an empty one, a dot, one with a
      separator) is outside the model.
    - Failures of the platform (permissions, disk, encoding) and the
      interpreter's configurable cap on the number of digits [int] accepts
      are outside the model. *)

From Stdlib Require Import List String Ascii ZArith Bool Arith Lia.
Import ListNotations.
Local Open Scope string_scope.
Local Open Scope list_scope.
Local Open Scope nat_scope.

Set Implicit Arguments.

(** ** Python strings and integers *)

Module Py.

(** [str.isspace] on the code points below 256. *)
Definition isspace (c : ascii) : bool :=
  let n := nat_of_ascii c in
  ((9 <=? n) && (n <=? 13)) || ((28 <=? n) && (n <=? 32))
  || (n =? 133) || (n =? 160).

(** The white space [int] itself skips around a literal: it does not skip
    the separators 28..31. *)
Definition int_space (c : ascii) : bool :=
  let n := nat_of_ascii c in
  ((9 <=? n) && (n <=? 13)) || (n =? 32) || (n =? 133) || (n =? 160).

Section Strip.
Variable sp : ascii -> bool.

Fixpoint lstrip_with (s : string) : string :=
  match s with
  | String c s' => if sp c then lstrip_with s' else s
  | EmptyString => EmptyString
  end.

Fixpoint rstrip_with (s : string) : string :=
  match s with
  | EmptyString => EmptyString
  | String c s' =>
      match rstrip_with s' with
      | EmptyString => if sp c then EmptyString else String c EmptyString
      | t => String c t
      end
  end.

Definition strip_with (s : string) : string := rstrip_with (lstrip_with s).
End Strip.

(** [s.strip()] *)
Definition strip : string -> string := strip_with isspace.

Definition digit_of (c : ascii) : option Z :=
  let n := nat_of_ascii c in
  if (48 <=? n) && (n <=? 57) then Some (Z.of_nat (n - 48)) else None.

(** The rest of a decimal literal, read just after a digit: digits, with
    single underscores allowed between two digits. *)
Fixpoint digits (acc : Z) (s : string) : option Z :=
  match s with
  | EmptyString => Some acc
  | String c s' =>
      match digit_of c with
      | Some d => digits (10 * acc + d)%Z s'
      | None =>
          if Ascii.eqb c "_" then
            match s' with
            | String c' s'' =>
                match digit_of c' with
                | Some d => digits (10 * acc + d)%Z s''
                | None => None
                end
            | EmptyString => None
            end
          else None
      end
  end.

Definition unsigned_literal (s : string) : option Z :=
  match s with
  | String c s' =>
      match digit_of c with
      | Some d => digits d s'
      | None => None
      end
  | EmptyString => None
  end.

Definition int_literal (s : string) : option Z :=
  match s with
  | String c s' =>
      if Ascii.eqb c "+" then unsigned_literal s'
      else if Ascii.eqb c "-" then option_map Z.opp (unsigned_literal s')
      else unsigned_literal s
  | EmptyString => None
  end.

(** [int(s)] for a string [s]: [None] stands for [ValueError]. *)
Definition int_of_str (s : string) : option Z :=
  int_literal (strip_with int_space s).

(** The white space [int] skips around a literal given as [bytes]: the
    ASCII one only. *)
Definition ascii_space (c : ascii) : bool :=
  let n := nat_of_ascii c in
  ((9 <=? n) && (n <=? 13)) || (n =? 32).

(** [int(b)] for a [bytes] value [b], a byte being a code point below 256:
    [None] stands for [ValueError]. *)
Definition int_of_bytes (b : string) : option Z :=
  int_literal (strip_with ascii_space b).

End Py.

(** ** Outcomes of a computation *)

Inductive exn : Type :=
| KeyError (k : string)
| TypeError
| AttributeError
| ValueError
| YAMLError
| FileNotFoundError.

(** A function without effects returns or raises. *)
Inductive result (A : Type) : Type :=
| Ok (a : A)
| Raise (e : exn).
Arguments Ok {A} a.
Arguments Raise {A} e.

Definition rbind {A B} (r : result A) (k : A -> result B) : result B :=
  match r with
  | Ok a => k a
  | Raise e => Raise e
  end.

(** A step of the run returns, leaves through [sys.exit], or ends with an
    exception nobody catches. *)
Inductive outcome (A : Type) : Type :=
| Return (a : A)
| Exit (code : Z)
| Uncaught (e : exn).
Arguments Return {A} a.
Arguments Exit {A} code.
Arguments Uncaught {A} e.

Declare Scope res_scope.
Delimit Scope res_scope with res.
Notation "x <- r ;; k" := (rbind r (fun x => k))
  (at level 61, r at next level, right associativity) : res_scope.

(** ** Values of a configuration document *)

#[warnings="-register-all"]
Inductive yaml : Type :=
| YNull
| YBool (b : bool)
| YInt (z : Z)
| YStr (s : string)
| YSeq (l : list yaml)
| YMap (m : list (string * yaml))
| YTime (iso : string)      (* a [date] or [datetime], with its ISO text *)
| YBytes (b : string)       (* [bytes], a byte being a code point below 256 *)
| YSet (l : list yaml).     (* a [set] *)

Fixpoint assoc {V} (k : string) (m : list (string * V)) : option V :=
  match m with
  | [] => None
  | (k', v) :: m' => if String.eqb k k' then Some v else assoc k m'
  end.

(** [d[k]] *)
Definition getitem (d : yaml) (k : string) : result yaml :=
  match d with
  | YMap m => match assoc k m with
              | Some v => Ok v
              | None => Raise (KeyError k)
              end
  | _ => Raise TypeError
  end.

(** [d.get(k, default)] *)
Definition get (d : yaml) (k : string) (default : yaml) : result yaml :=
  match d with
  | YMap m => match assoc k m with
              | Some v => Ok v
              | None => Ok default
              end
  | _ => Raise AttributeError
  end.

(** [bool(v)] *)
Definition py_bool (v : yaml) : bool :=
  match v with
  | YNull => false
  | YBool b => b
  | YInt z => negb (z =? 0)%Z
  | YStr s => negb (String.eqb s "")
  | YSeq l => match l with [] => false | _ => true end
  | YMap m => match m with [] => false | _ => true end
  | YTime _ => true
  | YBytes b => negb (String.eqb b "")
  | YSet l => match l with [] => false | _ => true end
  end.

(** [int(v)] *)
Definition py_int (v : yaml) : result Z :=
  match v with
  | YInt z => Ok z
  | YBool b => Ok (if b then 1 else 0)%Z
  | YStr s => match Py.int_of_str s with
              | Some z => Ok z
              | None => Raise ValueError
              end
  | YBytes b => match Py.int_of_bytes b with
                | Some z => Ok z
                | None => Raise ValueError
                end
  | _ => Raise TypeError
  end.

(** [list(v)] *)
Definition py_list (v : yaml) : result (list yaml) :=
  match v with
  | YSeq l => Ok l
  | YStr s => Ok (map (fun c => YStr (String c EmptyString)) (list_ascii_of_string s))
  | YMap m => Ok (map (fun kv => YStr (fst kv)) m)
  | YBytes b =>
      Ok (map (fun c => YInt (Z.of_nat (nat_of_ascii c))) (list_ascii_of_string b))
  | YSet l => Ok l
  | _ => Raise TypeError
  end.

(** [json.dumps] has a form for the value: it has none for a time stamp,
    binary data or a set, wherever in the value they stand. *)
Fixpoint json_ok (v : yaml) : bool :=
  match v with
  | YNull | YBool _ | YInt _ | YStr _ => true
  | YSeq l => forallb json_ok l
  | YMap m => forallb (fun kv => json_ok (snd kv)) m
  | YTime _ | YBytes _ | YSet _ => false
  end.

(** ** Paths *)

Inductive path : Type :=
| Dir (s : string)
| Child (d : path) (name : string).

(** [Path(v)] *)
Definition py_path (v : yaml) : result path :=
  match v with
  | YStr s => Ok (Dir s)
  | _ => Raise TypeError
  end.

(** [d / v]: only a string can be joined to a path. *)
Definition path_div (d : path) (v : yaml) : result path :=
  match v with
  | YStr s => Ok (Child d s)
  | _ => Raise TypeError
  end.

(** [p.parent] *)
Definition parent (p : path) : path :=
  match p with
  | Child d _ => d
  | Dir s => Dir s
  end.

(** The text an f-string interpolates for a string value; the script only
    formats a file name this way after joining it to a path, which a value
    that is not a string does not survive. *)
Definition text_of (v : yaml) : string :=
  match v with
  | YStr s => s
  | _ => ""
  end.

(** ** Dictionaries of CSV rows *)

(** A key of a row: a column name, or [None], the key under which
    [csv.DictReader] stores the surplus fields of a long record. *)
Definition key : Type := option string.

(** A value of a row: a field, [None] (what [csv.DictReader] stores for
    the fields a short record lacks), or the list of surplus fields. *)
Inductive cell : Type :=
| CStr (s : string)
| CNone
| CList (l : list string).

Definition row : Type := list (key * cell).

Definition key_eqb (a b : key) : bool :=
  match a, b with
  | Some x, Some y => String.eqb x y
  | None, None => true
  | _, _ => false
  end.

Definition key_in (k : key) (ks : list key) : bool := existsb (key_eqb k) ks.

(** [list(r.keys())] *)
Definition keys (r : row) : list key := map fst r.

(** [r.get(k)] *)
Fixpoint dict_get (k : key) (r : row) : option cell :=
  match r with
  | [] => None
  | (k', v) :: r' => if key_eqb k k' then Some v else dict_get k r'
  end.

(** [r[k] = v] *)
Fixpoint dict_set (k : key) (v : cell) (r : row) : row :=
  match r with
  | [] => [(k, v)]
  | (k', v') :: r' =>
      if key_eqb k k' then (k', v) :: r' else (k', v') :: dict_set k v r'
  end.

(** ** Reading: [csv.DictReader] *)

Definition record : Type := list string.

Definition is_blank (r : record) : bool :=
  match r with [] => true | _ => false end.

(** [reader.fieldnames]: the first record of the file, [None] for a file
    without any record. *)
Definition fieldnames (recs : list record) : option record :=
  match recs with
  | [] => None
  | h :: _ => Some h
  end.

(** [dict(zip(names, vals))], built on top of [d]. *)
Fixpoint zip_dict (names vals : list string) (d : row) : row :=
  match names, vals with
  | n :: ns, v :: vs => zip_dict ns vs (dict_set (Some n) (CStr v) d)
  | _, _ => d
  end.

(** One dictionary of [DictReader.__next__], with the default [restkey]
    and [restval], both [None]. *)
Definition reader_row (names vals : record) : row :=
  let d := zip_dict names vals [] in
  let lf := List.length names in
  let lr := List.length vals in
  if lf <? lr then dict_set None (CList (skipn lf vals)) d
  else if lr <? lf then
    fold_left (fun d k => dict_set (Some k) CNone d) (skipn lr names) d
  else d.

(** [list(reader)]: blank records are skipped. *)
Definition reader_rows (recs : list record) : list row :=
  match recs with
  | [] => []
  | h :: data => map (reader_row h) (filter (fun r => negb (is_blank r)) data)
  end.

(** ** The configuration record *)

(** [run_name], [mode] and the file names are stored as the document has
    them: the script does not convert them. *)
Record Config : Type := {
  run_name : yaml;
  mode : yaml;
  fail_fast : bool;
  raw_dir : path;
  staging_dir : path;
  output_dir : path;
  reports_dir : path;
  logs_dir : path;
  source_file : yaml;
  expected_columns : list yaml;
  min_age : Z;
  add_migrated_at_utc : bool;
  add_run_id : bool;
  output_file : yaml;
  report_file : yaml;
  log_file : yaml
}.

(** What is found at the path of the configuration file. *)
Inductive ConfigFile : Type :=
| NoFile
| Unparsable
| Document (data : yaml).

(** [yaml.safe_load(path.read_text(...))] *)
Definition safe_load (f : ConfigFile) : result yaml :=
  match f with
  | NoFile => Raise FileNotFoundError
  | Unparsable => Raise YAMLError
  | Document data => Ok data
  end.

Definition load_config (f : ConfigFile) : result Config :=
  (data <- safe_load f ;;
   run <- getitem data "run" ;;
   run_name <- getitem run "name" ;;
   mode <- get run "mode" (YStr "full") ;;
   fail_fast <- get run "fail_fast" (YBool true) ;;
   paths <- getitem data "paths" ;;
   raw_dir <- (v <- getitem paths "raw_dir" ;; py_path v) ;;
   staging_dir <- (v <- getitem paths "staging_dir" ;; py_path v) ;;
   output_dir <- (v <- getitem paths "output_dir" ;; py_path v) ;;
   reports_dir <- (v <- getitem paths "reports_dir" ;; py_path v) ;;
   logs_dir <- (v <- getitem paths "logs_dir" ;; py_path v) ;;
   inputs <- getitem data "inputs" ;;
   source_file <- getitem inputs "source_file" ;;
   expected_columns <- (v <- getitem inputs "expected_columns" ;; py_list v) ;;
   transform <- getitem data "transform" ;;
   filter <- getitem transform "filter" ;;
   min_age <- (v <- get filter "min_age" (YInt 0) ;; py_int v) ;;
   add_cols <- get transform "add_columns" (YMap []) ;;
   add_migrated_at_utc <- get add_cols "migrated_at_utc" (YBool true) ;;
   add_run_id <- get add_cols "run_id" (YBool true) ;;
   outputs <- getitem data "outputs" ;;
   output_file <- getitem outputs "output_file" ;;
   report_file <- getitem outputs "report_file" ;;
   log_file <- getitem outputs "log_file" ;;
   Ok {| run_name := run_name;
         mode := mode;
         fail_fast := py_bool fail_fast;
         raw_dir := raw_dir;
         staging_dir := staging_dir;
         output_dir := output_dir;
         reports_dir := reports_dir;
         logs_dir := logs_dir;
         source_file := source_file;
         expected_columns := expected_columns;
         min_age := min_age;
         add_migrated_at_utc := py_bool add_migrated_at_utc;
         add_run_id := py_bool add_run_id;
         output_file := output_file;
         report_file := report_file;
         log_file := log_file |})%res.

(** ** Effects *)

(** The report dictionary of [main]. *)
Record Report : Type := {
  r_run_name : yaml;
  r_mode : yaml;
  r_run_id : string;
  r_migrated_at_utc : string;
  r_input_file : path;
  r_staging_file : path;
  r_output_file : path;
  r_input_rows : nat;
  r_output_rows : nat;
  r_headers_seen : list key
}.

(** What is printed on the error stream. *)
Inductive message : Type :=
| Usage
| ConfigNotFound (p : path)
| NoHeaders (p : path)
| MissingColumns (missing : list yaml) (p : path) (headers : list key)
| InputNotFound (p : path).

(** The lines of the log, without their time stamp. *)
Inductive logmsg : Type :=
| Start (name mode : yaml) (run_id : string)
| FailMissingInput (p : path)
| Success (input_rows output_rows : nat) (report : path).

(** What a file is given as content: a text, the records handed to
    [csv.writer], or the JSON text of a report. *)
Inductive content : Type :=
| Text (s : string)
| Table (recs : list (list cell))
| Json (r : Report).

Inductive event : Type :=
| Mkdir (p : path)
| Append (p : path) (ts : string) (m : logmsg)
| Write (p : path) (c : content)
| Stderr (m : message)
| Stdout (r : Report).

(** The state a run threads: how often the clock was read, and what the
    run has done so far, oldest first. *)
Record state : Type := {
  ticks : nat;
  trace : list event
}.

Definition init : state := {| ticks := 0; trace := [] |}.

Definition M (A : Type) : Type := state -> state * outcome A.

Definition ret {A} (a : A) : M A := fun s => (s, Return a).

Definition bind {A B} (m : M A) (k : A -> M B) : M B :=
  fun s =>
    match m s with
    | (s', Return a) => k a s'
    | (s', Exit c) => (s', Exit c)
    | (s', Uncaught e) => (s', Uncaught e)
    end.

(** A function without effects called in the run. *)
Definition lift {A} (r : result A) : M A :=
  fun s =>
    match r with
    | Ok a => (s, Return a)
    | Raise e => (s, Uncaught e)
    end.

(** [sys.exit(code)] *)
Definition sys_exit {A} (code : Z) : M A := fun s => (s, Exit code).

Definition emit (e : event) : M unit :=
  fun s => ({| ticks := ticks s; trace := trace s ++ [e] |}, Return tt).

(** [datetime.now(timezone.utc).isoformat()] under a clock that gives the
    text of its n-th reading. *)
Definition utcnow (clock : nat -> string) : M string :=
  fun s =>
    ({| ticks := S (ticks s); trace := trace s |}, Return (clock (ticks s))).

Declare Scope run_scope.
Delimit Scope run_scope with run.
Notation "x <- m ;; k" := (bind m (fun x => k))
  (at level 61, m at next level, right associativity) : run_scope.
Notation "m ;; k" := (bind m (fun _ => k))
  (at level 61, right associativity) : run_scope.

Definition die {A} (msg : message) : M A :=
  (emit (Stderr msg) ;; sys_exit 1%Z)%run.

Definition log_line (clock : nat -> string) (log_path : path) (msg : logmsg)
  : M unit :=
  (ts <- utcnow clock ;;
   emit (Mkdir (parent log_path)) ;;
   emit (Append log_path ts msg))%run.

Fixpoint mkdirs (ds : list path) : M unit :=
  match ds with
  | [] => ret tt
  | d :: ds' => (emit (Mkdir d) ;; mkdirs ds')%run
  end.

Definition ensure_dirs (cfg : Config) : M unit :=
  mkdirs [raw_dir cfg; staging_dir cfg; output_dir cfg; reports_dir cfg;
          logs_dir cfg].

(** ** The world a run starts in *)

Record World : Type := {
  argv : list string;                      (* [sys.argv], script name first *)
  config_at : string -> ConfigFile;        (* the configuration files *)
  csv_at : path -> option (list record);   (* the CSV files, [None]: no file *)
  uuid4 : string;                          (* [str(uuid.uuid4())] *)
  clock : nat -> string                    (* the readings of the clock *)
}.

(** ** The pipeline *)

Definition read_csv (w : World) (input_path : path) : M (list row) :=
  match csv_at w input_path with
  | None => lift (Raise FileNotFoundError)
  | Some recs =>
      (match fieldnames recs with
       | None => die (NoHeaders input_path)
       | Some _ => ret tt
       end ;;
       ret (reader_rows recs))%run
  end.

(** [c == k] for a configured column [c] and a key [k] of a row. *)
Definition names_key (c : yaml) (k : key) : bool :=
  match c, k with
  | YStr s, Some t => String.eqb s t
  | YNull, None => true
  | _, _ => false
  end.

(** The headers [validate_columns] looks at: the keys of the first row, or
    the header line read again when there is no row. *)
Definition observed_headers (w : World) (rows : list row) (input_path : path)
  : result (list key) :=
  match rows with
  | [] =>
      match csv_at w input_path with
      | None => Raise FileNotFoundError
      | Some recs =>
          match fieldnames recs with
          | Some h => Ok (map Some h)
          | None => Ok []
          end
      end
  | r :: _ => Ok (keys r)
  end.

Definition missing_columns (expected : list yaml) (headers : list key)
  : list yaml :=
  filter (fun c => negb (existsb (names_key c) headers)) expected.

Definition extra_columns (expected : list yaml) (headers : list key)
  : list key :=
  filter (fun c => negb (existsb (fun e => names_key e c) expected)) headers.

Definition nonempty {A} (l : list A) : bool :=
  match l with [] => false | _ => true end.

Definition validate_columns (w : World) (rows : list row)
  (expected : list yaml) (input_path : path) (fail_fast : bool)
  : M (list key) :=
  (headers <- lift (observed_headers w rows input_path) ;;
   let missing := missing_columns expected headers in
   let extra := extra_columns expected headers in
   (if nonempty missing && fail_fast
    then die (MissingColumns missing input_path headers)
    else ret tt) ;;
   ret headers)%run.

(** The [try] block of [transform_rows]: a [ValueError] of [int] is caught
    and gives -1; nothing else is caught. *)
Definition row_age (r : row) : result Z :=
  match (match dict_get (Some "age") r with Some v => v | None => CStr "" end)
  with
  | CStr s =>
      match Py.int_of_str (Py.strip s) with
      | Some z => Ok z
      | None => Ok (-1)%Z
      end
  | CNone => Raise AttributeError
  | CList _ => Raise AttributeError
  end.

(** The row appended to [out] for a retained row. *)
Definition enrich (cfg : Config) (run_id migrated_at : string) (r : row)
  : row :=
  let new_r := r in
  let new_r :=
    if add_migrated_at_utc cfg
    then dict_set (Some "migrated_at_utc") (CStr migrated_at) new_r
    else new_r in
  let new_r :=
    if add_run_id cfg
    then dict_set (Some "run_id") (CStr run_id) new_r
    else new_r in
  new_r.

Fixpoint transform_loop (cfg : Config) (run_id migrated_at : string)
  (rows out : list row) : result (list row) :=
  match rows with
  | [] => Ok out
  | r :: rest =>
      (age <- row_age r ;;
       if (age <? min_age cfg)%Z
       then transform_loop cfg run_id migrated_at rest out
       else transform_loop cfg run_id migrated_at rest
              (out ++ [enrich cfg run_id migrated_at r]))%res
  end.

Definition transform_rows (rows : list row) (cfg : Config)
  (run_id migrated_at : string) : result (list row) :=
  transform_loop cfg run_id migrated_at rows [].

(** ** Writing: [csv.DictWriter] *)

Definition cell_of_key (k : key) : cell :=
  match k with
  | Some s => CStr s
  | None => CNone
  end.

(** [DictWriter._dict_to_list], [None] standing for the [ValueError] raised
    for a row with a key outside the field names. *)
Definition dict_to_list (fields : list key) (r : row) : option (list cell) :=
  if forallb (fun k => key_in k fields) (keys r)
  then Some (map (fun k => match dict_get k r with
                           | Some v => v
                           | None => CStr ""
                           end) fields)
  else None.

(** [writer.writerows(rows)]: the records written, and whether a row
    stopped the loop. *)
Fixpoint writerows (fields : list key) (rows : list row)
  : list (list cell) * bool :=
  match rows with
  | [] => ([], true)
  | r :: rest =>
      match dict_to_list fields r with
      | Some rec => let (recs, ok) := writerows fields rest in (rec :: recs, ok)
      | None => ([], false)
      end
  end.

Definition write_csv (p : path) (rows : list row) : M unit :=
  (emit (Mkdir (parent p)) ;;
   match rows with
   | [] => emit (Write p (Text ""))
   | r0 :: _ =>
       let headers := keys r0 in
       let (recs, ok) := writerows headers rows in
       emit (Write p (Table (map cell_of_key headers :: recs))) ;;
       if ok then ret tt else lift (Raise ValueError)
   end)%run.

(** [json.dumps(obj, indent=2)] for a report: the run name and the mode
    are as the configuration document has them, and [TypeError] is raised
    for one JSON has no form for; the other fields are strings, integers
    and a list of strings or [None]. *)
Definition json_dumps (obj : Report) : result content :=
  if json_ok (r_run_name obj) && json_ok (r_mode obj)
  then Ok (Json obj)
  else Raise TypeError.

(** The text is built before the file is opened: a report that cannot be
    serialised leaves the directory and no file. *)
Definition write_json (p : path) (obj : Report) : M unit :=
  (emit (Mkdir (parent p)) ;;
   text <- lift (json_dumps obj) ;;
   emit (Write p text))%run.

(** ** The run *)

Definition main (w : World) : M Z :=
  match argv w with
  | [_; arg] =>
      let cfg_path := Dir arg in
      (match config_at w arg with
       | NoFile => die (ConfigNotFound cfg_path)
       | _ => ret tt
       end ;;
       cfg <- lift (load_config (config_at w arg)) ;;
       ensure_dirs cfg ;;
       let run_id := uuid4 w in
       migrated_at <- utcnow (clock w) ;;
       log_path <- lift (path_div (logs_dir cfg) (log_file cfg)) ;;
       log_line (clock w) log_path (Start (run_name cfg) (mode cfg) run_id) ;;
       input_path <- lift (path_div (raw_dir cfg) (source_file cfg)) ;;
       match csv_at w input_path with
       | None =>
           log_line (clock w) log_path (FailMissingInput input_path) ;;
           die (InputNotFound input_path)
       | Some _ => ret tt
       end ;;
       rows <- read_csv w input_path ;;
       headers <- validate_columns w rows (expected_columns cfg) input_path
                    (fail_fast cfg) ;;
       transformed <- lift (transform_rows rows cfg run_id migrated_at) ;;
       let staging_path :=
         Child (staging_dir cfg)
               (String.append "staged_" (text_of (source_file cfg))) in
       output_path <- lift (path_div (output_dir cfg) (output_file cfg)) ;;
       write_csv staging_path transformed ;;
       write_csv output_path transformed ;;
       let report :=
         {| r_run_name := run_name cfg;
            r_mode := mode cfg;
            r_run_id := run_id;
            r_migrated_at_utc := migrated_at;
            r_input_file := input_path;
            r_staging_file := staging_path;
            r_output_file := output_path;
            r_input_rows := List.length rows;
            r_output_rows := List.length transformed;
            r_headers_seen := headers |} in
       report_path <- lift (path_div (reports_dir cfg) (report_file cfg)) ;;
       write_json report_path report ;;
       log_line (clock w) log_path
         (Success (List.length rows) (List.length transformed) report_path) ;;
       _ <- lift (json_dumps report) ;;
       emit (Stdout report) ;;
       ret 0%Z)%run
  | _ => (emit (Stderr Usage) ;; ret 2%Z)%run
  end.

(** The status the process ends with: [raise SystemExit(main())] gives the
    value [main] returns, [sys.exit] its argument, and the interpreter ends
    with 1 on an exception nobody caught. *)
Definition exit_status (r : outcome Z) : Z :=
  match r with
  | Return n => n
  | Exit c => c
  | Uncaught _ => 1%Z
  end.

Definition run (w : World) : list event * Z :=
  let (s, r) := main w init in (trace s, exit_status r).

(** ** Notions used by the statements *)

(** The age of a row in the words of the specification: the integer its
    stripped [age] field spells, and the sentinel -1 when the field is
    absent, empty, blank or does not spell an integer. *)
Definition claimed_age (r : row) : Z :=
  match dict_get (Some "age") r with
  | Some (CStr s) =>
      match Py.int_of_str (Py.strip s) with
      | Some z => z
      | None => (-1)%Z
      end
  | _ => (-1)%Z
  end.

(** The [age] entry of the row, if any, is a string. *)
Definition age_is_text (r : row) : bool :=
  match dict_get (Some "age") r with
  | Some (CStr _) => true
  | None => true
  | Some _ => false
  end.

(** The row passes the filter of [transform_rows]. *)
Definition retained (cfg : Config) (r : row) : bool :=
  match row_age r with
  | Ok age => negb (age <? min_age cfg)%Z
  | _ => false
  end.

Definition migrated_key : key := Some "migrated_at_utc".
Definition run_id_key : key := Some "run_id".

(** The fields [enrich] adds to a row that has none of them yet. *)
Definition added_fields (cfg : Config) (run_id migrated_at : string) : row :=
  (if add_migrated_at_utc cfg then [(migrated_key, CStr migrated_at)] else [])
  ++ (if add_run_id cfg then [(run_id_key, CStr run_id)] else []).

(** The row already has a column named like a field [enrich] is to add. *)
Definition collides (cfg : Config) (r : row) : bool :=
  (add_migrated_at_utc cfg && key_in migrated_key (keys r))
  || (add_run_id cfg && key_in run_id_key (keys r)).

(** The key is one [enrich] assigns under this configuration. *)
Definition assigned (cfg : Config) (k : key) : bool :=
  (add_migrated_at_utc cfg && key_eqb migrated_key k)
  || (add_run_id cfg && key_eqb run_id_key k).

(** Every data record is blank or has as many fields as the header. *)
Definition rectangular (h : record) (data : list record) : bool :=
  forallb (fun r => is_blank r || (List.length r =? List.length h)) data.

(** Every configured column is among the names of the header line. *)
Definition covers (h : record) (expected : list yaml) : bool :=
  forallb (fun c => existsb (names_key c) (map Some h)) expected.

Definition is_text (v : yaml) : bool :=
  match v with YStr _ => true | _ => false end.

Definition is_map (v : yaml) : bool :=
  match v with YMap _ => true | _ => false end.

(** What [list] accepts. *)
Definition is_listable (v : yaml) : bool :=
  match v with
  | YSeq _ | YStr _ | YMap _ | YBytes _ | YSet _ => true
  | _ => false
  end.

(** A value is numeric when it is an integer, a boolean (an [int] in
    Python) or a string, or binary data, that spells an integer. *)
Definition numeric (v : yaml) : bool :=
  match v with
  | YInt _ => true
  | YBool _ => true
  | YStr s => match Py.int_of_str s with Some _ => true | None => false end
  | YBytes b => match Py.int_of_bytes b with Some _ => true | None => false end
  | _ => false
  end.

(** The file names of the configuration are strings, as a run needs them
    to build its paths. *)
Definition names_are_text (cfg : Config) : bool :=
  is_text (source_file cfg) && is_text (output_file cfg)
  && is_text (report_file cfg) && is_text (log_file cfg).

(** A single path component: a string that is not empty, is neither of
    the two dot names and has no separator and no NUL.  Joined to a
    directory it names a file in that directory. *)
Definition plain_name (v : yaml) : bool :=
  match v with
  | YStr s =>
      negb (String.eqb s "") && negb (String.eqb s ".")
      && negb (String.eqb s "..")
      && forallb (fun c => negb (Ascii.eqb c "/") && negb (Ascii.eqb c zero))
           (list_ascii_of_string s)
  | _ => false
  end.

(** The file names of the configuration are single path components. *)
Definition names_are_plain (cfg : Config) : bool :=
  plain_name (source_file cfg) && plain_name (output_file cfg)
  && plain_name (report_file cfg) && plain_name (log_file cfg).

(** JSON has a form for the run name and the mode, the two values the
    report takes from the document as they are. *)
Definition report_is_json (cfg : Config) : bool :=
  json_ok (run_name cfg) && json_ok (mode cfg).

(** The value at a path of keys in a document. *)
Fixpoint lookup (d : yaml) (ks : list string) : option yaml :=
  match ks with
  | [] => Some d
  | k :: ks' =>
      match d with
      | YMap m => match assoc k m with
                  | Some v => lookup v ks'
                  | None => None
                  end
      | _ => None
      end
  end.

(** The fields the specification lists as required. *)
Definition required_fields : list (list string) :=
  [ ["run"; "name"];
    ["paths"; "raw_dir"]; ["paths"; "staging_dir"]; ["paths"; "output_dir"];
    ["paths"; "reports_dir"]; ["paths"; "logs_dir"];
    ["inputs"; "source_file"]; ["inputs"; "expected_columns"];
    ["outputs"; "output_file"]; ["outputs"; "report_file"];
    ["outputs"; "log_file"] ].

(** The section [load_config] subscripts without the specification listing
    it. *)
Definition filter_section : list string := ["transform"; "filter"].

Definition holds_at (d : yaml) (p : yaml -> bool) (ks : list string) : bool :=
  match lookup d ks with Some v => p v | None => false end.

Definition holds_if_at (d : yaml) (p : yaml -> bool) (ks : list string)
  : bool :=
  match lookup d ks with Some v => p v | None => true end.

(** A document [load_config] accepts: the required fields are there, the
    directories are strings, the columns can be listed, the filter section
    is a mapping, and what is optional is absent or of the right kind. *)
Definition valid_document (d : yaml) : bool :=
  forallb (holds_at d (fun _ => true)) required_fields
  && forallb (holds_at d is_text)
       [ ["paths"; "raw_dir"]; ["paths"; "staging_dir"];
         ["paths"; "output_dir"]; ["paths"; "reports_dir"];
         ["paths"; "logs_dir"] ]
  && holds_at d is_listable ["inputs"; "expected_columns"]
  && holds_at d is_map filter_section
  && holds_if_at d numeric ["transform"; "filter"; "min_age"]
  && holds_if_at d is_map ["transform"; "add_columns"].

(** The contents the two calls of [write_csv] give a file for [rows], when
    no row stops the writer. *)
Definition table_of (rows : list row) : content :=
  match rows with
  | [] => Text ""
  | r0 :: _ =>
      Table (map cell_of_key (keys r0) :: fst (writerows (keys r0) rows))
  end.

(** A write of [write_csv]. *)
Definition tabular (e : event) : bool :=
  match e with
  | Write _ (Table _) => true
  | Write _ (Text _) => true
  | _ => false
  end.

Definition is_file_write (e : event) : bool :=
  match e with Write _ _ => true | _ => false end.

Definition is_success_line (e : event) : bool :=
  match e with Append _ _ (Success _ _ _) => true | _ => false end.

(** An effect on the file system. *)
Definition touches_files (e : event) : bool :=
  match e with
  | Mkdir _ | Append _ _ _ | Write _ _ => true
  | _ => false
  end.

Definition yaml_is (c : string) (v : yaml) : bool :=
  match v with YStr s => String.eqb c s | _ => false end.

Definition report_names (c : string) (r : Report) : bool :=
  yaml_is c (r_run_name r) || yaml_is c (r_mode r)
  || String.eqb c (r_run_id r) || String.eqb c (r_migrated_at_utc r)
  || key_in (Some c) (r_headers_seen r).

(** The column name [c] appears in what the event logs, reports or prints. *)
Definition names_column (c : string) (e : event) : bool :=
  match e with
  | Append _ _ (Start n m id) => yaml_is c n || yaml_is c m || String.eqb c id
  | Append _ _ _ => false
  | Write _ (Json r) => report_names c r
  | Stdout r => report_names c r
  | Stderr (MissingColumns missing _ headers) =>
      existsb (yaml_is c) missing || key_in (Some c) headers
  | _ => false
  end.

(** Every value of the row is a string. *)
Definition all_text (r : row) : bool :=
  forallb (fun kv => match snd kv with CStr _ => true | _ => false end) r.

(** No row has a key outside the keys of the first one: the condition under
    which [writerows] goes through all of [rows]. *)
Definition writable (rows : list row) : bool :=
  match rows with
  | [] => true
  | r0 :: _ =>
      forallb (fun r => forallb (fun k => key_in k (keys r0)) (keys r)) rows
  end.

(** The path of the staging file. *)
Definition staging_path_of (cfg : Config) : path :=
  Child (staging_dir cfg) (String.append "staged_" (text_of (source_file cfg))).

(** The report [main] builds. *)
Definition report_of (w : World) (cfg : Config) (input_path output_path : path)
  (rows transformed : list row) (headers : list key) : Report :=
  {| r_run_name := run_name cfg;
     r_mode := mode cfg;
     r_run_id := uuid4 w;
     r_migrated_at_utc := clock w 0;
     r_input_file := input_path;
     r_staging_file := staging_path_of cfg;
     r_output_file := output_path;
     r_input_rows := List.length rows;
     r_output_rows := List.length transformed;
     r_headers_seen := headers |}.

(** What a run has done once the START line is logged. *)
Definition start_events (w : World) (cfg : Config) (log_path : path)
  : list event :=
  [ Mkdir (raw_dir cfg); Mkdir (staging_dir cfg); Mkdir (output_dir cfg);
    Mkdir (reports_dir cfg); Mkdir (logs_dir cfg);
    Mkdir (parent log_path);
    Append log_path (clock w 1)
      (Start (run_name cfg) (mode cfg) (uuid4 w)) ].

(** What a run that reaches its end has done. *)
Definition success_events (w : World) (cfg : Config)
  (log_path input_path output_path report_path : path)
  (rows transformed : list row) (headers : list key) : list event :=
  start_events w cfg log_path
  ++ [ Mkdir (parent (staging_path_of cfg));
       Write (staging_path_of cfg) (table_of transformed);
       Mkdir (parent output_path);
       Write output_path (table_of transformed);
       Mkdir (parent report_path);
       Write report_path
         (Json (report_of w cfg input_path output_path rows transformed
                  headers));
       Mkdir (parent log_path);
       Append log_path (clock w 2)
         (Success (List.length rows) (List.length transformed) report_path);
       Stdout (report_of w cfg input_path output_path rows transformed
                 headers) ].

(** [o] if there, [d] otherwise: what [dict.get] returns. *)
Definition or_default (o : option yaml) (d : yaml) : yaml :=
  match o with
  | Some v => v
  | None => d
  end.

(** ** Sample documents and worlds *)

Definition sample_paths : yaml :=
  YMap [ ("raw_dir", YStr "raw"); ("staging_dir", YStr "staging");
         ("output_dir", YStr "output"); ("reports_dir", YStr "reports");
         ("logs_dir", YStr "logs") ].

Definition sample_outputs : yaml :=
  YMap [ ("output_file", YStr "people_out.csv");
         ("report_file", YStr "report.json");
         ("log_file", YStr "run.log") ].

Definition sample_inputs (expected : list string) : yaml :=
  YMap [ ("source_file", YStr "people.csv");
         ("expected_columns", YSeq (map YStr expected)) ].

(** A document with the given optional fields of [run], expected columns
    and content of the [transform] section. *)
Definition sample_document (run : list (string * yaml))
  (expected : list string) (transform : list (string * yaml)) : yaml :=
  YMap [ ("run", YMap (("name", YStr "demo") :: run));
         ("paths", sample_paths);
         ("inputs", sample_inputs expected);
         ("transform", YMap transform);
         ("outputs", sample_outputs) ].

(** A document with every field the specification lists as required and
    nothing else. *)
Definition bare_document : yaml :=
  YMap [ ("run", YMap [("name", YStr "demo")]);
         ("paths", sample_paths);
         ("inputs", sample_inputs ["id"; "age"]);
         ("outputs", sample_outputs) ].

(** A world with one configuration file, [config.yaml], and at most one
    CSV file, [raw/people.csv]. *)
Definition sample_world (args : list string) (file : ConfigFile)
  (input : option (list record)) : World :=
  {| argv := "run_migration.py" :: args;
     config_at := fun p => if String.eqb p "config.yaml" then file else NoFile;
     csv_at := fun p =>
       match p with
       | Child (Dir d) n =>
           if String.eqb d "raw" && String.eqb n "people.csv"
           then input else None
       | _ => None
       end;
     uuid4 := "3f2b8c1e-7a54-4d0e-9b61-5c2a8e4f1d07";
     clock := fun n =>
       match n with
       | 0 => "2024-05-01T10:00:00+00:00"
       | 1 => "2024-05-01T10:00:01+00:00"
       | _ => "2024-05-01T10:00:02+00:00"
       end |}.

(** The configuration of [sample_document] with a threshold and the two
    flags. *)
Definition sample_config (threshold : Z) (stamp ident : bool) : Config :=
  {| run_name := YStr "demo";
     mode := YStr "full";
     fail_fast := true;
     raw_dir := Dir "raw";
     staging_dir := Dir "staging";
     output_dir := Dir "output";
     reports_dir := Dir "reports";
     logs_dir := Dir "logs";
     source_file := YStr "people.csv";
     expected_columns := [YStr "id"; YStr "age"];
     min_age := threshold;
     add_migrated_at_utc := stamp;
     add_run_id := ident;
     output_file := YStr "people_out.csv";
     report_file := YStr "report.json";
     log_file := YStr "run.log" |}.

(** A document, and its configuration, whose report file name is a number. *)
Definition numbered_report_document : yaml :=
  YMap [ ("run", YMap [("name", YStr "demo")]);
         ("paths", sample_paths);
         ("inputs", sample_inputs ["id"; "age"]);
         ("transform", YMap [("filter", YMap [])]);
         ("outputs", YMap [ ("output_file", YStr "people_out.csv");
                            ("report_file", YInt 7);
                            ("log_file", YStr "run.log") ]) ].

Definition numbered_report_config : Config :=
  {| run_name := YStr "demo";
     mode := YStr "full";
     fail_fast := true;
     raw_dir := Dir "raw";
     staging_dir := Dir "staging";
     output_dir := Dir "output";
     reports_dir := Dir "reports";
     logs_dir := Dir "logs";
     source_file := YStr "people.csv";
     expected_columns := [YStr "id"; YStr "age"];
     min_age := 0%Z;
     add_migrated_at_utc := true;
     add_run_id := true;
     output_file := YStr "people_out.csv";
     report_file := YInt 7;
     log_file := YStr "run.log" |}.

(** A document, and its configuration, whose run name YAML reads as a
    date: [name: 2024-01-01]. *)
Definition dated_document : yaml :=
  YMap [ ("run", YMap [("name", YTime "2024-01-01")]);
         ("paths", sample_paths);
         ("inputs", sample_inputs ["id"; "age"]);
         ("transform", YMap [("filter", YMap [])]);
         ("outputs", sample_outputs) ].

Definition dated_config : Config :=
  {| run_name := YTime "2024-01-01";
     mode := YStr "full";
     fail_fast := true;
     raw_dir := Dir "raw";
     staging_dir := Dir "staging";
     output_dir := Dir "output";
     reports_dir := Dir "reports";
     logs_dir := Dir "logs";
     source_file := YStr "people.csv";
     expected_columns := [YStr "id"; YStr "age"];
     min_age := 0%Z;
     add_migrated_at_utc := true;
     add_run_id := true;
     output_file := YStr "people_out.csv";
     report_file := YStr "report.json";
     log_file := YStr "run.log" |}.

(** ** Runs that stop early *)

(** Why a run stops after it has logged its START line. *)
Inductive after_start : Type :=
| InputPathError (e : exn)
| InputMissing (input_path : path)
| HeaderMissing (input_path : path)
| SchemaViolation (missing : list yaml) (input_path : path)
    (headers : list key)
| TransformError (e : exn)
| OutputPathError (e : exn)
| WriterError (recs : list (list cell))
| ReportPathError (output_path : path) (transformed : list row) (e : exn)
| ReportError (output_path report_path : path) (transformed : list row).

(** Where a run that does not reach its end stops. *)
Inductive stop : Type :=
| AtUsage
| AtConfigMissing (arg : string)
| AtConfig (e : exn)
| AtLogPath (cfg : Config) (e : exn)
| AfterStart (cfg : Config) (log_path : path) (why : after_start).

(** What [ensure_dirs] does. *)
Definition five_dirs (cfg : Config) : list event :=
  [ Mkdir (raw_dir cfg); Mkdir (staging_dir cfg); Mkdir (output_dir cfg);
    Mkdir (reports_dir cfg); Mkdir (logs_dir cfg) ].

(** What a run does between its START line and the point it stops at. *)
Definition late_events (w : World) (cfg : Config) (log_path : path)
  (why : after_start) : list event :=
  match why with
  | InputPathError _ => []
  | InputMissing input_path =>
      [ Mkdir (parent log_path);
        Append log_path (clock w 2) (FailMissingInput input_path);
        Stderr (InputNotFound input_path) ]
  | HeaderMissing input_path => [Stderr (NoHeaders input_path)]
  | SchemaViolation missing input_path headers =>
      [Stderr (MissingColumns missing input_path headers)]
  | TransformError _ => []
  | OutputPathError _ => []
  | WriterError recs =>
      [ Mkdir (parent (staging_path_of cfg));
        Write (staging_path_of cfg) (Table recs) ]
  | ReportPathError output_path transformed _ =>
      [ Mkdir (parent (staging_path_of cfg));
        Write (staging_path_of cfg) (table_of transformed);
        Mkdir (parent output_path);
        Write output_path (table_of transformed) ]
  | ReportError output_path report_path transformed =>
      [ Mkdir (parent (staging_path_of cfg));
        Write (staging_path_of cfg) (table_of transformed);
        Mkdir (parent output_path);
        Write output_path (table_of transformed);
        Mkdir (parent report_path) ]
  end.

Definition stop_events (w : World) (st : stop) : list event :=
  match st with
  | AtUsage => [Stderr Usage]
  | AtConfigMissing arg => [Stderr (ConfigNotFound (Dir arg))]
  | AtConfig _ => []
  | AtLogPath cfg _ => five_dirs cfg
  | AfterStart cfg log_path why =>
      start_events w cfg log_path ++ late_events w cfg log_path why
  end.

Definition stop_outcome (st : stop) : outcome Z :=
  match st with
  | AtUsage => Return 2%Z
  | AtConfigMissing _ => Exit 1%Z
  | AtConfig e => Uncaught e
  | AtLogPath _ e => Uncaught e
  | AfterStart _ _ why =>
      match why with
      | InputPathError e => Uncaught e
      | TransformError e => Uncaught e
      | OutputPathError e => Uncaught e
      | ReportPathError _ _ e => Uncaught e
      | ReportError _ _ _ => Uncaught TypeError
      | WriterError _ => Uncaught ValueError
      | InputMissing _ => Exit 1%Z
      | HeaderMissing _ => Exit 1%Z
      | SchemaViolation _ _ _ => Exit 1%Z
      end
  end.

(** The configuration the run resolved. *)
Definition resolved (w : World) (cfg : Config) : Prop :=
  exists script arg,
    argv w = [script; arg] /\ load_config (config_at w arg) = Ok cfg.

(** What is known of the world of a run that stops at [st]. *)
Definition stop_ok (w : World) (st : stop) : Prop :=
  match st with
  | AtUsage => List.length (argv w) <> 2
  | AtConfigMissing arg =>
      exists script, argv w = [script; arg] /\ config_at w arg = NoFile
  | AtConfig e =>
      exists script arg,
        argv w = [script; arg] /\ load_config (config_at w arg) = Raise e
  | AtLogPath cfg e =>
      resolved w cfg /\ path_div (logs_dir cfg) (log_file cfg) = Raise e
  | AfterStart cfg log_path _ =>
      resolved w cfg /\ path_div (logs_dir cfg) (log_file cfg) = Ok log_path
  end.

(** ** The writer, without its loop *)

(** The row has no key outside [fields]. *)
Definition fits (fields : list key) (r : row) : bool :=
  forallb (fun k => key_in k fields) (keys r).

(** The cells of a row under [fields], an absent key giving the empty
    string. *)
Definition cells_of (fields : list key) (r : row) : list cell :=
  map (fun k => match dict_get k r with
                | Some v => v
                | None => CStr ""
                end) fields.

Fixpoint take_while {A} (p : A -> bool) (l : list A) : list A :=
  match l with
  | [] => []
  | x :: l' => if p x then x :: take_while p l' else []
  end.

(** The strings of the values of a row. *)
Definition values_text (r : row) : record :=
  map (fun kv => match snd kv with CStr s => s | _ => EmptyString end) r.

(** ** Notions used by the further properties *)

Inductive line_kind : Type := KStart | KFail | KSuccess.

(** The kinds of the lines a run appends to its log, oldest first. *)
Definition log_kinds (events : list event) : list line_kind :=
  flat_map (fun e => match e with
                     | Append _ _ (Start _ _ _) => [KStart]
                     | Append _ _ (FailMissingInput _) => [KFail]
                     | Append _ _ (Success _ _ _) => [KSuccess]
                     | _ => []
                     end) events.

(** The files a run appends to. *)
Definition log_paths (events : list event) : list path :=
  flat_map (fun e => match e with Append p _ _ => [p] | _ => [] end) events.

(** The reports a run writes, and the ones it prints. *)
Definition reports_written (events : list event) : list Report :=
  flat_map (fun e => match e with Write _ (Json r) => [r] | _ => [] end) events.

Definition reports_printed (events : list event) : list Report :=
  flat_map (fun e => match e with Stdout r => [r] | _ => [] end) events.

(** The counts of the SUCCESS lines a run logs. *)
Definition success_counts (events : list event) : list (nat * nat) :=
  flat_map (fun e => match e with
                     | Append _ _ (Success n m _) => [(n, m)]
                     | _ => []
                     end) events.

(** The text [csv.writer] writes for a field: a string as it is, [None]
    as the empty string; the text of a list is not modelled. *)
Fixpoint texts (cs : list cell) : option record :=
  match cs with
  | [] => Some []
  | CStr s :: cs' => option_map (cons s) (texts cs')
  | CNone :: cs' => option_map (cons EmptyString) (texts cs')
  | CList _ :: _ => None
  end.

Fixpoint all_texts (recs : list (list cell)) : option (list record) :=
  match recs with
  | [] => Some []
  | cs :: recs' =>
      match texts cs, all_texts recs' with
      | Some r, Some rs => Some (r :: rs)
      | _, _ => None
      end
  end.

(** The records [csv.reader] finds in a file [write_csv] wrote. *)
Definition records_of (c : content) : option (list record) :=
  match c with
  | Table recs => all_texts recs
  | Text s => if String.eqb s "" then Some [] else None
  | Json _ => None
  end.

(** * Properties *)

(** ** Dictionaries *)

Lemma key_eqb_refl (k : key) : key_eqb k k = true.
Proof. destruct k; simpl; auto using String.eqb_refl. Qed.

Lemma key_eqb_eq (a b : key) : key_eqb a b = true <-> a = b.
Proof.
  destruct a, b; simpl; split; intros H; try discriminate; auto.
  - apply String.eqb_eq in H. now subst.
  - inversion H. apply String.eqb_refl.
Qed.

Lemma key_eqb_sym (a b : key) : key_eqb a b = key_eqb b a.
Proof.
  destruct (key_eqb a b) eqn:E.
  - apply key_eqb_eq in E. subst. symmetry. apply key_eqb_refl.
  - destruct (key_eqb b a) eqn:E'; auto.
    apply key_eqb_eq in E'. subst. now rewrite key_eqb_refl in E.
Qed.

Lemma dict_get_set_same (k : key) (v : cell) (r : row) :
  dict_get k (dict_set k v r) = Some v.
Proof.
  induction r as [|[k' v'] r IH]; simpl.
  - now rewrite key_eqb_refl.
  - destruct (key_eqb k k') eqn:E; simpl; rewrite E; auto.
Qed.

Lemma dict_get_set_other (k k' : key) (v : cell) (r : row) :
  key_eqb k k' = false -> dict_get k' (dict_set k v r) = dict_get k' r.
Proof.
  intros Hk. induction r as [|[k0 v0] r IH]; simpl.
  - rewrite key_eqb_sym. now rewrite Hk.
  - destruct (key_eqb k k0) eqn:E; simpl.
    + apply key_eqb_eq in E. subst k0.
      rewrite key_eqb_sym, Hk. reflexivity.
    + now rewrite IH.
Qed.

Lemma keys_dict_set (k : key) (v : cell) (r : row) :
  keys (dict_set k v r) = if key_in k (keys r) then keys r else keys r ++ [k].
Proof.
  unfold keys, key_in. induction r as [|[k' v'] r IH]; simpl; auto.
  destruct (key_eqb k k') eqn:E; simpl; auto.
  rewrite IH. now destruct (existsb (key_eqb k) (map fst r)).
Qed.

Lemma dict_set_fresh (k : key) (v : cell) (r : row) :
  key_in k (keys r) = false -> dict_set k v r = r ++ [(k, v)].
Proof.
  unfold keys, key_in. induction r as [|[k' v'] r IH]; simpl; auto.
  intros H. apply orb_false_iff in H. destruct H as [E H].
  rewrite E. now rewrite IH.
Qed.

Lemma length_dict_set (k : key) (v : cell) (r : row) :
  List.length r <= List.length (dict_set k v r).
Proof.
  induction r as [|[k' v'] r IH]; simpl; auto.
  destruct (key_eqb k k'); simpl; lia.
Qed.

Lemma dict_get_none_iff (k : key) (r : row) :
  dict_get k r = None <-> key_in k (keys r) = false.
Proof.
  unfold keys, key_in. induction r as [|[k' v'] r IH]; simpl.
  - tauto.
  - destruct (key_eqb k k'); simpl; [split; discriminate | exact IH].
Qed.

Lemma key_in_app (k : key) (a b : list key) :
  key_in k (a ++ b) = key_in k a || key_in k b.
Proof. unfold key_in. apply existsb_app. Qed.

(** ** The row transformer *)

Lemma row_age_text (r : row) :
  age_is_text r = true -> row_age r = Ok (claimed_age r).
Proof.
  unfold age_is_text, row_age, claimed_age.
  destruct (dict_get (Some "age") r) as [[s| |l]|]; try discriminate; intros _.
  - now destruct (Py.int_of_str (Py.strip s)).
  - reflexivity.
Qed.

Lemma retained_text (cfg : Config) (r : row) :
  age_is_text r = true ->
  retained cfg r = (min_age cfg <=? claimed_age r)%Z.
Proof.
  intros H. unfold retained. rewrite (row_age_text r H).
  rewrite Z.leb_antisym. reflexivity.
Qed.

Lemma transform_loop_ok (cfg : Config) (run_id migrated_at : string)
  (rows : list row) :
  forall out res,
    transform_loop cfg run_id migrated_at rows out = Ok res ->
    res = out ++ map (enrich cfg run_id migrated_at) (filter (retained cfg) rows).
Proof.
  induction rows as [|r rows IH]; simpl; intros out res H.
  - inversion H. now rewrite app_nil_r.
  - unfold retained. destruct (row_age r) as [age|]; simpl in *;
      try discriminate.
    destruct (age <? min_age cfg)%Z; simpl.
    + now apply IH.
    + apply IH in H. rewrite H, <- app_assoc. reflexivity.
Qed.

Lemma transform_loop_text (cfg : Config) (run_id migrated_at : string)
  (rows : list row) :
  forallb age_is_text rows = true ->
  forall out,
    transform_loop cfg run_id migrated_at rows out =
    Ok (out ++ map (enrich cfg run_id migrated_at) (filter (retained cfg) rows)).
Proof.
  induction rows as [|r rows IH]; simpl; intros H out.
  - now rewrite app_nil_r.
  - apply andb_true_iff in H. destruct H as [Hr Hrows].
    unfold retained. rewrite (row_age_text r Hr). simpl.
    destruct (claimed_age r <? min_age cfg)%Z; simpl.
    + now apply IH.
    + rewrite IH by assumption. now rewrite <- app_assoc.
Qed.

Lemma transform_rows_text (cfg : Config) (run_id migrated_at : string)
  (rows : list row) :
  forallb age_is_text rows = true ->
  transform_rows rows cfg run_id migrated_at =
  Ok (map (enrich cfg run_id migrated_at) (filter (retained cfg) rows)).
Proof.
  intros H. unfold transform_rows. now rewrite transform_loop_text.
Qed.

Lemma transform_rows_ok (cfg : Config) (run_id migrated_at : string)
  (rows out : list row) :
  transform_rows rows cfg run_id migrated_at = Ok out ->
  out = map (enrich cfg run_id migrated_at) (filter (retained cfg) rows).
Proof. intros H. now apply transform_loop_ok in H. Qed.

Lemma enrich_keeps (cfg : Config) (run_id migrated_at : string) (r : row)
  (k : key) :
  assigned cfg k = false ->
  dict_get k (enrich cfg run_id migrated_at r) = dict_get k r.
Proof.
  unfold assigned, enrich. intros H.
  apply orb_false_iff in H. destruct H as [H1 H2].
  destruct (add_run_id cfg), (add_migrated_at_utc cfg); simpl in *;
    repeat rewrite dict_get_set_other by assumption; reflexivity.
Qed.

Lemma enrich_fresh (cfg : Config) (run_id migrated_at : string) (r : row) :
  collides cfg r = false ->
  enrich cfg run_id migrated_at r = r ++ added_fields cfg run_id migrated_at.
Proof.
  unfold collides, enrich, added_fields. intros H.
  apply orb_false_iff in H. destruct H as [H1 H2].
  destruct (add_migrated_at_utc cfg), (add_run_id cfg);
    rewrite ?andb_true_l in H1, H2.
  - rewrite (dict_set_fresh _ _ _ H1).
    rewrite dict_set_fresh.
    + now rewrite <- app_assoc.
    + unfold keys, run_id_key in *. rewrite map_app, key_in_app, H2. reflexivity.
  - rewrite (dict_set_fresh _ _ _ H1). now rewrite app_nil_r.
  - now rewrite (dict_set_fresh _ _ _ H2).
  - now rewrite app_nil_r.
Qed.

Lemma enrich_values (cfg : Config) (run_id migrated_at : string) (r : row) :
  (add_migrated_at_utc cfg = true ->
   dict_get migrated_key (enrich cfg run_id migrated_at r)
   = Some (CStr migrated_at))
  /\ (add_run_id cfg = true ->
      dict_get run_id_key (enrich cfg run_id migrated_at r)
      = Some (CStr run_id)).
Proof.
  unfold enrich. split; intros H; rewrite H.
  - destruct (add_run_id cfg).
    + rewrite dict_get_set_other by reflexivity. apply dict_get_set_same.
    + apply dict_get_set_same.
  - apply dict_get_set_same.
Qed.

Lemma enrich_length (cfg : Config) (run_id migrated_at : string) (r : row) :
  List.length r <= List.length (enrich cfg run_id migrated_at r).
Proof.
  unfold enrich.
  destruct (add_migrated_at_utc cfg), (add_run_id cfg); auto.
  - etransitivity; [apply length_dict_set | apply length_dict_set].
  - apply length_dict_set.
  - apply length_dict_set.
Qed.

Lemma filter_retained_text (cfg : Config) (rows : list row) :
  forallb age_is_text rows = true ->
  filter (retained cfg) rows
  = filter (fun r => (min_age cfg <=? claimed_age r)%Z) rows.
Proof.
  induction rows as [|r rows IH]; simpl; intros H; auto.
  apply andb_true_iff in H. destruct H as [Hr Hrows].
  rewrite (retained_text cfg r Hr), (IH Hrows). reflexivity.
Qed.

Lemma key_in_dict_set (k k' : key) (v : cell) (d : row) :
  key_in k (keys (dict_set k' v d)) = key_in k (keys d) || key_eqb k k'.
Proof.
  rewrite keys_dict_set. destruct (key_in k' (keys d)) eqn:E.
  - destruct (key_eqb k k') eqn:E'.
    + apply key_eqb_eq in E'. subst. rewrite E. reflexivity.
    + now rewrite orb_false_r.
  - rewrite key_in_app. simpl. now rewrite orb_false_r.
Qed.

Lemma enrich_key_in (cfg : Config) (run_id migrated_at : string) (r : row)
  (k : key) :
  key_in k (keys (enrich cfg run_id migrated_at r))
  = key_in k (keys r) || assigned cfg k.
Proof.
  unfold enrich, assigned.
  destruct (add_migrated_at_utc cfg), (add_run_id cfg);
    rewrite ?key_in_dict_set; rewrite ?(key_eqb_sym k);
    unfold migrated_key, run_id_key; cbn [andb orb];
    destruct (key_in k (keys r)), (key_eqb (Some "migrated_at_utc") k),
      (key_eqb (Some "run_id") k); reflexivity.
Qed.

Lemma enrich_keys_prefix (cfg : Config) (run_id migrated_at : string)
  (r : row) :
  exists extra, keys (enrich cfg run_id migrated_at r) = keys r ++ extra.
Proof.
  assert (P : forall k v d, exists e, keys (dict_set k v d) = keys d ++ e).
  { intros k v d. rewrite keys_dict_set. destruct (key_in k (keys d)).
    - exists []. now rewrite app_nil_r.
    - now exists [k]. }
  unfold enrich.
  destruct (add_migrated_at_utc cfg), (add_run_id cfg).
  - destruct (P (Some "migrated_at_utc") (CStr migrated_at) r) as [e1 H1].
    destruct (P (Some "run_id") (CStr run_id)
                (dict_set (Some "migrated_at_utc") (CStr migrated_at) r))
      as [e2 H2].
    exists (e1 ++ e2). rewrite H2, H1. now rewrite app_assoc.
  - apply P.
  - apply P.
  - exists []. now rewrite app_nil_r.
Qed.

(** ** The reader *)

Lemma key_in_zip_dict (k : key) (ns : list string) :
  forall vs d,
    key_in k (keys (zip_dict ns vs d))
    = key_in k (keys d) || key_in k (map Some (firstn (List.length vs) ns)).
Proof.
  induction ns as [|n ns IH]; intros vs d; simpl.
  - destruct vs; simpl; now rewrite orb_false_r.
  - destruct vs as [|v vs]; simpl.
    + now rewrite orb_false_r.
    + rewrite IH, key_in_dict_set. now rewrite orb_assoc.
Qed.

Lemma key_in_fold_none (k : key) (ns : list string) :
  forall d,
    key_in k (keys (fold_left (fun d n => dict_set (Some n) CNone d) ns d))
    = key_in k (keys d) || key_in k (map Some ns).
Proof.
  induction ns as [|n ns IH]; intros d; simpl.
  - now rewrite orb_false_r.
  - rewrite IH, key_in_dict_set. now rewrite orb_assoc.
Qed.

Lemma reader_row_keys (k : key) (h vals : record) :
  List.length vals <= List.length h ->
  key_in k (keys (reader_row h vals)) = key_in k (map Some h).
Proof.
  intros Hlen. unfold reader_row.
  destruct (List.length h <? List.length vals) eqn:E1.
  - apply Nat.ltb_lt in E1. lia.
  - destruct (List.length vals <? List.length h) eqn:E2.
    + rewrite key_in_fold_none, key_in_zip_dict. simpl.
      rewrite <- key_in_app, <- map_app, firstn_skipn. reflexivity.
    + apply Nat.ltb_ge in E2.
      rewrite key_in_zip_dict. simpl.
      rewrite firstn_all2 by lia. reflexivity.
Qed.

Lemma reader_row_names (c : string) (h vals : record) :
  key_in (Some c) (keys (reader_row h vals)) = key_in (Some c) (map Some h).
Proof.
  destruct (le_lt_dec (List.length vals) (List.length h)) as [Hle|Hlt].
  - now apply reader_row_keys.
  - unfold reader_row. apply Nat.ltb_lt in Hlt. rewrite Hlt.
    rewrite key_in_dict_set, key_in_zip_dict. simpl.
    apply Nat.ltb_lt in Hlt.
    rewrite firstn_all2 by lia. now rewrite orb_false_r.
Qed.

Lemma all_text_dict_set (k : key) (s : string) (d : row) :
  all_text d = true -> all_text (dict_set k (CStr s) d) = true.
Proof.
  unfold all_text. induction d as [|[k' v'] d IH]; simpl; auto.
  intros H. apply andb_true_iff in H. destruct H as [Hv Hd].
  destruct (key_eqb k k'); simpl.
  - exact Hd.
  - rewrite Hv. now apply IH.
Qed.

Lemma all_text_zip_dict (ns vs : list string) :
  forall d, all_text d = true -> all_text (zip_dict ns vs d) = true.
Proof.
  revert vs. induction ns as [|n ns IH]; intros vs d H; simpl.
  - now destruct vs.
  - destruct vs as [|v vs]; auto.
    apply IH. now apply all_text_dict_set.
Qed.

Lemma all_text_age (r : row) : all_text r = true -> age_is_text r = true.
Proof.
  unfold all_text, age_is_text.
  induction r as [|[k v] r IH]; cbn [forallb dict_get snd]; auto.
  intros H. apply andb_true_iff in H. destruct H as [Hv Hr].
  destruct (key_eqb (Some "age") k).
  - destruct v; [reflexivity | discriminate | discriminate].
  - now apply IH.
Qed.

Lemma reader_row_text (h vals : record) :
  List.length vals = List.length h -> all_text (reader_row h vals) = true.
Proof.
  intros Hlen. unfold reader_row. rewrite Hlen, Nat.ltb_irrefl.
  now apply all_text_zip_dict.
Qed.

(** What holds of every row read from a rectangular file. *)
Lemma reader_rows_rectangular (h : record) (data : list record) (r : row) :
  rectangular h data = true ->
  In r (reader_rows (h :: data)) ->
  all_text r = true
  /\ forall k, key_in k (keys r) = key_in k (map Some h).
Proof.
  unfold rectangular, reader_rows. intros Hrect Hin.
  apply in_map_iff in Hin. destruct Hin as [vals [<- Hin]].
  apply filter_In in Hin. destruct Hin as [Hin Hnb].
  rewrite forallb_forall in Hrect. specialize (Hrect vals Hin).
  destruct (is_blank vals); [discriminate|]. simpl in Hrect.
  apply Nat.eqb_eq in Hrect. split.
  - now apply reader_row_text.
  - intros k. apply reader_row_keys. lia.
Qed.

(** ** The writer *)

Lemma writerows_snd (fields : list key) (rows : list row) :
  snd (writerows fields rows)
  = forallb (fun r => forallb (fun k => key_in k fields) (keys r)) rows.
Proof.
  induction rows as [|r rows IH]; simpl; auto.
  unfold dict_to_list.
  destruct (forallb (fun k => key_in k fields) (keys r)); simpl; auto.
  destruct (writerows fields rows) as [recs ok]. simpl in *. exact IH.
Qed.

Lemma write_csv_writable (p : path) (rows : list row) (s : state) :
  writable rows = true ->
  write_csv p rows s
  = ({| ticks := ticks s;
        trace := (trace s ++ [Mkdir (parent p)]) ++ [Write p (table_of rows)] |},
     Return tt).
Proof.
  intros H. unfold write_csv, bind, emit, table_of. simpl.
  destruct rows as [|r0 rows]; [reflexivity|].
  pose proof (writerows_snd (keys r0) (r0 :: rows)) as Hs.
  unfold writable in H. rewrite H in Hs.
  destruct (writerows (keys r0) (r0 :: rows)) as [recs ok].
  simpl in Hs. subst ok. reflexivity.
Qed.

Lemma write_csv_result (p : path) (rows : list row) (s s' : state)
  (r : outcome unit) :
  write_csv p rows s = (s', r) ->
  (r = Return tt /\ writable rows = true
   /\ trace s' = (trace s ++ [Mkdir (parent p)]) ++ [Write p (table_of rows)])
  \/ (r = Uncaught ValueError /\ writable rows = false
      /\ exists c, trace s' = (trace s ++ [Mkdir (parent p)]) ++ [Write p c]).
Proof.
  destruct (writable rows) eqn:W.
  - rewrite write_csv_writable by assumption. intros H. inversion H. now left.
  - unfold write_csv, bind, emit. simpl.
    destruct rows as [|r0 rows]; [discriminate|].
    pose proof (writerows_snd (keys r0) (r0 :: rows)) as Hs.
    unfold writable in W. rewrite W in Hs.
    destruct (writerows (keys r0) (r0 :: rows)) as [recs ok].
    simpl in Hs. subst ok. unfold lift. intros H. inversion H. right.
    split; [reflexivity|]. split; [reflexivity|].
    eexists. reflexivity.
Qed.

(** ** Stepping through a run *)

Lemma bind_ret {A B} (a : A) (k : A -> M B) (s : state) :
  bind (ret a) k s = k a s.
Proof. reflexivity. Qed.

Lemma bind_emit {B} (e : event) (k : unit -> M B) (s : state) :
  bind (emit e) k s = k tt {| ticks := ticks s; trace := trace s ++ [e] |}.
Proof. reflexivity. Qed.

Lemma bind_utcnow {B} (c : nat -> string) (k : string -> M B) (s : state) :
  bind (utcnow c) k s
  = k (c (ticks s)) {| ticks := S (ticks s); trace := trace s |}.
Proof. reflexivity. Qed.

Lemma bind_lift_ok {A B} (a : A) (k : A -> M B) (s : state) :
  bind (lift (Ok a)) k s = k a s.
Proof. reflexivity. Qed.

Lemma bind_lift_raise {A B} (e : exn) (k : A -> M B) (s : state) :
  bind (lift (Raise e)) k s = (s, Uncaught e).
Proof. reflexivity. Qed.

Lemma bind_sys_exit {A B} (c : Z) (k : A -> M B) (s : state) :
  bind (sys_exit c) k s = (s, Exit c).
Proof. reflexivity. Qed.

Lemma bind_assoc {A B C} (m : M A) (f : A -> M B) (g : B -> M C) (s : state) :
  bind (bind m f) g s = bind m (fun a => bind (f a) g) s.
Proof. unfold bind. destruct (m s) as [s' [a|c|e]]; reflexivity. Qed.

Lemma bind_die {A B} (msg : message) (k : A -> M B) (s : state) :
  bind (die msg) k s
  = ({| ticks := ticks s; trace := trace s ++ [Stderr msg] |}, Exit 1%Z).
Proof. reflexivity. Qed.

Lemma bind_log_line {B} (c : nat -> string) (p : path) (m : logmsg)
  (k : unit -> M B) (s : state) :
  bind (log_line c p m) k s
  = k tt {| ticks := S (ticks s);
            trace := (trace s ++ [Mkdir (parent p)])
                     ++ [Append p (c (ticks s)) m] |}.
Proof. reflexivity. Qed.

Lemma bind_ensure_dirs {B} (cfg : Config) (k : unit -> M B) (s : state) :
  bind (ensure_dirs cfg) k s
  = k tt {| ticks := ticks s;
            trace := trace s
                     ++ [ Mkdir (raw_dir cfg); Mkdir (staging_dir cfg);
                          Mkdir (output_dir cfg); Mkdir (reports_dir cfg);
                          Mkdir (logs_dir cfg) ] |}.
Proof.
  unfold ensure_dirs, mkdirs, bind, emit, ret. simpl.
  repeat rewrite <- app_assoc. reflexivity.
Qed.

Lemma bind_write_csv {B} (p : path) (rows : list row) (k : unit -> M B)
  (s : state) :
  writable rows = true ->
  bind (write_csv p rows) k s
  = k tt {| ticks := ticks s;
            trace := (trace s ++ [Mkdir (parent p)])
                     ++ [Write p (table_of rows)] |}.
Proof.
  intros H. unfold bind at 1. now rewrite write_csv_writable.
Qed.

Lemma bind_write_json {B} (p : path) (obj : Report) (k : unit -> M B)
  (s : state) :
  json_dumps obj = Ok (Json obj) ->
  bind (write_json p obj) k s
  = k tt {| ticks := ticks s;
            trace := (trace s ++ [Mkdir (parent p)]) ++ [Write p (Json obj)] |}.
Proof.
  intros H. unfold write_json. rewrite bind_assoc, bind_emit, bind_assoc, H.
  reflexivity.
Qed.

Lemma bind_write_json_raise {B} (p : path) (obj : Report) (k : unit -> M B)
  (s : state) (e : exn) :
  json_dumps obj = Raise e ->
  bind (write_json p obj) k s
  = ({| ticks := ticks s; trace := trace s ++ [Mkdir (parent p)] |},
     Uncaught e).
Proof.
  intros H. unfold write_json. rewrite bind_assoc, bind_emit, bind_assoc, H.
  reflexivity.
Qed.

Lemma json_dumps_ok (cfg : Config) (obj : Report) :
  report_is_json cfg = true ->
  r_run_name obj = run_name cfg ->
  r_mode obj = mode cfg ->
  json_dumps obj = Ok (Json obj).
Proof.
  unfold report_is_json, json_dumps. intros H -> ->. now rewrite H.
Qed.

Lemma json_dumps_raises (cfg : Config) (obj : Report) :
  report_is_json cfg = false ->
  r_run_name obj = run_name cfg ->
  r_mode obj = mode cfg ->
  json_dumps obj = Raise TypeError.
Proof.
  unfold report_is_json, json_dumps. intros H -> ->. now rewrite H.
Qed.

Lemma load_config_file (f : ConfigFile) (cfg : Config) :
  load_config f = Ok cfg -> exists data, f = Document data.
Proof. destruct f; simpl; try discriminate. intros _. now exists data. Qed.

Lemma main_success (w : World) (script arg : string) (cfg : Config)
  (log_path input_path output_path report_path : path)
  (recs : list record) (headers : list key) (transformed : list row) :
  argv w = [script; arg] ->
  load_config (config_at w arg) = Ok cfg ->
  path_div (logs_dir cfg) (log_file cfg) = Ok log_path ->
  path_div (raw_dir cfg) (source_file cfg) = Ok input_path ->
  csv_at w input_path = Some recs ->
  fieldnames recs <> None ->
  observed_headers w (reader_rows recs) input_path = Ok headers ->
  nonempty (missing_columns (expected_columns cfg) headers) && fail_fast cfg
  = false ->
  transform_rows (reader_rows recs) cfg (uuid4 w) (clock w 0) = Ok transformed ->
  path_div (output_dir cfg) (output_file cfg) = Ok output_path ->
  writable transformed = true ->
  path_div (reports_dir cfg) (report_file cfg) = Ok report_path ->
  report_is_json cfg = true ->
  main w init
  = ({| ticks := 3;
        trace := success_events w cfg log_path input_path output_path
                   report_path (reader_rows recs) transformed headers |},
     Return 0%Z).
Proof.
  intros Hargv Hcfg Hlog Hin Hcsv Hfn Hobs Hmiss Htr Hout Hw Hrep Hjson.
  unfold main. rewrite Hargv.
  destruct (load_config_file _ Hcfg) as [data Hdoc]. rewrite Hdoc in *.
  rewrite bind_ret, Hcfg, bind_lift_ok, bind_ensure_dirs, bind_utcnow.
  cbn [ticks trace init app].
  rewrite Hlog, bind_lift_ok, bind_log_line, Hin, bind_lift_ok, Hcsv, bind_ret.
  cbn [ticks trace app].
  unfold read_csv. rewrite Hcsv.
  destruct (fieldnames recs) eqn:Hf; [|congruence].
  rewrite bind_assoc, bind_ret, bind_ret.
  unfold validate_columns. rewrite bind_assoc, Hobs, bind_lift_ok.
  cbv zeta. rewrite Hmiss, bind_assoc, bind_ret, bind_ret.
  rewrite Htr, bind_lift_ok, Hout, bind_lift_ok.
  rewrite (bind_write_csv _ _ _ _ Hw), (bind_write_csv _ _ _ _ Hw).
  rewrite Hrep, bind_lift_ok.
  rewrite bind_write_json by (now apply (json_dumps_ok cfg)).
  rewrite bind_log_line.
  rewrite (@json_dumps_ok cfg) by (try assumption; reflexivity).
  rewrite bind_lift_ok, bind_emit.
  cbn [ticks trace app]. reflexivity.
Qed.

Lemma main_outcomes (w : World) (s : state) (r : outcome Z) :
  main w init = (s, r) ->
  (exit_status r <> 0%Z /\ existsb is_success_line (trace s) = false)
  \/
  exists script arg cfg log_path input_path output_path report_path recs
         headers transformed,
    argv w = [script; arg]
    /\ load_config (config_at w arg) = Ok cfg
    /\ path_div (logs_dir cfg) (log_file cfg) = Ok log_path
    /\ path_div (raw_dir cfg) (source_file cfg) = Ok input_path
    /\ csv_at w input_path = Some recs
    /\ fieldnames recs <> None
    /\ observed_headers w (reader_rows recs) input_path = Ok headers
    /\ nonempty (missing_columns (expected_columns cfg) headers)
        && fail_fast cfg = false
    /\ transform_rows (reader_rows recs) cfg (uuid4 w) (clock w 0)
        = Ok transformed
    /\ path_div (output_dir cfg) (output_file cfg) = Ok output_path
    /\ writable transformed = true
    /\ path_div (reports_dir cfg) (report_file cfg) = Ok report_path
    /\ r = Return 0%Z
    /\ trace s = success_events w cfg log_path input_path output_path
                   report_path (reader_rows recs) transformed headers.
Proof.
  intros H0. pose proof H0 as H. unfold main in H.
  destruct (argv w) as [|script [|arg [|x l]]] eqn:Hargv;
    try (inversion H; subst; left; split; [discriminate | reflexivity]).
  destruct (config_at w arg) as [| |data] eqn:Hdoc.
  { rewrite bind_die in H. inversion H; subst; left; split; [discriminate | reflexivity]. }
  { rewrite bind_ret in H.
    change (load_config Unparsable) with (@Raise Config YAMLError) in H.
    rewrite bind_lift_raise in H. inversion H; subst; left; split; [discriminate | reflexivity]. }
  rewrite bind_ret in H.
  destruct (load_config (Document data)) as [cfg|e] eqn:Hcfg;
    [rewrite bind_lift_ok in H
    | rewrite bind_lift_raise in H; inversion H; subst; left; split; [discriminate | reflexivity]].
  rewrite bind_ensure_dirs, bind_utcnow in H. cbn [ticks trace init app] in H.
  destruct (path_div (logs_dir cfg) (log_file cfg)) as [log_path|e] eqn:Hlog;
    [rewrite bind_lift_ok in H
    | rewrite bind_lift_raise in H; inversion H; subst; left; split; [discriminate | reflexivity]].
  rewrite bind_log_line in H.
  destruct (path_div (raw_dir cfg) (source_file cfg)) as [input_path|e] eqn:Hin;
    [rewrite bind_lift_ok in H
    | rewrite bind_lift_raise in H; inversion H; subst; left; split; [discriminate | reflexivity]].
  destruct (csv_at w input_path) as [recs|] eqn:Hcsv.
  2:{ rewrite bind_assoc, bind_log_line, bind_die in H.
      inversion H; subst; left; split; [discriminate | reflexivity]. }
  rewrite bind_ret in H. unfold read_csv in H. rewrite Hcsv in H.
  destruct (fieldnames recs) as [h|] eqn:Hf.
  2:{ rewrite bind_assoc, bind_die in H. inversion H; subst; left; split; [discriminate | reflexivity]. }
  rewrite bind_assoc, bind_ret, bind_ret in H.
  unfold validate_columns in H. rewrite bind_assoc in H.
  destruct (observed_headers w (reader_rows recs) input_path)
    as [headers|e] eqn:Hobs;
    [rewrite bind_lift_ok in H
    | rewrite bind_lift_raise in H; inversion H; subst; left; split; [discriminate | reflexivity]].
  cbv zeta in H.
  destruct (nonempty (missing_columns (expected_columns cfg) headers)
            && fail_fast cfg) eqn:Hmiss.
  { rewrite bind_assoc, bind_die in H. inversion H; subst; left; split; [discriminate | reflexivity]. }
  rewrite bind_assoc, bind_ret, bind_ret in H.
  destruct (transform_rows (reader_rows recs) cfg (uuid4 w) (clock w 0))
    as [transformed|e] eqn:Htr;
    [rewrite bind_lift_ok in H
    | rewrite bind_lift_raise in H; inversion H; subst; left; split; [discriminate | reflexivity]].
  destruct (path_div (output_dir cfg) (output_file cfg)) as [output_path|e]
    eqn:Hout;
    [rewrite bind_lift_ok in H
    | rewrite bind_lift_raise in H; inversion H; subst; left; split; [discriminate | reflexivity]].
  destruct (writable transformed) eqn:Hw.
  2:{ unfold bind at 1 in H.
      match type of H with
      | context [write_csv ?p ?rows ?st] =>
          destruct (write_csv p rows st) as [s1 r1] eqn:Hwr
      end.
      apply write_csv_result in Hwr.
      destruct Hwr as [[_ [Hw' _]]|[-> [_ [c Hc]]]]; [congruence|].
      inversion H; subst. left. split; [discriminate|].
      rewrite Hc. reflexivity. }
  destruct (path_div (reports_dir cfg) (report_file cfg)) as [report_path|e]
    eqn:Hrep.
  2:{ rewrite (bind_write_csv _ _ _ _ Hw), (bind_write_csv _ _ _ _ Hw) in H.
      rewrite bind_lift_raise in H. inversion H; subst; left; split; [discriminate | reflexivity]. }
  destruct (report_is_json cfg) eqn:Hjson.
  2:{ rewrite (bind_write_csv _ _ _ _ Hw), (bind_write_csv _ _ _ _ Hw) in H.
      rewrite bind_lift_ok in H.
      rewrite bind_write_json_raise with (e := TypeError) in H
        by (now apply (json_dumps_raises cfg)).
      inversion H; subst; left; split; [discriminate|].
      destruct transformed; reflexivity. }
  assert (Hfn : fieldnames recs <> None) by congruence.
  rewrite <- Hdoc in Hcfg.
  pose proof (main_success w Hargv Hcfg Hlog Hin Hcsv Hfn Hobs Hmiss Htr Hout
                Hw Hrep Hjson) as Hs.
  rewrite Hs in H0. inversion H0; subst. right.
  exists script, arg, cfg, log_path, input_path, output_path, report_path,
    recs, headers, transformed.
  repeat split; auto.
Qed.

Lemma main_status_zero (w : World) (s : state) (r : outcome Z) :
  main w init = (s, r) ->
  exit_status r = 0%Z ->
  exists script arg cfg log_path input_path output_path report_path recs
         headers transformed,
    argv w = [script; arg]
    /\ load_config (config_at w arg) = Ok cfg
    /\ path_div (logs_dir cfg) (log_file cfg) = Ok log_path
    /\ path_div (raw_dir cfg) (source_file cfg) = Ok input_path
    /\ csv_at w input_path = Some recs
    /\ fieldnames recs <> None
    /\ observed_headers w (reader_rows recs) input_path = Ok headers
    /\ nonempty (missing_columns (expected_columns cfg) headers)
        && fail_fast cfg = false
    /\ transform_rows (reader_rows recs) cfg (uuid4 w) (clock w 0)
        = Ok transformed
    /\ path_div (output_dir cfg) (output_file cfg) = Ok output_path
    /\ writable transformed = true
    /\ path_div (reports_dir cfg) (report_file cfg) = Ok report_path
    /\ r = Return 0%Z
    /\ trace s = success_events w cfg log_path input_path output_path
                   report_path (reader_rows recs) transformed headers.
Proof.
  intros H Hz. destruct (main_outcomes w H) as [[Hnz _]|Hs]; [contradiction|].
  exact Hs.
Qed.

Lemma main_usage (w : World) :
  List.length (argv w) <> 2 ->
  main w init = ({| ticks := 0; trace := [Stderr Usage] |}, Return 2%Z).
Proof.
  intros H. unfold main.
  destruct (argv w) as [|script [|arg [|x l]]]; try reflexivity.
  now elim H.
Qed.

Lemma main_no_config (w : World) (script arg : string) :
  argv w = [script; arg] ->
  config_at w arg = NoFile ->
  main w init
  = ({| ticks := 0; trace := [Stderr (ConfigNotFound (Dir arg))] |}, Exit 1%Z).
Proof.
  intros Hargv Hdoc. unfold main. rewrite Hargv, Hdoc. now rewrite bind_die.
Qed.

Lemma main_bad_config (w : World) (script arg : string) (e : exn) :
  argv w = [script; arg] ->
  load_config (config_at w arg) = Raise e ->
  config_at w arg <> NoFile ->
  main w init = (init, Uncaught e).
Proof.
  intros Hargv Hcfg Hdoc. unfold main. rewrite Hargv.
  destruct (config_at w arg) eqn:E; [congruence| |];
    now rewrite bind_ret, Hcfg, bind_lift_raise.
Qed.

Lemma main_no_input (w : World) (script arg : string) (cfg : Config)
  (log_path input_path : path) :
  argv w = [script; arg] ->
  load_config (config_at w arg) = Ok cfg ->
  path_div (logs_dir cfg) (log_file cfg) = Ok log_path ->
  path_div (raw_dir cfg) (source_file cfg) = Ok input_path ->
  csv_at w input_path = None ->
  main w init
  = ({| ticks := 3;
        trace := start_events w cfg log_path
                 ++ [ Mkdir (parent log_path);
                      Append log_path (clock w 2) (FailMissingInput input_path);
                      Stderr (InputNotFound input_path) ] |},
     Exit 1%Z).
Proof.
  intros Hargv Hcfg Hlog Hin Hcsv.
  unfold main. rewrite Hargv.
  destruct (load_config_file _ Hcfg) as [data Hdoc]. rewrite Hdoc in *.
  rewrite bind_ret, Hcfg, bind_lift_ok, bind_ensure_dirs, bind_utcnow.
  cbn [ticks trace init app].
  rewrite Hlog, bind_lift_ok, bind_log_line, Hin, bind_lift_ok, Hcsv.
  rewrite bind_assoc, bind_log_line, bind_die.
  cbn [ticks trace app]. reflexivity.
Qed.

Lemma main_schema (w : World) (script arg : string) (cfg : Config)
  (log_path input_path : path) (recs : list record) (headers : list key) :
  argv w = [script; arg] ->
  load_config (config_at w arg) = Ok cfg ->
  path_div (logs_dir cfg) (log_file cfg) = Ok log_path ->
  path_div (raw_dir cfg) (source_file cfg) = Ok input_path ->
  csv_at w input_path = Some recs ->
  fieldnames recs <> None ->
  observed_headers w (reader_rows recs) input_path = Ok headers ->
  nonempty (missing_columns (expected_columns cfg) headers) && fail_fast cfg
  = true ->
  main w init
  = ({| ticks := 2;
        trace := start_events w cfg log_path
                 ++ [ Stderr (MissingColumns
                                (missing_columns (expected_columns cfg) headers)
                                input_path headers) ] |},
     Exit 1%Z).
Proof.
  intros Hargv Hcfg Hlog Hin Hcsv Hfn Hobs Hmiss.
  unfold main. rewrite Hargv.
  destruct (load_config_file _ Hcfg) as [data Hdoc]. rewrite Hdoc in *.
  rewrite bind_ret, Hcfg, bind_lift_ok, bind_ensure_dirs, bind_utcnow.
  cbn [ticks trace init app].
  rewrite Hlog, bind_lift_ok, bind_log_line, Hin, bind_lift_ok, Hcsv, bind_ret.
  cbn [ticks trace app].
  unfold read_csv. rewrite Hcsv.
  destruct (fieldnames recs) eqn:Hf; [|congruence].
  rewrite bind_assoc, bind_ret, bind_ret.
  unfold validate_columns. rewrite bind_assoc, Hobs, bind_lift_ok.
  cbv zeta. rewrite Hmiss, bind_assoc, bind_die.
  cbn [ticks trace app]. reflexivity.
Qed.

Lemma main_transform_raises (w : World) (script arg : string) (cfg : Config)
  (log_path input_path : path) (recs : list record) (headers : list key)
  (e : exn) :
  argv w = [script; arg] ->
  load_config (config_at w arg) = Ok cfg ->
  path_div (logs_dir cfg) (log_file cfg) = Ok log_path ->
  path_div (raw_dir cfg) (source_file cfg) = Ok input_path ->
  csv_at w input_path = Some recs ->
  fieldnames recs <> None ->
  observed_headers w (reader_rows recs) input_path = Ok headers ->
  nonempty (missing_columns (expected_columns cfg) headers) && fail_fast cfg
  = false ->
  transform_rows (reader_rows recs) cfg (uuid4 w) (clock w 0) = Raise e ->
  main w init
  = ({| ticks := 2; trace := start_events w cfg log_path |}, Uncaught e).
Proof.
  intros Hargv Hcfg Hlog Hin Hcsv Hfn Hobs Hmiss Htr.
  unfold main. rewrite Hargv.
  destruct (load_config_file _ Hcfg) as [data Hdoc]. rewrite Hdoc in *.
  rewrite bind_ret, Hcfg, bind_lift_ok, bind_ensure_dirs, bind_utcnow.
  cbn [ticks trace init app].
  rewrite Hlog, bind_lift_ok, bind_log_line, Hin, bind_lift_ok, Hcsv, bind_ret.
  cbn [ticks trace app].
  unfold read_csv. rewrite Hcsv.
  destruct (fieldnames recs) eqn:Hf; [|congruence].
  rewrite bind_assoc, bind_ret, bind_ret.
  unfold validate_columns. rewrite bind_assoc, Hobs, bind_lift_ok.
  cbv zeta. rewrite Hmiss, bind_assoc, bind_ret, bind_ret.
  rewrite Htr, bind_lift_raise. reflexivity.
Qed.

(** ** Configuration resolution *)

Lemma rbind_ok {A B} (r : result A) (k : A -> result B) (b : B) :
  rbind r k = Ok b -> exists a, r = Ok a /\ k a = Ok b.
Proof. destruct r; simpl; [eauto | discriminate]. Qed.

Lemma getitem_ok (d : yaml) (k : string) (v : yaml) :
  getitem d k = Ok v -> exists m, d = YMap m /\ assoc k m = Some v.
Proof.
  destruct d; simpl; try discriminate.
  destruct (assoc k m) eqn:E; [|discriminate].
  intros H. inversion H. subst. eauto.
Qed.

Lemma get_ok (d : yaml) (k : string) (def v : yaml) :
  get d k def = Ok v ->
  exists m, d = YMap m /\ v = or_default (assoc k m) def.
Proof.
  destruct d; simpl; try discriminate.
  intros H. exists m. split; auto.
  destruct (assoc k m); inversion H; reflexivity.
Qed.

Ltac invert_config :=
  repeat match goal with
         | H : rbind _ _ = Ok _ |- _ =>
             apply rbind_ok in H; destruct H as [? [? H]]; cbv beta in H
         | H : getitem _ _ = Ok _ |- _ =>
             apply getitem_ok in H; destruct H as [? [? H]]
         | H : get _ _ _ = Ok _ |- _ =>
             apply get_ok in H; destruct H as [? [? H]]
         | H : safe_load (Document _) = Ok _ |- _ =>
             simpl in H; inversion H; clear H
         | H : YMap _ = YMap _ |- _ => inversion H; clear H
         | H : Ok _ = Ok _ |- _ => inversion H; clear H
         | _ => progress subst
         end.

Lemma load_config_ok (d : yaml) (cfg : Config) :
  load_config (Document d) = Ok cfg ->
  lookup d ["run"; "name"] = Some (run_name cfg)
  /\ mode cfg = or_default (lookup d ["run"; "mode"]) (YStr "full")
  /\ fail_fast cfg
     = py_bool (or_default (lookup d ["run"; "fail_fast"]) (YBool true))
  /\ (exists v, lookup d ["paths"; "raw_dir"] = Some v
                /\ py_path v = Ok (raw_dir cfg))
  /\ (exists v, lookup d ["paths"; "staging_dir"] = Some v
                /\ py_path v = Ok (staging_dir cfg))
  /\ (exists v, lookup d ["paths"; "output_dir"] = Some v
                /\ py_path v = Ok (output_dir cfg))
  /\ (exists v, lookup d ["paths"; "reports_dir"] = Some v
                /\ py_path v = Ok (reports_dir cfg))
  /\ (exists v, lookup d ["paths"; "logs_dir"] = Some v
                /\ py_path v = Ok (logs_dir cfg))
  /\ lookup d ["inputs"; "source_file"] = Some (source_file cfg)
  /\ (exists v, lookup d ["inputs"; "expected_columns"] = Some v
                /\ py_list v = Ok (expected_columns cfg))
  /\ holds_at d is_map filter_section = true
  /\ py_int (or_default (lookup d ["transform"; "filter"; "min_age"]) (YInt 0))
     = Ok (min_age cfg)
  /\ add_migrated_at_utc cfg
     = py_bool (or_default
                  (lookup d ["transform"; "add_columns"; "migrated_at_utc"])
                  (YBool true))
  /\ add_run_id cfg
     = py_bool (or_default (lookup d ["transform"; "add_columns"; "run_id"])
                  (YBool true))
  /\ lookup d ["outputs"; "output_file"] = Some (output_file cfg)
  /\ lookup d ["outputs"; "report_file"] = Some (report_file cfg)
  /\ lookup d ["outputs"; "log_file"] = Some (log_file cfg).
Proof.
  intros H. unfold load_config in H. invert_config.
  match goal with
  | H1 : or_default ?o ?d = YMap ?a, H2 : or_default ?o ?d = YMap ?b |- _ =>
      rewrite H1 in H2; inversion H2; subst; clear H2
  end.
  unfold holds_at, filter_section. cbn [lookup].
  repeat match goal with
         | E : assoc ?k ?m = Some _ |- context [assoc ?k ?m] => rewrite E
         end.
  cbn [run_name mode fail_fast raw_dir staging_dir output_dir reports_dir
       logs_dir source_file expected_columns min_age add_migrated_at_utc
       add_run_id output_file report_file log_file is_map].
  repeat match goal with
         | |- _ /\ _ => split
         | |- exists v, Some _ = Some v /\ _ => eexists; split; [reflexivity|]
         end; auto.
  - now destruct (assoc "mode" _).
  - now destruct (assoc "fail_fast" _).
  - destruct (assoc "min_age" _); assumption.
  - destruct (assoc "add_columns" _) as [v|]; simpl in *.
    + subst v. now destruct (assoc "migrated_at_utc" _).
    + match goal with H : YMap [] = YMap _ |- _ => inversion H end.
      reflexivity.
  - destruct (assoc "add_columns" _) as [v|]; simpl in *.
    + subst v. now destruct (assoc "run_id" _).
    + match goal with H : YMap [] = YMap _ |- _ => inversion H end.
      reflexivity.
Qed.

Ltac case_on H :=
  match type of H with
  | context [match ?x with _ => _ end] =>
      lazymatch x with
      | context [match _ with _ => _ end] => fail
      | _ => destruct x eqn:?
      end
  end;
  cbn in H; try discriminate H.

Lemma load_config_valid (d : yaml) :
  valid_document d = true -> exists cfg, load_config (Document d) = Ok cfg.
Proof.
  intros H. unfold valid_document, holds_at, holds_if_at, required_fields,
    filter_section, is_text, is_listable, is_map, numeric in H.
  cbn in H. repeat case_on H.
  all: unfold load_config, safe_load, rbind, getitem, get, py_path, py_list,
         py_int; cbn.
  all: repeat match goal with
         | E : assoc ?k ?m = _ |- context [assoc ?k ?m] => rewrite E; cbn
         end.
  all: repeat match goal with
         | E : Py.int_of_str ?s = _ |- context [Py.int_of_str ?s] =>
             rewrite E; cbn
         | E : Py.int_of_bytes ?s = _ |- context [Py.int_of_bytes ?s] =>
             rewrite E; cbn
         end.
  all: repeat match goal with
         | |- context [match ?x with _ => _ end] =>
             lazymatch x with
             | context [match _ with _ => _ end] => fail
             | _ => destruct x
             end; cbn
         end.
  all: eexists; reflexivity.
Qed.

(** ** Runs over rectangular files *)

Lemma in_key_in (k : key) (ks : list key) : In k ks -> key_in k ks = true.
Proof.
  intros H. unfold key_in. apply existsb_exists. exists k.
  split; [assumption | apply key_eqb_refl].
Qed.

Lemma names_key_in (c : yaml) (ks : list key) :
  existsb (names_key c) ks
  = match c with
    | YStr s => key_in (Some s) ks
    | YNull => key_in None ks
    | _ => false
    end.
Proof.
  unfold key_in. induction ks as [|k ks IH]; simpl.
  - now destruct c.
  - rewrite IH. destruct c, k; reflexivity.
Qed.

Lemma names_key_ext (c : yaml) (ks ks' : list key) :
  (forall k, key_in k ks = key_in k ks') ->
  existsb (names_key c) ks = existsb (names_key c) ks'.
Proof. intros H. rewrite !names_key_in. destruct c; auto. Qed.

Lemma missing_none (expected : list yaml) (h : record) (headers : list key) :
  (forall k, key_in k headers = key_in k (map Some h)) ->
  covers h expected = true ->
  missing_columns expected headers = [].
Proof.
  intros Hk. unfold covers, missing_columns.
  induction expected as [|c expected IH]; simpl; auto.
  intros H. apply andb_true_iff in H. destruct H as [Hc Hrest].
  rewrite (names_key_ext c _ _ Hk), Hc. simpl. now apply IH.
Qed.

Lemma path_div_text (d : path) (v : yaml) :
  is_text v = true -> path_div d v = Ok (Child d (text_of v)).
Proof. destruct v; simpl; try discriminate. reflexivity. Qed.

Lemma writable_enriched (cfg : Config) (run_id migrated_at : string)
  (rows : list row) (ks : list key) :
  (forall r, In r rows -> forall k, key_in k (keys r) = key_in k ks) ->
  writable (map (enrich cfg run_id migrated_at) rows) = true.
Proof.
  intros H. destruct rows as [|r0 rows]; [reflexivity|].
  unfold writable. cbn [map].
  change (enrich cfg run_id migrated_at r0
          :: map (enrich cfg run_id migrated_at) rows)
    with (map (enrich cfg run_id migrated_at) (r0 :: rows)).
  apply forallb_forall. intros r' Hr'.
  apply in_map_iff in Hr'. destruct Hr' as [r [<- Hr]].
  apply forallb_forall. intros k Hk. apply in_key_in in Hk.
  rewrite enrich_key_in in *.
  rewrite (H r Hr) in Hk. rewrite (H r0 (or_introl eq_refl)). exact Hk.
Qed.

Lemma observed_headers_rectangular (w : World) (input_path : path)
  (h : record) (data : list record) :
  csv_at w input_path = Some (h :: data) ->
  rectangular h data = true ->
  exists headers,
    observed_headers w (reader_rows (h :: data)) input_path = Ok headers
    /\ forall k, key_in k headers = key_in k (map Some h).
Proof.
  intros Hcsv Hrect. unfold observed_headers.
  destruct (reader_rows (h :: data)) as [|r0 rows] eqn:E.
  - rewrite Hcsv. simpl. eauto.
  - exists (keys r0). split; [reflexivity|].
    apply (reader_rows_rectangular h data r0 Hrect).
    rewrite E. now left.
Qed.

Lemma rows_rectangular_text (h : record) (data : list record) :
  rectangular h data = true ->
  forallb age_is_text (reader_rows (h :: data)) = true.
Proof.
  intros Hrect. apply forallb_forall. intros r Hr.
  apply all_text_age. now apply (reader_rows_rectangular h data r Hrect).
Qed.

Lemma plain_name_text (v : yaml) : plain_name v = true -> is_text v = true.
Proof. destruct v; simpl; try discriminate; reflexivity. Qed.

Lemma names_plain_text (cfg : Config) :
  names_are_plain cfg = true -> names_are_text cfg = true.
Proof.
  unfold names_are_plain, names_are_text. intros H.
  repeat (apply andb_true_iff in H; destruct H as [H ?]).
  repeat (apply andb_true_iff; split); now apply plain_name_text.
Qed.

Lemma main_rectangular (w : World) (script arg : string) (cfg : Config)
  (h : record) (data : list record) :
  argv w = [script; arg] ->
  load_config (config_at w arg) = Ok cfg ->
  names_are_text cfg = true ->
  csv_at w (Child (raw_dir cfg) (text_of (source_file cfg))) = Some (h :: data) ->
  rectangular h data = true ->
  covers h (expected_columns cfg) = true \/ fail_fast cfg = false ->
  report_is_json cfg = true ->
  exists headers,
    (forall k, key_in k headers = key_in k (map Some h))
    /\ observed_headers w (reader_rows (h :: data))
         (Child (raw_dir cfg) (text_of (source_file cfg))) = Ok headers
    /\ main w init
       = ({| ticks := 3;
             trace :=
               success_events w cfg
                 (Child (logs_dir cfg) (text_of (log_file cfg)))
                 (Child (raw_dir cfg) (text_of (source_file cfg)))
                 (Child (output_dir cfg) (text_of (output_file cfg)))
                 (Child (reports_dir cfg) (text_of (report_file cfg)))
                 (reader_rows (h :: data))
                 (map (enrich cfg (uuid4 w) (clock w 0))
                    (filter (fun r => (min_age cfg <=? claimed_age r)%Z)
                       (reader_rows (h :: data))))
                 headers |},
          Return 0%Z).
Proof.
  intros Hargv Hcfg Hnames Hcsv Hrect Hcov Hjson.
  unfold names_are_text in Hnames.
  repeat (apply andb_true_iff in Hnames; destruct Hnames as [Hnames ?]).
  destruct (@observed_headers_rectangular w _ h data Hcsv Hrect)
    as [headers [Hobs Hk]].
  exists headers. split; [exact Hk|]. split; [exact Hobs|].
  pose proof (@rows_rectangular_text h data Hrect) as Htext.
  apply main_success with (script := script) (arg := arg); auto
    using path_div_text.
  - discriminate.
  - destruct Hcov as [Hcov| ->].
    + now rewrite (@missing_none _ h headers Hk Hcov).
    + apply andb_false_r.
  - rewrite transform_rows_text by assumption.
    now rewrite filter_retained_text.
  - apply writable_enriched with (ks := map Some h).
    intros r Hr. apply filter_In in Hr. destruct Hr as [Hr _].
    now apply (reader_rows_rectangular h data r Hrect).
Qed.

(** * The claims *)

(** ** The row transformer: C4, C5, C10 *)

(** C4: the transformer never raises on per-row data and returns normally
    for all inputs.  It does raise.  For a file with the header [id,age]
    and the data record [7], [csv.DictReader] fills the field the record
    lacks with [None]; [r.get("age", "")] then is [None], and
    [None.strip()] raises [AttributeError], which the handler for
    [ValueError] does not catch.  This holds for every configuration, run
    identifier and time stamp, and a run over such a file ends with
    status 1. *)
Theorem transform_rows_raises_on_short_record (cfg : Config)
  (run_id migrated_at : string) :
  reader_rows [["id"; "age"]; ["7"]]
  = [[(Some "id", CStr "7"); (Some "age", CNone)]]
  /\ transform_rows (reader_rows [["id"; "age"]; ["7"]]) cfg run_id migrated_at
     = Raise AttributeError
  /\ snd (run (sample_world ["config.yaml"]
                 (Document (sample_document [] ["id"; "age"]
                              [("filter", YMap [])]))
                 (Some [["id"; "age"]; ["7"]])))
     = 1%Z.
Proof. repeat split. Qed.

(** C5, as stated, fails: a source column that is already called [run_id]
    is overwritten where it stands, so the field is not appended and does
    not come after [migrated_at_utc]. *)
Lemma enrichment_overwrites_existing_column :
  let r := [(Some "run_id", CStr "legacy"); (Some "age", CStr "30")] in
  reader_rows [["run_id"; "age"]; ["legacy"; "30"]] = [r]
  /\ transform_rows [r] (sample_config 18 true true) "u" "t"
     = Ok [[(Some "run_id", CStr "u"); (Some "age", CStr "30");
            (Some "migrated_at_utc", CStr "t")]]
  /\ transform_rows [r] (sample_config 18 true true) "u" "t"
     <> Ok [r ++ [(Some "migrated_at_utc", CStr "t"); (Some "run_id", CStr "u")]].
Proof.
  cbv zeta. split; [reflexivity|]. split; [reflexivity|].
  intros H. discriminate H.
Qed.

(** C5, amended: when the [age] entries of the rows are strings, the
    transformer returns the retained rows, each enriched; with its flag
    enabled, every returned row carries the one run time stamp under
    [migrated_at_utc] and the one run identifier under [run_id]; the flags
    act independently; and a retained row that has no column named like an
    enabled field is returned as its original columns, then
    [migrated_at_utc], then [run_id]. *)
Theorem enrichment_appends_shared_fields (cfg : Config)
  (run_id migrated_at : string) (rows : list row) :
  forallb age_is_text rows = true ->
  exists out,
    transform_rows rows cfg run_id migrated_at = Ok out
    /\ out = map (enrich cfg run_id migrated_at) (filter (retained cfg) rows)
    /\ (forall r', In r' out ->
          (add_migrated_at_utc cfg = true ->
           dict_get (Some "migrated_at_utc") r' = Some (CStr migrated_at))
          /\ (add_run_id cfg = true ->
              dict_get (Some "run_id") r' = Some (CStr run_id)))
    /\ (forall r, collides cfg r = false ->
          enrich cfg run_id migrated_at r
          = r ++ (if add_migrated_at_utc cfg
                  then [(Some "migrated_at_utc", CStr migrated_at)] else [])
              ++ (if add_run_id cfg
                  then [(Some "run_id", CStr run_id)] else [])).
Proof.
  intros Htext.
  exists (map (enrich cfg run_id migrated_at) (filter (retained cfg) rows)).
  split; [now apply transform_rows_text|]. split; [reflexivity|]. split.
  - intros r' Hr'. apply in_map_iff in Hr'. destruct Hr' as [r [<- _]].
    apply enrich_values.
  - intros r Hr. now apply enrich_fresh.
Qed.

Lemma enrichment_appends_shared_fields_witness :
  exists out,
    transform_rows (reader_rows [["id"; "age"]; ["1"; "30"]; ["2"; "abc"]])
      (sample_config 18 true true) "u" "t" = Ok out
    /\ out = map (enrich (sample_config 18 true true) "u" "t")
               (filter (retained (sample_config 18 true true))
                  (reader_rows [["id"; "age"]; ["1"; "30"]; ["2"; "abc"]]))
    /\ (forall r', In r' out ->
          (add_migrated_at_utc (sample_config 18 true true) = true ->
           dict_get (Some "migrated_at_utc") r' = Some (CStr "t"))
          /\ (add_run_id (sample_config 18 true true) = true ->
              dict_get (Some "run_id") r' = Some (CStr "u")))
    /\ (forall r, collides (sample_config 18 true true) r = false ->
          enrich (sample_config 18 true true) "u" "t" r
          = r ++ (if add_migrated_at_utc (sample_config 18 true true)
                  then [(Some "migrated_at_utc", CStr "t")] else [])
              ++ (if add_run_id (sample_config 18 true true)
                  then [(Some "run_id", CStr "u")] else [])).
Proof.
  apply (enrichment_appends_shared_fields (sample_config 18 true true) "u" "t"
           (reader_rows [["id"; "age"]; ["1"; "30"]; ["2"; "abc"]])).
  reflexivity.
Defined.

(** C10, as stated, fails: the value of a source column called [run_id]
    is not the value of that column in the transformed row. *)
Lemma enrichment_changes_source_value :
  let r := [(Some "id", CStr "1"); (Some "age", CStr "30");
            (Some "run_id", CStr "legacy")] in
  exists r',
    transform_rows [r] (sample_config 18 true true) "u" "t" = Ok [r']
    /\ dict_get (Some "run_id") r = Some (CStr "legacy")
    /\ dict_get (Some "run_id") r' = Some (CStr "u").
Proof. cbv zeta. eexists. repeat split. Qed.

(** C10, amended: when the [age] entries of the rows are strings, the
    transformer returns exactly the rows whose age passes the threshold, in
    the order of the input, each enriched; an enriched row is never shorter
    than its source, starts with the columns of its source in their order,
    and has the value of its source under every key other than the fields
    the configuration adds. *)
Theorem transform_rows_keeps_order_and_columns (cfg : Config)
  (run_id migrated_at : string) (rows : list row) :
  forallb age_is_text rows = true ->
  transform_rows rows cfg run_id migrated_at
  = Ok (map (enrich cfg run_id migrated_at)
          (filter (fun r => (min_age cfg <=? claimed_age r)%Z) rows))
  /\ forall r,
       List.length r <= List.length (enrich cfg run_id migrated_at r)
       /\ (exists extra,
             keys (enrich cfg run_id migrated_at r) = keys r ++ extra)
       /\ (forall k, assigned cfg k = false ->
             dict_get k (enrich cfg run_id migrated_at r) = dict_get k r).
Proof.
  intros Htext. split.
  - rewrite transform_rows_text by assumption.
    now rewrite filter_retained_text.
  - intros r. split; [apply enrich_length|].
    split; [apply enrich_keys_prefix|].
    intros k Hk. now apply enrich_keeps.
Qed.

Lemma transform_rows_keeps_order_and_columns_witness :
  transform_rows
    (reader_rows [["id"; "age"]; ["1"; "17"]; ["2"; "40"]; ["3"; "18"]])
    (sample_config 18 true false) "u" "t"
  = Ok (map (enrich (sample_config 18 true false) "u" "t")
          (filter (fun r => (min_age (sample_config 18 true false)
                             <=? claimed_age r)%Z)
             (reader_rows
                [["id"; "age"]; ["1"; "17"]; ["2"; "40"]; ["3"; "18"]])))
  /\ forall r,
       List.length r
       <= List.length (enrich (sample_config 18 true false) "u" "t" r)
       /\ (exists extra,
             keys (enrich (sample_config 18 true false) "u" "t" r)
             = keys r ++ extra)
       /\ (forall k, assigned (sample_config 18 true false) k = false ->
             dict_get k (enrich (sample_config 18 true false) "u" "t" r)
             = dict_get k r).
Proof.
  apply (transform_rows_keeps_order_and_columns
           (sample_config 18 true false) "u" "t"
           (reader_rows
              [["id"; "age"]; ["1"; "17"]; ["2"; "40"]; ["3"; "18"]])).
  reflexivity.
Defined.

(** ** Row counts: C1 *)

Lemma lstrip_blank (s : string) :
  forallb Py.isspace (list_ascii_of_string s) = true ->
  Py.lstrip_with Py.isspace s = EmptyString.
Proof.
  induction s as [|c s IH]; simpl; auto.
  intros H. apply andb_true_iff in H. destruct H as [Hc Hs].
  rewrite Hc. now apply IH.
Qed.

Lemma strip_blank (s : string) :
  forallb Py.isspace (list_ascii_of_string s) = true ->
  Py.strip s = EmptyString.
Proof.
  intros H. unfold Py.strip, Py.strip_with. now rewrite lstrip_blank.
Qed.

Lemma row_age_of_text (r : row) (s : string) :
  dict_get (Some "age") r = Some (CStr s) ->
  row_age r = Ok (match Py.int_of_str (Py.strip s) with
                  | Some z => z
                  | None => (-1)%Z
                  end).
Proof.
  intros H. unfold row_age. rewrite H.
  now destruct (Py.int_of_str (Py.strip s)).
Qed.

(** C1, as stated, fails on files that are not rectangular, although the
    configuration is valid (it resolves, its file names are single path
    components, its run name and mode are strings) and the header covers
    the expected columns.  A
    data record longer than the header gives a row with the key [None],
    which the writer, set up with the keys of the first row, refuses with
    [ValueError]: the run ends with status 1 after the staging file has
    received the rows before it, and no report is written.  A data record
    shorter than the header ends the run with status 1 before any file is
    written (the [AttributeError] of C4). *)
Lemma ragged_file_run_fails :
  let d := Document (sample_document [] ["id"; "age"]
                       [("filter", YMap [("min_age", YInt (-5))])]) in
  let long := sample_world ["config.yaml"] d
                (Some [["id"; "age"]; ["1"; "30"]; ["2"; "40"; "x"]]) in
  let short := sample_world ["config.yaml"] d
                 (Some [["id"; "age"]; ["7"]]) in
  (exists cfg,
      load_config d = Ok cfg
      /\ names_are_plain cfg = true
      /\ report_is_json cfg = true
      /\ covers ["id"; "age"] (expected_columns cfg) = true)
  /\ snd (run long) = 1%Z
  /\ filter is_file_write (fst (run long))
     = [ Write (Child (Dir "staging") "staged_people.csv")
           (Table [ [CStr "id"; CStr "age"; CStr "migrated_at_utc";
                     CStr "run_id"];
                    [CStr "1"; CStr "30"; CStr (clock long 0);
                     CStr (uuid4 long)] ]) ]
  /\ snd (run short) = 1%Z
  /\ filter is_file_write (fst (run short)) = [].
Proof.
  cbv zeta. split.
  - eexists. split; [reflexivity|]. split; [reflexivity|].
    split; reflexivity.
  - repeat split.
Qed.

(** C1, amended: for every valid configuration, that is one that resolves,
    whose file names are single path components and whose run name and
    mode are values JSON has a form for (as strings are), and every input
    file whose header covers the expected columns and whose data records
    have as many fields as the header, the run ends with status 0 and
    writes a report whose [output_rows] is the number of rows whose age is
    at least [min_age].  The age of a row is
    the integer its stripped [age] field spells, and -1 when the field is
    absent, blank or does not spell an integer; a row with the age [abc] is
    dropped under the threshold 0 and kept under -5. *)
Theorem run_counts_rows_by_age :
  (forall (w : World) (script arg : string) (cfg : Config) (h : record)
          (data : list record),
      argv w = [script; arg] ->
      load_config (config_at w arg) = Ok cfg ->
      names_are_plain cfg = true ->
      report_is_json cfg = true ->
      csv_at w (Child (raw_dir cfg) (text_of (source_file cfg)))
      = Some (h :: data) ->
      rectangular h data = true ->
      covers h (expected_columns cfg) = true ->
      exists events rep,
        run w = (events, 0%Z)
        /\ In (Write (Child (reports_dir cfg) (text_of (report_file cfg)))
                 (Json rep)) events
        /\ r_output_rows rep
           = List.length
               (filter (fun r => (min_age cfg <=? claimed_age r)%Z)
                  (reader_rows (h :: data))))
  /\ (forall r, dict_get (Some "age") r = None -> row_age r = Ok (-1)%Z)
  /\ (forall r s,
        dict_get (Some "age") r = Some (CStr s) ->
        forallb Py.isspace (list_ascii_of_string s) = true ->
        row_age r = Ok (-1)%Z)
  /\ (forall r s,
        dict_get (Some "age") r = Some (CStr s) ->
        row_age r = Ok (match Py.int_of_str (Py.strip s) with
                        | Some z => z
                        | None => (-1)%Z
                        end))
  /\ (forall cfg run_id migrated_at r,
        dict_get (Some "age") r = Some (CStr "abc") ->
        (min_age cfg = 0%Z ->
         transform_rows [r] cfg run_id migrated_at = Ok [])
        /\ (min_age cfg = (-5)%Z ->
            transform_rows [r] cfg run_id migrated_at
            = Ok [enrich cfg run_id migrated_at r])).
Proof.
  split; [|split; [|split; [|split]]].
  - intros w script arg cfg h data Hargv Hcfg Hnames Hjson Hcsv Hrect Hcov.
    destruct (@main_rectangular w script arg cfg h data Hargv Hcfg
                (names_plain_text cfg Hnames) Hcsv Hrect (or_introl Hcov)
                Hjson) as [headers [_ [_ Hmain]]].
    unfold run. rewrite Hmain. cbn [trace exit_status].
    eexists. eexists. split; [reflexivity|]. split.
    + unfold success_events. apply in_or_app. right.
      do 5 right. left. reflexivity.
    + cbn [report_of r_output_rows]. apply length_map.
  - intros r H. unfold row_age. now rewrite H.
  - intros r s H Hs. rewrite (row_age_of_text r H).
    now rewrite (strip_blank s Hs).
  - intros r s H. now apply row_age_of_text.
  - intros cfg run_id migrated_at r H.
    pose proof (row_age_of_text r H) as Hage.
    change (Py.int_of_str (Py.strip "abc")) with (@None Z) in Hage.
    unfold transform_rows. cbn [transform_loop]. rewrite Hage. cbn [rbind].
    split; intros ->; reflexivity.
Qed.

Lemma run_counts_rows_by_age_witness :
  let w := sample_world ["config.yaml"]
             (Document (sample_document [] ["id"; "age"]
                          [("filter", YMap [("min_age", YInt 18)])]))
             (Some [["id"; "age"; "city"]; ["1"; "30"; "Oslo"];
                    ["2"; "abc"; "Rome"]; ["3"; " 41 "; "Lima"];
                    ["4"; "17"; "Kyiv"]]) in
  exists events rep,
    run w = (events, 0%Z)
    /\ In (Write (Child (Dir "reports") "report.json") (Json rep)) events
    /\ r_output_rows rep = 2.
Proof.
  cbv zeta.
  exact (proj1 run_counts_rows_by_age
           (sample_world ["config.yaml"]
              (Document (sample_document [] ["id"; "age"]
                           [("filter", YMap [("min_age", YInt 18)])]))
              (Some [["id"; "age"; "city"]; ["1"; "30"; "Oslo"];
                     ["2"; "abc"; "Rome"]; ["3"; " 41 "; "Lima"];
                     ["4"; "17"; "Kyiv"]]))
           "run_migration.py" "config.yaml"
           (sample_config 18 true true)
           ["id"; "age"; "city"]
           [["1"; "30"; "Oslo"]; ["2"; "abc"; "Rome"]; ["3"; " 41 "; "Lima"];
            ["4"; "17"; "Kyiv"]]
           eq_refl eq_refl eq_refl eq_refl eq_refl eq_refl eq_refl).
Defined.

(** ** Failing configurations *)

Lemma load_config_missing (d : yaml) (ks : list string) :
  In ks (required_fields ++ [filter_section]) ->
  lookup d ks = None ->
  exists e, load_config (Document d) = Raise e.
Proof.
  intros Hin Hnone.
  destruct (load_config (Document d)) as [cfg|e] eqn:E; [exfalso | eauto].
  apply load_config_ok in E.
  destruct E as (H1 & _ & _ & [v2 [H2 _]] & [v3 [H3 _]] & [v4 [H4 _]]
                 & [v5 [H5 _]] & [v6 [H6 _]] & H7 & [v8 [H8 _]] & H9 & _ & _
                 & _ & H10 & H11 & H12).
  unfold holds_at in H9.
  unfold required_fields, filter_section in *. simpl in Hin.
  repeat (destruct Hin as [Hin|Hin];
          [subst ks; try congruence; rewrite Hnone in H9; discriminate|]).
  contradiction.
Qed.

Lemma py_int_numeric (v : yaml) (z : Z) : py_int v = Ok z -> numeric v = true.
Proof.
  destruct v; simpl; try discriminate; auto.
  - now destruct (Py.int_of_str s).
  - now destruct (Py.int_of_bytes b).
Qed.

Lemma load_config_min_age (d v : yaml) :
  lookup d ["transform"; "filter"; "min_age"] = Some v ->
  numeric v = false ->
  exists e, load_config (Document d) = Raise e.
Proof.
  intros Hv Hnum.
  destruct (load_config (Document d)) as [cfg|e] eqn:E; [exfalso | eauto].
  apply load_config_ok in E.
  destruct E as (_ & _ & _ & _ & _ & _ & _ & _ & _ & _ & _ & Hint & _).
  rewrite Hv in Hint. simpl in Hint. apply py_int_numeric in Hint. congruence.
Qed.

Lemma load_config_defaults (d : yaml) (cfg : Config) :
  load_config (Document d) = Ok cfg ->
  (lookup d ["run"; "mode"] = None -> mode cfg = YStr "full")
  /\ (lookup d ["run"; "fail_fast"] = None -> fail_fast cfg = true)
  /\ (lookup d ["transform"; "filter"; "min_age"] = None -> min_age cfg = 0%Z)
  /\ (lookup d ["transform"; "add_columns"; "migrated_at_utc"] = None ->
      add_migrated_at_utc cfg = true)
  /\ (lookup d ["transform"; "add_columns"; "run_id"] = None ->
      add_run_id cfg = true).
Proof.
  intros E. apply load_config_ok in E.
  destruct E as (_ & Hmode & Hff & _ & _ & _ & _ & _ & _ & _ & _ & Hint & Hts
                 & Hid & _).
  repeat split; intros H; rewrite H in *; simpl in *; auto.
  now inversion Hint.
Qed.

Lemma run_bad_config (w : World) (script arg : string) (d : yaml) (e : exn) :
  argv w = [script; arg] ->
  config_at w arg = Document d ->
  load_config (Document d) = Raise e ->
  run w = ([], 1%Z).
Proof.
  intros Hargv Hdoc Hcfg. unfold run.
  rewrite (@main_bad_config w script arg e Hargv).
  - reflexivity.
  - now rewrite Hdoc.
  - rewrite Hdoc. discriminate.
Qed.

(** ** Configuration resolution: C3 *)

(** C3, as stated, fails: a document with every field the claim lists as
    required, which omits only optional fields, is not resolved with the
    defaults; [load_config] subscripts the [transform] section (and its
    [filter] section) and raises [KeyError]. *)
Lemma bare_document_is_rejected :
  forallb (holds_at bare_document (fun _ => true)) required_fields = true
  /\ load_config (Document bare_document) = Raise (KeyError "transform")
  /\ load_config (Document (sample_document [] ["id"; "age"] []))
     = Raise (KeyError "filter").
Proof. repeat split. Qed.

(** C3, amended: resolution raises whenever a required field (the name of
    the run, one of the five directories, the source file, the expected
    columns, one of the three output file names) or the section
    [transform.filter] is absent, and whenever [min_age] is there and not
    numeric; a run over such a document ends with status 1 before doing
    anything.  A valid document, which has that section, is resolved, and
    every optional field it omits takes its default: mode [full],
    fail_fast true, min_age 0, and both added columns enabled. *)
Theorem load_config_contract (d : yaml) :
  (forall ks,
      In ks (required_fields ++ [filter_section]) ->
      lookup d ks = None ->
      exists e, load_config (Document d) = Raise e)
  /\ (forall v,
        lookup d ["transform"; "filter"; "min_age"] = Some v ->
        numeric v = false ->
        exists e, load_config (Document d) = Raise e)
  /\ (forall w script arg e,
        argv w = [script; arg] ->
        config_at w arg = Document d ->
        load_config (Document d) = Raise e ->
        run w = ([], 1%Z))
  /\ (valid_document d = true ->
      exists cfg,
        load_config (Document d) = Ok cfg
        /\ (lookup d ["run"; "mode"] = None -> mode cfg = YStr "full")
        /\ (lookup d ["run"; "fail_fast"] = None -> fail_fast cfg = true)
        /\ (lookup d ["transform"; "filter"; "min_age"] = None ->
            min_age cfg = 0%Z)
        /\ (lookup d ["transform"; "add_columns"; "migrated_at_utc"] = None ->
            add_migrated_at_utc cfg = true)
        /\ (lookup d ["transform"; "add_columns"; "run_id"] = None ->
            add_run_id cfg = true)).
Proof.
  split; [|split; [|split]].
  - intros ks. apply load_config_missing.
  - intros v. apply load_config_min_age.
  - intros w script arg e. apply run_bad_config.
  - intros Hvalid. destruct (load_config_valid d Hvalid) as [cfg Hcfg].
    exists cfg. split; [assumption|]. now apply load_config_defaults.
Qed.

Lemma load_config_contract_witness :
  (exists e,
      load_config
        (Document (YMap [("run", YMap [("mode", YStr "full")]);
                         ("paths", sample_paths);
                         ("inputs", sample_inputs ["id"]);
                         ("transform", YMap [("filter", YMap [])]);
                         ("outputs", sample_outputs)]))
      = Raise e)
  /\ (exists e,
        load_config
          (Document (sample_document [] ["id"]
                       [("filter", YMap [("min_age", YStr "abc")])]))
        = Raise e)
  /\ (exists cfg,
        load_config
          (Document (sample_document [] ["id"; "age"] [("filter", YMap [])]))
        = Ok cfg
        /\ mode cfg = YStr "full"
        /\ fail_fast cfg = true
        /\ min_age cfg = 0%Z
        /\ add_migrated_at_utc cfg = true
        /\ add_run_id cfg = true).
Proof.
  split; [|split].
  - apply (proj1 (load_config_contract _) ["run"; "name"]).
    + simpl. tauto.
    + reflexivity.
  - apply (proj1 (proj2 (load_config_contract _)) (YStr "abc"));
      reflexivity.
  - destruct (proj2 (proj2 (proj2
                (load_config_contract
                   (sample_document [] ["id"; "age"] [("filter", YMap [])]))))
                eq_refl)
      as [cfg [Hcfg [D1 [D2 [D3 [D4 D5]]]]]].
    exists cfg. split; [exact Hcfg|].
    split; [exact (D1 eq_refl)|]. split; [exact (D2 eq_refl)|].
    split; [exact (D3 eq_refl)|]. split; [exact (D4 eq_refl)|].
    exact (D5 eq_refl).
Defined.

(** ** Schema validation: C2, C6, C7 *)

Lemma run_schema (w : World) (script arg : string) (cfg : Config)
  (recs : list record) (headers : list key) :
  argv w = [script; arg] ->
  load_config (config_at w arg) = Ok cfg ->
  is_text (log_file cfg) = true ->
  is_text (source_file cfg) = true ->
  csv_at w (Child (raw_dir cfg) (text_of (source_file cfg))) = Some recs ->
  fieldnames recs <> None ->
  observed_headers w (reader_rows recs)
    (Child (raw_dir cfg) (text_of (source_file cfg))) = Ok headers ->
  missing_columns (expected_columns cfg) headers <> [] ->
  fail_fast cfg = true ->
  run w
  = (start_events w cfg (Child (logs_dir cfg) (text_of (log_file cfg)))
     ++ [ Stderr (MissingColumns
                    (missing_columns (expected_columns cfg) headers)
                    (Child (raw_dir cfg) (text_of (source_file cfg)))
                    headers) ],
     1%Z).
Proof.
  intros Hargv Hcfg Hlog Hsrc Hcsv Hfn Hobs Hmiss Hff. unfold run.
  rewrite (@main_schema w script arg cfg _ _ recs headers Hargv Hcfg
             (path_div_text _ _ Hlog) (path_div_text _ _ Hsrc) Hcsv Hfn Hobs).
  - reflexivity.
  - rewrite Hff.
    destruct (missing_columns (expected_columns cfg) headers);
      [contradiction | reflexivity].
Qed.

(** C2: when the observed headers miss an expected column and [fail_fast]
    is true, the run prints an error that names the missing columns, the
    input path and the observed headers, ends with status 1, and has by
    then written no file and logged no SUCCESS line. *)
Theorem fail_fast_schema_violation_stops_run (w : World)
  (script arg : string) (cfg : Config) (h : record) (data : list record)
  (headers : list key) :
  argv w = [script; arg] ->
  load_config (config_at w arg) = Ok cfg ->
  is_text (log_file cfg) = true ->
  is_text (source_file cfg) = true ->
  csv_at w (Child (raw_dir cfg) (text_of (source_file cfg))) = Some (h :: data) ->
  observed_headers w (reader_rows (h :: data))
    (Child (raw_dir cfg) (text_of (source_file cfg))) = Ok headers ->
  missing_columns (expected_columns cfg) headers <> [] ->
  fail_fast cfg = true ->
  exists events,
    run w = (events, 1%Z)
    /\ In (Stderr (MissingColumns
                     (missing_columns (expected_columns cfg) headers)
                     (Child (raw_dir cfg) (text_of (source_file cfg)))
                     headers)) events
    /\ existsb is_file_write events = false
    /\ existsb is_success_line events = false.
Proof.
  intros Hargv Hcfg Hlog Hsrc Hcsv Hobs Hmiss Hff.
  eexists. split.
  - apply (@run_schema w script arg cfg (h :: data) headers); auto.
    discriminate.
  - split; [|split; reflexivity].
    apply in_or_app. right. now left.
Qed.

Lemma fail_fast_schema_violation_stops_run_witness :
  let w := sample_world ["config.yaml"]
             (Document (sample_document [("fail_fast", YBool true)]
                          ["id"; "age"] [("filter", YMap [])]))
             (Some [["id"; "name"]; ["1"; "Ada"]]) in
  exists events,
    run w = (events, 1%Z)
    /\ In (Stderr (MissingColumns [YStr "age"]
                     (Child (Dir "raw") "people.csv")
                     [Some "id"; Some "name"])) events
    /\ existsb is_file_write events = false
    /\ existsb is_success_line events = false.
Proof.
  cbv zeta.
  apply (@fail_fast_schema_violation_stops_run
           (sample_world ["config.yaml"]
              (Document (sample_document [("fail_fast", YBool true)]
                           ["id"; "age"] [("filter", YMap [])]))
              (Some [["id"; "name"]; ["1"; "Ada"]]))
           "run_migration.py" "config.yaml" (sample_config 0 true true)
           ["id"; "name"] [["1"; "Ada"]] [Some "id"; Some "name"]);
    try reflexivity.
  discriminate.
Defined.

Lemma validate_columns_passes (w : World) (rows : list row)
  (expected : list yaml) (input_path : path) (ff : bool)
  (headers : list key) (s : state) :
  observed_headers w rows input_path = Ok headers ->
  missing_columns expected headers = [] \/ ff = false ->
  validate_columns w rows expected input_path ff s = (s, Return headers).
Proof.
  intros Hobs Hok. unfold validate_columns.
  rewrite Hobs, bind_lift_ok. cbv zeta.
  assert (E : nonempty (missing_columns expected headers) && ff = false).
  { destruct Hok as [-> | ->]; [reflexivity | apply andb_false_r]. }
  rewrite E. reflexivity.
Qed.

(** C6, as stated, fails: with [fail_fast] false and the expected column
    [age] missing from the file, the run ends with status 0 and nothing it
    logs, reports or prints names the missing column. *)
Lemma missing_column_is_not_reported :
  let w := sample_world ["config.yaml"]
             (Document (sample_document [("fail_fast", YBool false)]
                          ["id"; "age"]
                          [("filter", YMap [("min_age", YInt (-1))])]))
             (Some [["id"]; ["1"]; ["2"]]) in
  missing_columns [YStr "id"; YStr "age"] [Some "id"] = [YStr "age"]
  /\ snd (run w) = 0%Z
  /\ existsb (names_column "age") (fst (run w)) = false.
Proof. cbv zeta. repeat split. Qed.

(** C6, amended: validation returns the observed headers, without any
    effect, whenever no expected column is missing, whatever other columns
    the file has, and whenever [fail_fast] is false, whatever is missing:
    the missing columns are then neither logged nor reported.  Every column
    of a row, expected or not, keeps its value in the transformed row unless
    it is named like a field the configuration adds; a row read from a file
    has no entry for a name that is not in the header; and with [fail_fast]
    false a run over a rectangular file ends with status 0 and logs its
    SUCCESS line, whatever is missing, when the configuration is valid:
    its file names are single path components and its run name and mode
    are values JSON has a form for. *)
Theorem validation_tolerates_columns :
  (forall w rows expected input_path ff headers s,
      observed_headers w rows input_path = Ok headers ->
      missing_columns expected headers = [] \/ ff = false ->
      validate_columns w rows expected input_path ff s = (s, Return headers))
  /\ (forall cfg run_id migrated_at r k,
        assigned cfg k = false ->
        dict_get k (enrich cfg run_id migrated_at r) = dict_get k r)
  /\ (forall h vals c,
        key_in (Some c) (map Some h) = false ->
        dict_get (Some c) (reader_row h vals) = None)
  /\ (forall w script arg cfg h data,
        argv w = [script; arg] ->
        load_config (config_at w arg) = Ok cfg ->
        names_are_plain cfg = true ->
        report_is_json cfg = true ->
        csv_at w (Child (raw_dir cfg) (text_of (source_file cfg)))
        = Some (h :: data) ->
        rectangular h data = true ->
        fail_fast cfg = false ->
        exists events,
          run w = (events, 0%Z) /\ existsb is_success_line events = true).
Proof.
  split; [|split; [|split]].
  - intros w rows expected input_path ff headers s.
    apply validate_columns_passes.
  - intros cfg run_id migrated_at r k. apply enrich_keeps.
  - intros h vals c H. apply dict_get_none_iff.
    now rewrite reader_row_names.
  - intros w script arg cfg h data Hargv Hcfg Hnames Hjson Hcsv Hrect Hff.
    destruct (@main_rectangular w script arg cfg h data Hargv Hcfg
                (names_plain_text cfg Hnames) Hcsv Hrect (or_intror Hff)
                Hjson) as [headers [_ [_ Hmain]]].
    unfold run. rewrite Hmain. eexists. split; reflexivity.
Qed.

Lemma validation_tolerates_columns_witness :
  let w := sample_world ["config.yaml"]
             (Document (sample_document [("fail_fast", YBool false)]
                          ["id"; "age"]
                          [("filter", YMap [("min_age", YInt (-1))])]))
             (Some [["id"; "city"]; ["1"; "Oslo"]]) in
  validate_columns w (reader_rows [["id"; "city"]; ["1"; "Oslo"]])
    [YStr "id"; YStr "age"] (Child (Dir "raw") "people.csv") false init
  = (init, Return [Some "id"; Some "city"])
  /\ dict_get (Some "age") (reader_row ["id"; "city"] ["1"; "Oslo"]) = None
  /\ exists events,
       run w = (events, 0%Z) /\ existsb is_success_line events = true.
Proof.
  cbv zeta. split; [|split].
  - apply (proj1 validation_tolerates_columns);
      [reflexivity | right; reflexivity].
  - apply (proj1 (proj2 (proj2 validation_tolerates_columns))). reflexivity.
  - apply (proj2 (proj2 (proj2 validation_tolerates_columns))
             (sample_world ["config.yaml"]
                (Document (sample_document [("fail_fast", YBool false)]
                             ["id"; "age"]
                             [("filter", YMap [("min_age", YInt (-1))])]))
                (Some [["id"; "city"]; ["1"; "Oslo"]]))
             "run_migration.py" "config.yaml"
             {| run_name := YStr "demo";
                mode := YStr "full";
                fail_fast := false;
                raw_dir := Dir "raw";
                staging_dir := Dir "staging";
                output_dir := Dir "output";
                reports_dir := Dir "reports";
                logs_dir := Dir "logs";
                source_file := YStr "people.csv";
                expected_columns := [YStr "id"; YStr "age"];
                min_age := (-1)%Z;
                add_migrated_at_utc := true;
                add_run_id := true;
                output_file := YStr "people_out.csv";
                report_file := YStr "report.json";
                log_file := YStr "run.log" |}
             ["id"; "city"] [["1"; "Oslo"]]);
      reflexivity.
Defined.

Lemma blank_rows (h : record) (data : list record) :
  forallb is_blank data = true -> reader_rows (h :: data) = [].
Proof.
  unfold reader_rows. induction data as [|r data IH]; simpl; auto.
  intros H. apply andb_true_iff in H. destruct H as [Hr Hdata].
  rewrite Hr. simpl. now apply IH.
Qed.

Lemma blank_rectangular (h : record) (data : list record) :
  forallb is_blank data = true -> rectangular h data = true.
Proof.
  unfold rectangular. induction data as [|r data IH]; simpl; auto.
  intros H. apply andb_true_iff in H. destruct H as [Hr Hdata].
  rewrite Hr. simpl. now apply IH.
Qed.

(** C7: for an input with a header line that covers the expected columns
    and no data row, validation succeeds on the headers read again from the
    header line, and the run, under a valid configuration (one that
    resolves, whose file names are single path components and whose run
    name and mode are values JSON has a form for), ends with status 0,
    gives the staging file and the output file an empty text, without a
    header row, and reports [output_rows] 0. *)
Theorem header_only_input_gives_empty_output (w : World)
  (script arg : string) (cfg : Config) (h : record) (data : list record) :
  argv w = [script; arg] ->
  load_config (config_at w arg) = Ok cfg ->
  names_are_plain cfg = true ->
  report_is_json cfg = true ->
  csv_at w (Child (raw_dir cfg) (text_of (source_file cfg))) = Some (h :: data) ->
  forallb is_blank data = true ->
  covers h (expected_columns cfg) = true ->
  reader_rows (h :: data) = []
  /\ validate_columns w [] (expected_columns cfg)
       (Child (raw_dir cfg) (text_of (source_file cfg))) (fail_fast cfg) init
     = (init, Return (map Some h))
  /\ exists events rep,
       run w = (events, 0%Z)
       /\ filter tabular events
          = [ Write (staging_path_of cfg) (Text "");
              Write (Child (output_dir cfg) (text_of (output_file cfg)))
                (Text "") ]
       /\ In (Write (Child (reports_dir cfg) (text_of (report_file cfg)))
                (Json rep)) events
       /\ r_output_rows rep = 0
       /\ r_headers_seen rep = map Some h.
Proof.
  intros Hargv Hcfg Hnames Hjson Hcsv Hblank Hcov.
  pose proof (blank_rows h data Hblank) as Hrows.
  assert (Hobs : observed_headers w []
                   (Child (raw_dir cfg) (text_of (source_file cfg)))
                 = Ok (map Some h)).
  { unfold observed_headers. now rewrite Hcsv. }
  split; [exact Hrows|]. split.
  - apply validate_columns_passes; [exact Hobs|]. left.
    now apply (@missing_none _ h).
  - destruct (@main_rectangular w script arg cfg h data Hargv Hcfg
                (names_plain_text cfg Hnames) Hcsv
                (blank_rectangular h data Hblank) (or_introl Hcov) Hjson)
      as [headers [_ [Hobs' Hmain]]].
    rewrite Hrows in Hobs', Hmain. rewrite Hobs in Hobs'.
    inversion Hobs'. subst headers.
    unfold run. rewrite Hmain. cbn [trace exit_status filter map].
    eexists. eexists. split; [reflexivity|].
    split; [reflexivity|]. split.
    + unfold success_events. apply in_or_app. right.
      do 5 right. left. reflexivity.
    + split; reflexivity.
Qed.

Lemma header_only_input_gives_empty_output_witness :
  let w := sample_world ["config.yaml"]
             (Document (sample_document [] ["id"; "age"] [("filter", YMap [])]))
             (Some [["id"; "age"; "city"]; []]) in
  reader_rows [["id"; "age"; "city"]; []] = []
  /\ validate_columns w [] [YStr "id"; YStr "age"]
       (Child (Dir "raw") "people.csv") true init
     = (init, Return [Some "id"; Some "age"; Some "city"])
  /\ exists events rep,
       run w = (events, 0%Z)
       /\ filter tabular events
          = [ Write (Child (Dir "staging") "staged_people.csv") (Text "");
              Write (Child (Dir "output") "people_out.csv") (Text "") ]
       /\ In (Write (Child (Dir "reports") "report.json") (Json rep)) events
       /\ r_output_rows rep = 0
       /\ r_headers_seen rep = [Some "id"; Some "age"; Some "city"].
Proof.
  cbv zeta.
  apply (@header_only_input_gives_empty_output
           (sample_world ["config.yaml"]
              (Document (sample_document [] ["id"; "age"]
                           [("filter", YMap [])]))
              (Some [["id"; "age"; "city"]; []]))
           "run_migration.py" "config.yaml" (sample_config 0 true true)
           ["id"; "age"; "city"] [[]]);
    reflexivity.
Defined.

(** ** Exit status and outputs: C8, C9 *)

(** C8: the status of the process is 0 exactly when the run logged its
    SUCCESS line; it is 2, with the usage message as the only thing done,
    when the number of arguments is wrong; and it is 1 when the
    configuration file is missing, when a required field is missing from
    the configuration, when [min_age] is not numeric, when the input file
    is missing, and when expected columns are missing under [fail_fast]. *)
Theorem exit_status_of_run (w : World) :
  (forall events code,
      run w = (events, code) ->
      (code = 0%Z <-> existsb is_success_line events = true))
  /\ (List.length (argv w) <> 2 ->
      run w = ([Stderr Usage], 2%Z)
      /\ existsb touches_files (fst (run w)) = false)
  /\ (forall script arg,
        argv w = [script; arg] ->
        config_at w arg = NoFile ->
        run w = ([Stderr (ConfigNotFound (Dir arg))], 1%Z))
  /\ (forall script arg d ks,
        argv w = [script; arg] ->
        config_at w arg = Document d ->
        In ks required_fields ->
        lookup d ks = None ->
        run w = ([], 1%Z))
  /\ (forall script arg d v,
        argv w = [script; arg] ->
        config_at w arg = Document d ->
        lookup d ["transform"; "filter"; "min_age"] = Some v ->
        numeric v = false ->
        run w = ([], 1%Z))
  /\ (forall script arg cfg,
        argv w = [script; arg] ->
        load_config (config_at w arg) = Ok cfg ->
        is_text (log_file cfg) = true ->
        is_text (source_file cfg) = true ->
        csv_at w (Child (raw_dir cfg) (text_of (source_file cfg))) = None ->
        snd (run w) = 1%Z
        /\ In (Stderr (InputNotFound
                         (Child (raw_dir cfg) (text_of (source_file cfg)))))
             (fst (run w)))
  /\ (forall script arg cfg recs headers,
        argv w = [script; arg] ->
        load_config (config_at w arg) = Ok cfg ->
        is_text (log_file cfg) = true ->
        is_text (source_file cfg) = true ->
        csv_at w (Child (raw_dir cfg) (text_of (source_file cfg))) = Some recs ->
        fieldnames recs <> None ->
        observed_headers w (reader_rows recs)
          (Child (raw_dir cfg) (text_of (source_file cfg))) = Ok headers ->
        missing_columns (expected_columns cfg) headers <> [] ->
        fail_fast cfg = true ->
        snd (run w) = 1%Z).
Proof.
  repeat match goal with |- _ /\ _ => split end.
  - intros events code H. unfold run in H.
    destruct (main w init) as [s r] eqn:E. inversion H; subst; clear H.
    destruct (main_outcomes w E) as [[Hnz Hq]|Hs].
    + split; intros H; [contradiction | rewrite Hq in H; discriminate].
    + destruct Hs as (script & arg & cfg & log_path & input_path & output_path
                      & report_path & recs & headers & transformed & Hs).
      destruct Hs as (_ & _ & _ & _ & _ & _ & _ & _ & _ & _ & _ & _ & Hr & Htr).
      subst r. rewrite Htr. split; intros _; [|reflexivity].
      unfold success_events. rewrite existsb_app.
      apply orb_true_iff. right. reflexivity.
  - intros H. unfold run. rewrite (main_usage w H). split; reflexivity.
  - intros script arg Hargv Hdoc. unfold run.
    now rewrite (main_no_config w Hargv Hdoc).
  - intros script arg d ks Hargv Hdoc Hin Hnone.
    destruct (@load_config_missing d ks) as [e He]; auto.
    + apply in_or_app. now left.
    + now apply (@run_bad_config w script arg d e).
  - intros script arg d v Hargv Hdoc Hv Hnum.
    destruct (@load_config_min_age d v Hv Hnum) as [e He].
    now apply (@run_bad_config w script arg d e).
  - intros script arg cfg Hargv Hcfg Hlog Hsrc Hcsv. unfold run.
    rewrite (@main_no_input w script arg cfg _ _ Hargv Hcfg
               (path_div_text _ _ Hlog) (path_div_text _ _ Hsrc) Hcsv).
    cbn [fst snd trace exit_status]. split; [reflexivity|].
    apply in_or_app. right. do 2 right. now left.
  - intros script arg cfg recs headers Hargv Hcfg Hlog Hsrc Hcsv Hfn Hobs
      Hmiss Hff.
    now rewrite (@run_schema w script arg cfg recs headers).
Qed.

Lemma exit_status_of_run_witness :
  run (sample_world [] NoFile None) = ([Stderr Usage], 2%Z)
  /\ run (sample_world ["config.yaml"; "extra"] NoFile None)
     = ([Stderr Usage], 2%Z)
  /\ run (sample_world ["missing.yaml"] Unparsable None)
     = ([Stderr (ConfigNotFound (Dir "missing.yaml"))], 1%Z)
  /\ run (sample_world ["config.yaml"]
            (Document (YMap [("run", YMap [("name", YStr "demo")]);
                             ("paths", sample_paths);
                             ("inputs", sample_inputs ["id"]);
                             ("transform", YMap [("filter", YMap [])])]))
            None)
     = ([], 1%Z)
  /\ run (sample_world ["config.yaml"]
            (Document (sample_document [] ["id"]
                         [("filter", YMap [("min_age", YStr "abc")])]))
            None)
     = ([], 1%Z)
  /\ snd (run (sample_world ["config.yaml"]
                 (Document (sample_document [] ["id"] [("filter", YMap [])]))
                 None))
     = 1%Z
  /\ snd (run (sample_world ["config.yaml"]
                 (Document (sample_document [] ["id"; "age"]
                              [("filter", YMap [])]))
                 (Some [["id"; "name"]; ["1"; "Ada"]])))
     = 1%Z
  /\ (0%Z = 0%Z
      <-> existsb is_success_line
            (fst (run (sample_world ["config.yaml"]
                         (Document (sample_document [] ["id"; "age"]
                                      [("filter", YMap [])]))
                         (Some [["id"; "age"]; ["1"; "30"]]))))
          = true).
Proof.
  split; [|split; [|split; [|split; [|split; [|split; [|split]]]]]].
  - apply (proj1 (proj2 (exit_status_of_run _))). simpl. lia.
  - apply (proj1 (proj2 (exit_status_of_run
                           (sample_world ["config.yaml"; "extra"] NoFile
                              None)))).
    simpl. lia.
  - apply (proj1 (proj2 (proj2 (exit_status_of_run _)))
             "run_migration.py" "missing.yaml"); reflexivity.
  - apply (proj1 (proj2 (proj2 (proj2 (exit_status_of_run _))))
             "run_migration.py" "config.yaml"
             (YMap [("run", YMap [("name", YStr "demo")]);
                    ("paths", sample_paths);
                    ("inputs", sample_inputs ["id"]);
                    ("transform", YMap [("filter", YMap [])])])
             ["outputs"; "log_file"]).
    + reflexivity.
    + reflexivity.
    + simpl. tauto.
    + reflexivity.
  - apply (proj1 (proj2 (proj2 (proj2 (proj2 (exit_status_of_run _)))))
             "run_migration.py" "config.yaml"
             (sample_document [] ["id"]
                [("filter", YMap [("min_age", YStr "abc")])])
             (YStr "abc"));
      reflexivity.
  - apply (proj1 (proj2 (proj2 (proj2 (proj2 (proj2
                   (exit_status_of_run _))))))
             "run_migration.py" "config.yaml"
             {| run_name := YStr "demo";
                mode := YStr "full";
                fail_fast := true;
                raw_dir := Dir "raw";
                staging_dir := Dir "staging";
                output_dir := Dir "output";
                reports_dir := Dir "reports";
                logs_dir := Dir "logs";
                source_file := YStr "people.csv";
                expected_columns := [YStr "id"];
                min_age := 0%Z;
                add_migrated_at_utc := true;
                add_run_id := true;
                output_file := YStr "people_out.csv";
                report_file := YStr "report.json";
                log_file := YStr "run.log" |});
      reflexivity.
  - apply (proj2 (proj2 (proj2 (proj2 (proj2 (proj2
                   (exit_status_of_run _))))))
             "run_migration.py" "config.yaml" (sample_config 0 true true)
             [["id"; "name"]; ["1"; "Ada"]] [Some "id"; Some "name"]);
      try reflexivity; discriminate.
  - apply (proj1 (exit_status_of_run
                    (sample_world ["config.yaml"]
                       (Document (sample_document [] ["id"; "age"]
                                    [("filter", YMap [])]))
                       (Some [["id"; "age"]; ["1"; "30"]])))).
    reflexivity.
Defined.

(** C9: on every run that ends with status 0, the writer is called twice,
    for the staging path and for the output path, and gives both files the
    same content, the serialised sequence of transformed rows. *)
Theorem staging_and_output_agree (w : World) (events : list event) :
  run w = (events, 0%Z) ->
  exists script arg cfg input_path output_path recs transformed,
    argv w = [script; arg]
    /\ load_config (config_at w arg) = Ok cfg
    /\ path_div (raw_dir cfg) (source_file cfg) = Ok input_path
    /\ path_div (output_dir cfg) (output_file cfg) = Ok output_path
    /\ csv_at w input_path = Some recs
    /\ transform_rows (reader_rows recs) cfg (uuid4 w) (clock w 0)
       = Ok transformed
    /\ filter tabular events
       = [ Write (staging_path_of cfg) (table_of transformed);
           Write output_path (table_of transformed) ].
Proof.
  intros H. unfold run in H.
  destruct (main w init) as [s r] eqn:E. inversion H; subst; clear H.
  match goal with Hz : exit_status r = 0%Z |- _ =>
    destruct (main_status_zero w E Hz)
      as (script & arg & cfg & log_path & input_path & output_path
          & report_path & recs & headers & transformed & Hs)
  end.
  destruct Hs as (Hargv & Hcfg & _ & Hin & Hcsv & _ & _ & _ & Htr & Hout & _
                  & _ & _ & Htrace).
  exists script, arg, cfg, input_path, output_path, recs, transformed.
  repeat (split; [assumption|]).
  rewrite Htrace. unfold table_of. destruct transformed; reflexivity.
Qed.

Lemma staging_and_output_agree_witness :
  let w := sample_world ["config.yaml"]
             (Document (sample_document [] ["id"; "age"]
                          [("filter", YMap [("min_age", YInt 18)])]))
             (Some [["id"; "age"]; ["1"; "30"]; ["2"; "12"]]) in
  exists script arg cfg input_path output_path recs transformed,
    argv w = [script; arg]
    /\ load_config (config_at w arg) = Ok cfg
    /\ path_div (raw_dir cfg) (source_file cfg) = Ok input_path
    /\ path_div (output_dir cfg) (output_file cfg) = Ok output_path
    /\ csv_at w input_path = Some recs
    /\ transform_rows (reader_rows recs) cfg (uuid4 w) (clock w 0)
       = Ok transformed
    /\ filter tabular (fst (run w))
       = [ Write (staging_path_of cfg) (table_of transformed);
           Write output_path (table_of transformed) ].
Proof.
  cbv zeta.
  apply (staging_and_output_agree
           (sample_world ["config.yaml"]
              (Document (sample_document [] ["id"; "age"]
                           [("filter", YMap [("min_age", YInt 18)])]))
              (Some [["id"; "age"]; ["1"; "30"]; ["2"; "12"]]))).
  reflexivity.
Defined.

(** * Further properties *)

(** ** The ways a run ends *)

Lemma observed_headers_found (w : World) (rows : list row) (input_path : path)
  (recs : list record) (e : exn) :
  csv_at w input_path = Some recs ->
  observed_headers w rows input_path <> Raise e.
Proof.
  intros Hcsv. unfold observed_headers. destruct rows; [|discriminate].
  rewrite Hcsv. destruct (fieldnames recs); discriminate.
Qed.

Lemma write_csv_raises (p : path) (rows : list row) (s s' : state)
  (r : outcome unit) :
  write_csv p rows s = (s', r) ->
  writable rows = false ->
  r = Uncaught ValueError
  /\ exists recs,
       trace s' = (trace s ++ [Mkdir (parent p)]) ++ [Write p (Table recs)].
Proof.
  intros H W. unfold write_csv, bind, emit in H. simpl in H.
  destruct rows as [|r0 rows]; [discriminate|].
  pose proof (writerows_snd (keys r0) (r0 :: rows)) as Hs.
  unfold writable in W. rewrite W in Hs.
  destruct (writerows (keys r0) (r0 :: rows)) as [recs ok].
  simpl in Hs. subst ok. unfold lift in H. inversion H.
  split; [reflexivity|]. eexists. reflexivity.
Qed.

Lemma main_stops (w : World) (s : state) (r : outcome Z) :
  main w init = (s, r) ->
  exit_status r <> 0%Z ->
  exists st,
    stop_ok w st /\ trace s = stop_events w st /\ r = stop_outcome st.
Proof.
  intros H0 Hnz. pose proof H0 as H. unfold main in H.
  destruct (argv w) as [|script [|arg [|x l]]] eqn:Hargv;
    try (inversion H; subst; exists AtUsage; simpl; rewrite Hargv;
         repeat split; simpl; lia).
  destruct (config_at w arg) as [| |data] eqn:Hdoc.
  { rewrite bind_die in H. inversion H; subst.
    exists (AtConfigMissing arg). repeat split. simpl. eauto. }
  { rewrite bind_ret in H.
    change (load_config Unparsable) with (@Raise Config YAMLError) in H.
    rewrite bind_lift_raise in H. inversion H; subst.
    exists (AtConfig YAMLError). repeat split. simpl.
    exists script, arg. rewrite Hdoc. auto. }
  rewrite bind_ret in H.
  destruct (load_config (Document data)) as [cfg|e] eqn:Hcfg.
  2:{ rewrite bind_lift_raise in H. inversion H; subst.
      exists (AtConfig e). repeat split. simpl.
      exists script, arg. rewrite Hdoc. auto. }
  rewrite bind_lift_ok in H.
  assert (Hres : resolved w cfg).
  { exists script, arg. rewrite Hdoc. auto. }
  rewrite bind_ensure_dirs, bind_utcnow in H. cbn [ticks trace init app] in H.
  destruct (path_div (logs_dir cfg) (log_file cfg)) as [log_path|e] eqn:Hlog.
  2:{ rewrite bind_lift_raise in H. inversion H; subst.
      exists (AtLogPath cfg e). repeat split; assumption. }
  rewrite bind_lift_ok, bind_log_line in H.
  assert (Hok : forall why, stop_ok w (AfterStart cfg log_path why)).
  { intros why. split; assumption. }
  destruct (path_div (raw_dir cfg) (source_file cfg)) as [input_path|e] eqn:Hin.
  2:{ rewrite bind_lift_raise in H. inversion H; subst.
      exists (AfterStart cfg log_path (InputPathError e)).
      split; [apply Hok | split; reflexivity]. }
  rewrite bind_lift_ok in H.
  destruct (csv_at w input_path) as [recs|] eqn:Hcsv.
  2:{ rewrite bind_assoc, bind_log_line, bind_die in H. inversion H; subst.
      exists (AfterStart cfg log_path (InputMissing input_path)).
      split; [apply Hok | split; reflexivity]. }
  rewrite bind_ret in H. unfold read_csv in H. rewrite Hcsv in H.
  destruct (fieldnames recs) as [h|] eqn:Hf.
  2:{ rewrite bind_assoc, bind_die in H. inversion H; subst.
      exists (AfterStart cfg log_path (HeaderMissing input_path)).
      split; [apply Hok | split; reflexivity]. }
  rewrite bind_assoc, bind_ret, bind_ret in H.
  unfold validate_columns in H. rewrite bind_assoc in H.
  destruct (observed_headers w (reader_rows recs) input_path)
    as [headers|e] eqn:Hobs.
  2:{ exfalso. exact (@observed_headers_found w _ input_path recs e Hcsv Hobs). }
  rewrite bind_lift_ok in H. cbv zeta in H.
  destruct (nonempty (missing_columns (expected_columns cfg) headers)
            && fail_fast cfg) eqn:Hmiss.
  { rewrite bind_assoc, bind_die in H. inversion H; subst.
    exists (AfterStart cfg log_path
              (SchemaViolation (missing_columns (expected_columns cfg) headers)
                 input_path headers)).
    split; [apply Hok | split; reflexivity]. }
  rewrite bind_assoc, bind_ret, bind_ret in H.
  destruct (transform_rows (reader_rows recs) cfg (uuid4 w) (clock w 0))
    as [transformed|e] eqn:Htr.
  2:{ rewrite bind_lift_raise in H. inversion H; subst.
      exists (AfterStart cfg log_path (TransformError e)).
      split; [apply Hok | split; reflexivity]. }
  rewrite bind_lift_ok in H.
  destruct (path_div (output_dir cfg) (output_file cfg)) as [output_path|e]
    eqn:Hout.
  2:{ rewrite bind_lift_raise in H. inversion H; subst.
      exists (AfterStart cfg log_path (OutputPathError e)).
      split; [apply Hok | split; reflexivity]. }
  rewrite bind_lift_ok in H.
  destruct (writable transformed) eqn:Hw.
  2:{ unfold bind at 1 in H.
      match type of H with
      | context [write_csv ?p ?rows ?st] =>
          destruct (write_csv p rows st) as [s1 r1] eqn:Hwr
      end.
      apply write_csv_raises in Hwr; [|assumption].
      destruct Hwr as [-> [c Hc]].
      inversion H; subst.
      exists (AfterStart cfg log_path (WriterError c)).
      split; [apply Hok | split; [|reflexivity]].
      rewrite Hc. reflexivity. }
  destruct (path_div (reports_dir cfg) (report_file cfg)) as [report_path|e]
    eqn:Hrep.
  2:{ rewrite (bind_write_csv _ _ _ _ Hw), (bind_write_csv _ _ _ _ Hw) in H.
      rewrite bind_lift_raise in H. inversion H; subst.
      exists (AfterStart cfg log_path
                (ReportPathError output_path transformed e)).
      split; [apply Hok | split; reflexivity]. }
  destruct (report_is_json cfg) eqn:Hjson.
  2:{ rewrite (bind_write_csv _ _ _ _ Hw), (bind_write_csv _ _ _ _ Hw) in H.
      rewrite bind_lift_ok in H.
      rewrite bind_write_json_raise with (e := TypeError) in H
        by (now apply (json_dumps_raises cfg)).
      inversion H; subst.
      exists (AfterStart cfg log_path
                (ReportError output_path report_path transformed)).
      split; [apply Hok | split; reflexivity]. }
  exfalso. apply Hnz.
  assert (Hfn : fieldnames recs <> None) by congruence.
  rewrite <- Hdoc in Hcfg.
  pose proof (main_success w Hargv Hcfg Hlog Hin Hcsv Hfn Hobs Hmiss Htr Hout
                Hw Hrep Hjson) as Hs.
  rewrite Hs in H0. inversion H0; subst. reflexivity.
Qed.

Lemma run_ends (w : World) :
  (exists cfg log_path input_path output_path report_path rows transformed
          headers,
      resolved w cfg
      /\ path_div (logs_dir cfg) (log_file cfg) = Ok log_path
      /\ transform_rows rows cfg (uuid4 w) (clock w 0) = Ok transformed
      /\ run w = (success_events w cfg log_path input_path output_path
                    report_path rows transformed headers, 0%Z))
  \/ (exists st,
        stop_ok w st
        /\ exit_status (stop_outcome st) <> 0%Z
        /\ run w = (stop_events w st, exit_status (stop_outcome st))).
Proof.
  unfold run. destruct (main w init) as [s r] eqn:E.
  destruct (Z.eq_dec (exit_status r) 0) as [Hz|Hnz].
  - left. destruct (main_status_zero w E Hz)
      as (script & arg & cfg & log_path & input_path & output_path
          & report_path & recs & headers & transformed & Hs).
    destruct Hs as (Hargv & Hcfg & Hlog & _ & _ & _ & _ & _ & Htr & _ & _ & _
                    & Hr & Htrace).
    exists cfg, log_path, input_path, output_path, report_path,
      (reader_rows recs), transformed, headers.
    split; [exists script, arg; auto|]. split; [assumption|].
    split; [assumption|]. subst r. now rewrite Htrace.
  - right. destruct (main_stops w E Hnz) as [st [Hok [Htrace Hr]]].
    exists st. subst r. split; [assumption|]. split; [assumption|].
    now rewrite Htrace.
Qed.

(** X4: whatever the world, the lines a run appends to its log are,
    in order, none, START, START and FAIL, or START and SUCCESS; the log
    ends with SUCCESS exactly when the status is 0; and all the lines of a
    run go to one file. *)
Theorem log_is_start_then_outcome (w : World) :
  In (log_kinds (fst (run w)))
     [[]; [KStart]; [KStart; KFail]; [KStart; KSuccess]]
  /\ (log_kinds (fst (run w)) = [KStart; KSuccess] <-> snd (run w) = 0%Z)
  /\ (forall p q,
        In p (log_paths (fst (run w))) ->
        In q (log_paths (fst (run w))) ->
        p = q).
Proof.
  destruct (run_ends w) as [Hdone|[st [_ [Hnz Hrun]]]].
  - destruct Hdone as (cfg & log_path & input_path & output_path & report_path
                       & rows & transformed & headers & _ & _ & _ & Hrun).
    rewrite Hrun. cbn. split; [tauto|]. split; [tauto|].
    intros p q [<-|[<-|[]]] [<-|[<-|[]]]; reflexivity.
  - rewrite Hrun. cbn [fst snd].
    destruct st as [| | | |cfg log_path why]; [| | | |destruct why]; cbn;
      cbn in Hnz;
      (split; [tauto|]);
      (split; [split; [discriminate | intros Hz; contradiction]|]);
      intros p q Hp Hq;
      repeat match goal with
             | H : _ \/ _ |- _ => destruct H
             | H : False |- _ => contradiction
             end;
      congruence.
Qed.

(** X5: a run that ends with status 0 writes its report once and prints
    the same report once; the SUCCESS line carries the counts of that
    report; the report never counts more output rows than input rows, and
    it names the run identifier and the time stamp of the run.  A run that
    ends with another status writes no report, prints none and logs no
    SUCCESS line. *)
Theorem report_only_on_success (w : World) :
  (snd (run w) = 0%Z
   /\ exists r,
        reports_written (fst (run w)) = [r]
        /\ reports_printed (fst (run w)) = [r]
        /\ success_counts (fst (run w)) = [(r_input_rows r, r_output_rows r)]
        /\ r_output_rows r <= r_input_rows r
        /\ r_run_id r = uuid4 w
        /\ r_migrated_at_utc r = clock w 0)
  \/ (snd (run w) <> 0%Z
      /\ reports_written (fst (run w)) = []
      /\ reports_printed (fst (run w)) = []
      /\ success_counts (fst (run w)) = []).
Proof.
  destruct (run_ends w) as [Hdone|[st [_ [Hnz Hrun]]]].
  - left.
    destruct Hdone as (cfg & log_path & input_path & output_path & report_path
                       & rows & transformed & headers & _ & _ & Htr & Hrun).
    rewrite Hrun. split; [reflexivity|].
    exists (report_of w cfg input_path output_path rows transformed headers).
    cbn [fst]. unfold success_events.
    split; [destruct transformed; reflexivity|].
    split; [reflexivity|]. split; [reflexivity|].
    split; [|split; reflexivity].
    cbn [report_of r_output_rows r_input_rows].
    apply transform_rows_ok in Htr. subst transformed.
    rewrite length_map. apply filter_length_le.
  - right. rewrite Hrun. cbn [fst snd]. split; [assumption|].
    destruct st as [| | | |cfg log_path why];
      [| | | |destruct why as [e|ip|ip|ms ip hs|e|e|c|op t e|op rp t]];
      try destruct t; repeat split.
Qed.

(** X6: a run either leaves the file system alone, or has resolved its
    configuration and starts with the creation of the five configured
    directories, before it logs, reads or writes anything. *)
Theorem directories_come_first (w : World) :
  existsb touches_files (fst (run w)) = false
  \/ exists cfg rest,
       resolved w cfg /\ fst (run w) = five_dirs cfg ++ rest.
Proof.
  destruct (run_ends w) as [Hdone|[st [Hok [_ Hrun]]]].
  - right.
    destruct Hdone as (cfg & log_path & input_path & output_path & report_path
                       & rows & transformed & headers & Hres & _ & _ & Hrun).
    rewrite Hrun. exists cfg. eexists. split; [assumption|]. reflexivity.
  - rewrite Hrun. cbn [fst].
    destruct st as [| | |cfg e|cfg log_path why];
      try (left; reflexivity); right; exists cfg; eexists;
      (split; [apply Hok | reflexivity]).
Qed.

(** ** Runs that stop at a missing or unusable file *)

Lemma path_div_not_text (d : path) (v : yaml) :
  is_text v = false -> path_div d v = Raise TypeError.
Proof. destruct v; simpl; try discriminate; reflexivity. Qed.

Ltac run_front Hargv Hcfg :=
  unfold run, main; rewrite Hargv;
  let data := fresh "data" in
  let Hdoc := fresh "Hdoc" in
  destruct (load_config_file _ Hcfg) as [data Hdoc]; rewrite Hdoc in *;
  rewrite bind_ret, Hcfg, bind_lift_ok, bind_ensure_dirs, bind_utcnow;
  cbn [ticks trace init app].

(** X1: an input file without any record has no header: [read_csv] prints
    that no headers were found in the file and the run ends with status 1,
    having created the directories and logged START and nothing else. *)
Theorem empty_file_has_no_headers (w : World) (script arg : string)
  (cfg : Config) :
  argv w = [script; arg] ->
  load_config (config_at w arg) = Ok cfg ->
  is_text (log_file cfg) = true ->
  is_text (source_file cfg) = true ->
  csv_at w (Child (raw_dir cfg) (text_of (source_file cfg))) = Some [] ->
  run w
  = (start_events w cfg (Child (logs_dir cfg) (text_of (log_file cfg)))
     ++ [Stderr (NoHeaders (Child (raw_dir cfg) (text_of (source_file cfg))))],
     1%Z).
Proof.
  intros Hargv Hcfg Hlog Hsrc Hcsv. run_front Hargv Hcfg.
  rewrite (path_div_text _ _ Hlog), bind_lift_ok, bind_log_line.
  rewrite (path_div_text _ _ Hsrc), bind_lift_ok, Hcsv, bind_ret.
  unfold read_csv. rewrite Hcsv. cbn [fieldnames].
  rewrite bind_assoc, bind_die. reflexivity.
Qed.

Lemma empty_file_has_no_headers_witness :
  run (sample_world ["config.yaml"]
         (Document (sample_document [] ["id"; "age"] [("filter", YMap [])]))
         (Some []))
  = (start_events
       (sample_world ["config.yaml"]
          (Document (sample_document [] ["id"; "age"] [("filter", YMap [])]))
          (Some []))
       (sample_config 0 true true) (Child (Dir "logs") "run.log")
     ++ [Stderr (NoHeaders (Child (Dir "raw") "people.csv"))],
     1%Z).
Proof.
  apply (@empty_file_has_no_headers
           (sample_world ["config.yaml"]
              (Document (sample_document [] ["id"; "age"]
                           [("filter", YMap [])]))
              (Some []))
           "run_migration.py" "config.yaml" (sample_config 0 true true));
    reflexivity.
Defined.

(** X3: when the input file does not exist, the run, after START, appends
    a FAIL line that names the missing path to the same log, prints that the
    input file was not found, and ends with status 1 without reading or
    writing any data file. *)
Theorem missing_input_is_logged (w : World) (script arg : string)
  (cfg : Config) :
  argv w = [script; arg] ->
  load_config (config_at w arg) = Ok cfg ->
  is_text (log_file cfg) = true ->
  is_text (source_file cfg) = true ->
  csv_at w (Child (raw_dir cfg) (text_of (source_file cfg))) = None ->
  run w
  = (start_events w cfg (Child (logs_dir cfg) (text_of (log_file cfg)))
     ++ [ Mkdir (logs_dir cfg);
          Append (Child (logs_dir cfg) (text_of (log_file cfg))) (clock w 2)
            (FailMissingInput
               (Child (raw_dir cfg) (text_of (source_file cfg))));
          Stderr (InputNotFound
                    (Child (raw_dir cfg) (text_of (source_file cfg)))) ],
     1%Z).
Proof.
  intros Hargv Hcfg Hlog Hsrc Hcsv. run_front Hargv Hcfg.
  rewrite (path_div_text _ _ Hlog), bind_lift_ok, bind_log_line.
  rewrite (path_div_text _ _ Hsrc), bind_lift_ok, Hcsv.
  rewrite bind_assoc, bind_log_line, bind_die. reflexivity.
Qed.

Lemma missing_input_is_logged_witness :
  let w := sample_world ["config.yaml"]
             (Document (sample_document [] ["id"; "age"] [("filter", YMap [])]))
             None in
  run w
  = (start_events w (sample_config 0 true true) (Child (Dir "logs") "run.log")
     ++ [ Mkdir (Dir "logs");
          Append (Child (Dir "logs") "run.log") (clock w 2)
            (FailMissingInput (Child (Dir "raw") "people.csv"));
          Stderr (InputNotFound (Child (Dir "raw") "people.csv")) ],
     1%Z).
Proof.
  cbv zeta.
  apply (@missing_input_is_logged
           (sample_world ["config.yaml"]
              (Document (sample_document [] ["id"; "age"]
                           [("filter", YMap [])]))
              None)
           "run_migration.py" "config.yaml" (sample_config 0 true true));
    reflexivity.
Defined.

(** X7: a file name of the configuration that is not a string is found
    only where the run builds the path, and ends the run with status 1
    there: for the log file after the directories are created and before
    anything is logged; for the source file right after START; for the
    output file, on a rectangular input that passes validation, before any
    file is written; and for the report file only after the staging and the
    output file have been written, which are left in place without a
    report. *)
Theorem file_names_must_be_strings (w : World) (script arg : string)
  (cfg : Config) :
  argv w = [script; arg] ->
  load_config (config_at w arg) = Ok cfg ->
  (is_text (log_file cfg) = false -> run w = (five_dirs cfg, 1%Z))
  /\ (is_text (log_file cfg) = true ->
      is_text (source_file cfg) = false ->
      run w
      = (start_events w cfg (Child (logs_dir cfg) (text_of (log_file cfg))),
         1%Z))
  /\ (forall h data,
        is_text (log_file cfg) = true ->
        is_text (source_file cfg) = true ->
        csv_at w (Child (raw_dir cfg) (text_of (source_file cfg)))
        = Some (h :: data) ->
        rectangular h data = true ->
        covers h (expected_columns cfg) = true ->
        (is_text (output_file cfg) = false ->
         run w
         = (start_events w cfg
              (Child (logs_dir cfg) (text_of (log_file cfg))),
            1%Z))
        /\ (is_text (output_file cfg) = true ->
            is_text (report_file cfg) = false ->
            let transformed :=
              map (enrich cfg (uuid4 w) (clock w 0))
                (filter (fun r => (min_age cfg <=? claimed_age r)%Z)
                   (reader_rows (h :: data))) in
            run w
            = (start_events w cfg
                 (Child (logs_dir cfg) (text_of (log_file cfg)))
               ++ [ Mkdir (staging_dir cfg);
                    Write (staging_path_of cfg) (table_of transformed);
                    Mkdir (output_dir cfg);
                    Write (Child (output_dir cfg) (text_of (output_file cfg)))
                      (table_of transformed) ],
               1%Z))).
Proof.
  intros Hargv Hcfg. split; [|split].
  - intros Hlog. run_front Hargv Hcfg.
    rewrite (path_div_not_text _ _ Hlog), bind_lift_raise. reflexivity.
  - intros Hlog Hsrc. run_front Hargv Hcfg.
    rewrite (path_div_text _ _ Hlog), bind_lift_ok, bind_log_line.
    rewrite (path_div_not_text _ _ Hsrc), bind_lift_raise. reflexivity.
  - intros h data Hlog Hsrc Hcsv Hrect Hcov.
    destruct (@observed_headers_rectangular w _ h data Hcsv Hrect)
      as [headers [Hobs Hk]].
    pose proof (@rows_rectangular_text h data Hrect) as Htext.
    assert (Hmiss : nonempty (missing_columns (expected_columns cfg) headers)
                    && fail_fast cfg = false).
    { now rewrite (@missing_none _ h headers Hk Hcov). }
    assert (Htr : transform_rows (reader_rows (h :: data)) cfg (uuid4 w)
                    (clock w 0)
                  = Ok (map (enrich cfg (uuid4 w) (clock w 0))
                          (filter (fun r => (min_age cfg <=? claimed_age r)%Z)
                             (reader_rows (h :: data))))).
    { rewrite transform_rows_text by assumption.
      now rewrite filter_retained_text. }
    assert (Hw : writable
                   (map (enrich cfg (uuid4 w) (clock w 0))
                      (filter (fun r => (min_age cfg <=? claimed_age r)%Z)
                         (reader_rows (h :: data)))) = true).
    { apply writable_enriched with (ks := map Some h).
      intros r Hr. apply filter_In in Hr. destruct Hr as [Hr _].
      now apply (reader_rows_rectangular h data r Hrect). }
    split.
    + intros Hout. run_front Hargv Hcfg.
      rewrite (path_div_text _ _ Hlog), bind_lift_ok, bind_log_line.
      rewrite (path_div_text _ _ Hsrc), bind_lift_ok, Hcsv, bind_ret.
      cbn [ticks trace app]. unfold read_csv. rewrite Hcsv. cbn [fieldnames].
      rewrite bind_assoc, bind_ret, bind_ret.
      unfold validate_columns. rewrite bind_assoc, Hobs, bind_lift_ok.
      cbv zeta. rewrite Hmiss, bind_assoc, bind_ret, bind_ret.
      rewrite Htr, bind_lift_ok.
      rewrite (path_div_not_text _ _ Hout), bind_lift_raise. reflexivity.
    + intros Hout Hrep. cbv zeta. run_front Hargv Hcfg.
      rewrite (path_div_text _ _ Hlog), bind_lift_ok, bind_log_line.
      rewrite (path_div_text _ _ Hsrc), bind_lift_ok, Hcsv, bind_ret.
      cbn [ticks trace app]. unfold read_csv. rewrite Hcsv. cbn [fieldnames].
      rewrite bind_assoc, bind_ret, bind_ret.
      unfold validate_columns. rewrite bind_assoc, Hobs, bind_lift_ok.
      cbv zeta. rewrite Hmiss, bind_assoc, bind_ret, bind_ret.
      rewrite Htr, bind_lift_ok.
      rewrite (path_div_text _ _ Hout), bind_lift_ok.
      rewrite (bind_write_csv _ _ _ _ Hw), (bind_write_csv _ _ _ _ Hw).
      rewrite (path_div_not_text _ _ Hrep), bind_lift_raise. reflexivity.
Qed.

Lemma file_names_must_be_strings_witness :
  let w := sample_world ["config.yaml"] (Document numbered_report_document)
             (Some [["id"; "age"]; ["1"; "30"]]) in
  run w
  = (start_events w numbered_report_config (Child (Dir "logs") "run.log")
     ++ [ Mkdir (Dir "staging");
          Write (Child (Dir "staging") "staged_people.csv")
            (Table [ [CStr "id"; CStr "age"; CStr "migrated_at_utc";
                      CStr "run_id"];
                     [CStr "1"; CStr "30"; CStr (clock w 0);
                      CStr (uuid4 w)] ]);
          Mkdir (Dir "output");
          Write (Child (Dir "output") "people_out.csv")
            (Table [ [CStr "id"; CStr "age"; CStr "migrated_at_utc";
                      CStr "run_id"];
                     [CStr "1"; CStr "30"; CStr (clock w 0);
                      CStr (uuid4 w)] ]) ],
     1%Z).
Proof.
  cbv zeta.
  apply (proj2 (proj2 (proj2
           (@file_names_must_be_strings
              (sample_world ["config.yaml"] (Document numbered_report_document)
                 (Some [["id"; "age"]; ["1"; "30"]]))
              "run_migration.py" "config.yaml" numbered_report_config
              eq_refl eq_refl))
           ["id"; "age"] [["1"; "30"]] eq_refl eq_refl eq_refl eq_refl
           eq_refl));
    reflexivity.
Defined.

(** ** The rows read from a file *)

Lemma key_in_iff_In (k : key) (ks : list key) : key_in k ks = true <-> In k ks.
Proof.
  unfold key_in. rewrite existsb_exists. split.
  - intros [x [Hx E]]. apply key_eqb_eq in E. now subst.
  - intros H. exists k. split; [assumption | apply key_eqb_refl].
Qed.

Lemma nodup_dict_set (k : key) (v : cell) (d : row) :
  NoDup (keys d) -> NoDup (keys (dict_set k v d)).
Proof.
  intros H. rewrite keys_dict_set. destruct (key_in k (keys d)) eqn:E; auto.
  apply NoDup_app; auto.
  - constructor; [intros [] | constructor].
  - intros a Ha [<-|[]]. apply key_in_iff_In in Ha. congruence.
Qed.

Lemma nodup_zip_dict (ns vs : list string) :
  forall d, NoDup (keys d) -> NoDup (keys (zip_dict ns vs d)).
Proof.
  revert vs. induction ns as [|n ns IH]; intros vs d H; simpl.
  - now destruct vs.
  - destruct vs as [|v vs]; auto. apply IH. now apply nodup_dict_set.
Qed.

Lemma nodup_fold_none (ns : list string) :
  forall d,
    NoDup (keys d) ->
    NoDup (keys (fold_left (fun d n => dict_set (Some n) CNone d) ns d)).
Proof.
  induction ns as [|n ns IH]; intros d H; simpl; auto.
  apply IH. now apply nodup_dict_set.
Qed.

Lemma nodup_reader_row (h vals : record) : NoDup (keys (reader_row h vals)).
Proof.
  unfold reader_row.
  assert (H : NoDup (keys (zip_dict h vals []))).
  { apply nodup_zip_dict. constructor. }
  destruct (List.length h <? List.length vals).
  - now apply nodup_dict_set.
  - destruct (List.length vals <? List.length h); auto.
    now apply nodup_fold_none.
Qed.

Lemma key_in_none_names (ns : list string) : key_in None (map Some ns) = false.
Proof. induction ns; simpl; auto. Qed.

Lemma key_in_some_names (c : string) (ns : list string) :
  key_in (Some c) (map Some ns) = existsb (String.eqb c) ns.
Proof. induction ns as [|n ns IH]; simpl; auto. now rewrite <- IH. Qed.

Lemma existsb_eqb_In (c : string) (ns : list string) :
  existsb (String.eqb c) ns = true <-> In c ns.
Proof.
  rewrite existsb_exists. split.
  - intros [x [Hx E]]. apply String.eqb_eq in E. now subst.
  - intros H. exists c. split; [assumption | apply String.eqb_refl].
Qed.

(** X2: [read_csv] returns one row per record that is not blank; every
    row has each key once, has an entry for exactly the names of the header
    line, whatever the length of its record, and has the key [None] exactly
    when its record is longer than the header. *)
Theorem read_rows_shape (h : record) (data : list record) :
  List.length (reader_rows (h :: data))
  = List.length (filter (fun r => negb (is_blank r)) data)
  /\ (forall r,
        In r (reader_rows (h :: data)) ->
        NoDup (keys r)
        /\ forall c, In c h <-> dict_get (Some c) r <> None)
  /\ (forall vals,
        key_in None (keys (reader_row h vals))
        = (List.length h <? List.length vals)).
Proof.
  split; [|split].
  - unfold reader_rows. apply length_map.
  - intros r Hr. unfold reader_rows in Hr.
    apply in_map_iff in Hr. destruct Hr as [vals [<- _]].
    split; [apply nodup_reader_row|].
    intros c. rewrite dict_get_none_iff, reader_row_names, key_in_some_names.
    rewrite <- existsb_eqb_In.
    destruct (existsb (String.eqb c) h); split; congruence.
  - intros vals. unfold reader_row.
    destruct (List.length h <? List.length vals) eqn:E1.
    + rewrite key_in_dict_set. simpl. apply orb_true_r.
    + destruct (List.length vals <? List.length h).
      * rewrite key_in_fold_none, key_in_zip_dict. simpl.
        now rewrite !key_in_none_names.
      * rewrite key_in_zip_dict. simpl. now rewrite key_in_none_names.
Qed.

Lemma read_rows_shape_witness :
  NoDup (keys (reader_row ["id"; "age"; "id"] ["1"; "30"]))
  /\ forall c,
       In c ["id"; "age"; "id"]
       <-> dict_get (Some c) (reader_row ["id"; "age"; "id"] ["1"; "30"])
           <> None.
Proof.
  apply (proj1 (proj2 (read_rows_shape ["id"; "age"; "id"]
                         [[]; ["1"; "30"]; ["2"; "40"; "50"; "x"]]))).
  simpl. tauto.
Defined.

(** ** More on the row transformer *)

Lemma transform_loop_raises (cfg : Config) (run_id migrated_at : string)
  (rows : list row) :
  forallb age_is_text rows = false ->
  forall out,
    transform_loop cfg run_id migrated_at rows out = Raise AttributeError.
Proof.
  induction rows as [|r rows IH]; simpl; [discriminate|].
  intros H out. destruct (age_is_text r) eqn:Hr.
  - rewrite (row_age_text r Hr). simpl in *.
    destruct (claimed_age r <? min_age cfg)%Z; now apply IH.
  - unfold age_is_text in Hr. unfold row_age.
    destruct (dict_get (Some "age") r) as [[s| |l]|];
      try discriminate; reflexivity.
Qed.

(** X8: [transform_rows] fails in one way only.  When the [age] entry of
    every row is a string or absent it returns the rows whose age passes the
    threshold, in order, each enriched; when some row has another [age]
    entry (the [None] of a short record) it raises [AttributeError], also
    when that row comes after rows that pass. *)
Theorem transform_rows_fails_only_on_missing_age (rows : list row)
  (cfg : Config) (run_id migrated_at : string) :
  transform_rows rows cfg run_id migrated_at
  = if forallb age_is_text rows
    then Ok (map (enrich cfg run_id migrated_at)
               (filter (fun r => (min_age cfg <=? claimed_age r)%Z) rows))
    else Raise AttributeError.
Proof.
  destruct (forallb age_is_text rows) eqn:H.
  - rewrite transform_rows_text by assumption.
    now rewrite filter_retained_text.
  - unfold transform_rows. now apply transform_loop_raises.
Qed.

Lemma enrich_keys_same (cfg : Config) (id1 ts1 id2 ts2 : string) (r : row) :
  keys (enrich cfg id1 ts1 r) = keys (enrich cfg id2 ts2 r).
Proof.
  unfold enrich.
  destruct (add_migrated_at_utc cfg), (add_run_id cfg);
    rewrite ?keys_dict_set; reflexivity.
Qed.

Lemma transform_rows_text_inv (rows out : list row) (cfg : Config)
  (run_id migrated_at : string) :
  transform_rows rows cfg run_id migrated_at = Ok out ->
  forallb age_is_text rows = true.
Proof.
  intros H. destruct (forallb age_is_text rows) eqn:E; auto.
  unfold transform_rows in H. rewrite transform_loop_raises in H by assumption.
  discriminate.
Qed.

(** X9: the run identifier and the time stamp do not decide which rows
    are kept: if [transform_rows] returns for one pair, it returns for any
    other pair as many rows, each with the same keys in the same order and
    the same value under every key that is not a field the configuration
    adds. *)
Theorem transform_rows_independent_of_run (rows out1 : list row)
  (cfg : Config) (id1 ts1 id2 ts2 : string) :
  transform_rows rows cfg id1 ts1 = Ok out1 ->
  exists out2,
    transform_rows rows cfg id2 ts2 = Ok out2
    /\ Forall2 (fun a b =>
                  keys a = keys b
                  /\ forall k, assigned cfg k = false ->
                               dict_get k a = dict_get k b)
         out1 out2.
Proof.
  intros H. pose proof (transform_rows_text_inv _ _ _ _ H) as Htext.
  rewrite transform_rows_text in H by assumption. inversion H; subst; clear H.
  exists (map (enrich cfg id2 ts2) (filter (retained cfg) rows)).
  split; [now apply transform_rows_text|].
  induction (filter (retained cfg) rows) as [|r l IH]; simpl; constructor; auto.
  split; [apply enrich_keys_same|].
  intros k Hk. now rewrite !enrich_keeps.
Qed.

Lemma transform_rows_independent_of_run_witness :
  exists out2,
    transform_rows (reader_rows [["id"; "age"]; ["1"; "30"]; ["2"; "7"]])
      (sample_config 18 true true) "run-b" "later" = Ok out2
    /\ Forall2 (fun a b =>
                  keys a = keys b
                  /\ forall k, assigned (sample_config 18 true true) k = false ->
                               dict_get k a = dict_get k b)
         [[(Some "id", CStr "1"); (Some "age", CStr "30");
           (Some "migrated_at_utc", CStr "sooner");
           (Some "run_id", CStr "run-a")]]
         out2.
Proof.
  apply (@transform_rows_independent_of_run
           (reader_rows [["id"; "age"]; ["1"; "30"]; ["2"; "7"]])
           _ (sample_config 18 true true) "run-a" "sooner" "run-b" "later").
  reflexivity.
Defined.

Lemma filter_length_mono {A} (p q : A -> bool) (l : list A) :
  (forall x, q x = true -> p x = true) ->
  List.length (filter q l) <= List.length (filter p l).
Proof.
  intros H. induction l as [|x l IH]; simpl; auto.
  destruct (q x) eqn:Hq.
  - rewrite (H x Hq). simpl. lia.
  - destruct (p x); simpl; lia.
Qed.

(** X10: raising the threshold never keeps more rows: if [transform_rows]
    returns under one configuration it returns, under a configuration with
    a threshold at least as high and the same input, at most as many rows;
    and a row whose age does not spell an integer is kept exactly when the
    threshold is at most -1. *)
Theorem threshold_is_monotone :
  (forall rows out1 cfg1 cfg2 run_id migrated_at,
      (min_age cfg1 <= min_age cfg2)%Z ->
      transform_rows rows cfg1 run_id migrated_at = Ok out1 ->
      exists out2,
        transform_rows rows cfg2 run_id migrated_at = Ok out2
        /\ List.length out2 <= List.length out1)
  /\ (forall cfg r s,
        dict_get (Some "age") r = Some (CStr s) ->
        Py.int_of_str (Py.strip s) = None ->
        retained cfg r = (min_age cfg <=? -1)%Z).
Proof.
  split.
  - intros rows out1 cfg1 cfg2 run_id migrated_at Hle H.
    pose proof (transform_rows_text_inv _ _ _ _ H) as Htext.
    rewrite transform_rows_text in H by assumption.
    inversion H; subst; clear H.
    eexists. split; [now apply transform_rows_text|].
    rewrite !length_map. apply filter_length_mono.
    intros r. unfold retained. destruct (row_age r) as [age|]; auto.
    rewrite !negb_true_iff, !Z.ltb_ge. lia.
  - intros cfg r s Hage Hs. unfold retained.
    rewrite (row_age_of_text r Hage), Hs.
    rewrite Z.leb_antisym. reflexivity.
Qed.

Lemma threshold_is_monotone_witness :
  (exists out2,
      transform_rows
        (reader_rows [["id"; "age"]; ["1"; "30"]; ["2"; "19"]; ["3"; "x"]])
        (sample_config 21 false false) "u" "t" = Ok out2
      /\ List.length out2 <= 2)
  /\ retained (sample_config (-1) false false)
       [(Some "id", CStr "3"); (Some "age", CStr "x")]
     = true.
Proof.
  split.
  - apply (proj1 threshold_is_monotone
             (reader_rows
                [["id"; "age"]; ["1"; "30"]; ["2"; "19"]; ["3"; "x"]])
             [[(Some "id", CStr "1"); (Some "age", CStr "30")];
              [(Some "id", CStr "2"); (Some "age", CStr "19")]]
             (sample_config 18 false false) (sample_config 21 false false)
             "u" "t").
    + simpl. lia.
    + reflexivity.
  - apply (proj2 threshold_is_monotone (sample_config (-1) false false)
             [(Some "id", CStr "3"); (Some "age", CStr "x")] "x");
      reflexivity.
Defined.

(** X11: with both added columns disabled, [transform_rows] returns the
    retained rows of the input themselves, unchanged and in order. *)
Theorem disabled_enrichment_returns_source_rows (rows out : list row)
  (cfg : Config) (run_id migrated_at : string) :
  add_migrated_at_utc cfg = false ->
  add_run_id cfg = false ->
  transform_rows rows cfg run_id migrated_at = Ok out ->
  out = filter (fun r => (min_age cfg <=? claimed_age r)%Z) rows.
Proof.
  intros Hts Hid H.
  pose proof (transform_rows_text_inv _ _ _ _ H) as Htext.
  rewrite transform_rows_text in H by assumption. inversion H; subst; clear H.
  rewrite <- filter_retained_text by assumption.
  unfold enrich. rewrite Hts, Hid. apply map_id.
Qed.

Lemma disabled_enrichment_returns_source_rows_witness :
  [[(Some "id", CStr "1"); (Some "age", CStr "30")]]
  = filter (fun r => (min_age (sample_config 18 false false)
                      <=? claimed_age r)%Z)
      (reader_rows [["id"; "age"]; ["1"; "30"]; ["2"; "7"]]).
Proof.
  apply (@disabled_enrichment_returns_source_rows
           (reader_rows [["id"; "age"]; ["1"; "30"]; ["2"; "7"]])
           [[(Some "id", CStr "1"); (Some "age", CStr "30")]]
           (sample_config 18 false false) "u" "t");
    reflexivity.
Defined.

Lemma nodup_enrich (cfg : Config) (run_id migrated_at : string) (r : row) :
  NoDup (keys r) -> NoDup (keys (enrich cfg run_id migrated_at r)).
Proof.
  intros H. unfold enrich.
  destruct (add_migrated_at_utc cfg), (add_run_id cfg);
    auto using nodup_dict_set.
Qed.

(** X12: every row [transform_rows] returns for the rows read from a
    file has each of its columns once, also when the header repeats a name
    or already has a column named like an added field. *)
Theorem transformed_columns_are_unique (h : record) (data : list record)
  (cfg : Config) (run_id migrated_at : string) (out : list row) :
  transform_rows (reader_rows (h :: data)) cfg run_id migrated_at = Ok out ->
  forall r, In r out -> NoDup (keys r).
Proof.
  intros H r Hr. apply transform_rows_ok in H. subst out.
  apply in_map_iff in Hr. destruct Hr as [r0 [<- Hr0]].
  apply filter_In in Hr0. destruct Hr0 as [Hr0 _].
  apply nodup_enrich. unfold reader_rows in Hr0.
  apply in_map_iff in Hr0. destruct Hr0 as [vals [<- _]].
  apply nodup_reader_row.
Qed.

Lemma transformed_columns_are_unique_witness :
  NoDup (keys [(Some "run_id", CStr "u"); (Some "age", CStr "31");
               (Some "migrated_at_utc", CStr "t")]).
Proof.
  apply (@transformed_columns_are_unique
           ["run_id"; "age"; "run_id"] [["a"; "31"; "b"]]
           (sample_config 18 true true) "u" "t"
           [[(Some "run_id", CStr "u"); (Some "age", CStr "31");
             (Some "migrated_at_utc", CStr "t")]]).
  - reflexivity.
  - simpl. left. reflexivity.
Defined.

(** ** More on the writer *)

Lemma dict_to_list_fits (fields : list key) (r : row) :
  dict_to_list fields r
  = if fits fields r then Some (cells_of fields r) else None.
Proof. reflexivity. Qed.

Lemma writerows_take (fields : list key) (rows : list row) :
  writerows fields rows
  = (map (cells_of fields) (take_while (fits fields) rows),
     forallb (fits fields) rows).
Proof.
  induction rows as [|r rows IH]; simpl; auto.
  rewrite dict_to_list_fits. destruct (fits fields r); simpl; auto.
  now rewrite IH.
Qed.

Lemma fits_own_keys (r : row) : fits (keys r) r = true.
Proof.
  unfold fits. apply forallb_forall. intros k Hk. now apply in_key_in.
Qed.

Lemma write_csv_rows (p : path) (r0 : row) (rest : list row) (s : state) :
  write_csv p (r0 :: rest) s
  = ({| ticks := ticks s;
        trace :=
          (trace s ++ [Mkdir (parent p)])
          ++ [Write p
                (Table (map cell_of_key (keys r0)
                        :: cells_of (keys r0) r0
                        :: map (cells_of (keys r0))
                             (take_while (fits (keys r0)) rest)))] |},
     if forallb (fits (keys r0)) rest
     then Return tt else Uncaught ValueError).
Proof.
  unfold write_csv, bind, emit. cbn [fst snd ticks trace].
  rewrite writerows_take. cbn [take_while forallb].
  rewrite fits_own_keys. cbn [map andb].
  destruct (forallb (fits (keys r0)) rest); reflexivity.
Qed.

(** X13: [write_csv] gives an empty row list the empty text.  Otherwise
    it writes the keys of the first row as header, then the rows up to the
    first one that has a key the first row lacks, an absent key giving an
    empty field; it returns when no row has such a key and raises
    [ValueError] otherwise, after the file has received the header and the
    rows before that one.  The first row is always written. *)
Theorem write_csv_writes_fitting_prefix (p : path) (s : state) :
  write_csv p [] s
  = ({| ticks := ticks s;
        trace := (trace s ++ [Mkdir (parent p)]) ++ [Write p (Text "")] |},
     Return tt)
  /\ forall r0 rest,
       write_csv p (r0 :: rest) s
       = ({| ticks := ticks s;
             trace :=
               (trace s ++ [Mkdir (parent p)])
               ++ [Write p
                     (Table (map cell_of_key (keys r0)
                             :: cells_of (keys r0) r0
                             :: map (cells_of (keys r0))
                                  (take_while (fits (keys r0)) rest)))] |},
          if forallb (fits (keys r0)) rest
          then Return tt else Uncaught ValueError).
Proof.
  split; [reflexivity|]. intros r0 rest. apply write_csv_rows.
Qed.

(** X14: the table [write_csv] hands to the writer is rectangular: every
    record has as many fields as the header record, whatever keys the rows
    have, and it has one record per row exactly when [write_csv]
    returns. *)
Theorem written_table_is_rectangular (p : path) (r0 : row) (rest : list row)
  (s : state) :
  exists recs,
    trace (fst (write_csv p (r0 :: rest) s))
    = (trace s ++ [Mkdir (parent p)])
      ++ [Write p (Table (map cell_of_key (keys r0) :: recs))]
    /\ Forall (fun rec => List.length rec = List.length (keys r0)) recs
    /\ List.length recs <= S (List.length rest)
    /\ (snd (write_csv p (r0 :: rest) s) = Return tt
        <-> List.length recs = S (List.length rest)).
Proof.
  rewrite write_csv_rows.
  eexists. split; [reflexivity|]. cbn [fst snd]. split; [|split].
  - constructor; [apply length_map|].
    apply Forall_forall. intros rec Hrec.
    apply in_map_iff in Hrec. destruct Hrec as [r [<- _]]. apply length_map.
  - cbn [List.length]. rewrite length_map.
    assert (H : forall l : list row,
               List.length (take_while (fits (keys r0)) l) <= List.length l).
    { induction l as [|x l IH]; simpl; auto.
      destruct (fits (keys r0) x); simpl; lia. }
    specialize (H rest). lia.
  - cbn [List.length]. rewrite length_map.
    assert (H : forall l : list row,
               (forallb (fits (keys r0)) l = true
                -> List.length (take_while (fits (keys r0)) l) = List.length l)
               /\ (forallb (fits (keys r0)) l = false
                   -> List.length (take_while (fits (keys r0)) l)
                      < List.length l)).
    { induction l as [|x l [IH1 IH2]]; simpl.
      - split; [reflexivity | discriminate].
      - destruct (fits (keys r0) x); simpl; split; intros E;
          try discriminate; try lia.
        + rewrite (IH1 E). reflexivity.
        + specialize (IH2 E). lia. }
    destruct (H rest) as [H1 H2].
    destruct (forallb (fits (keys r0)) rest) eqn:E.
    + split; intros _; [now rewrite H1 | reflexivity].
    + specialize (H2 eq_refl). split; [discriminate | lia].
Qed.

(** ** Writing and reading back *)

Lemma zip_dict_fresh (ns vs : list string) :
  forall d,
    List.length ns = List.length vs ->
    NoDup ns ->
    (forall n, In n ns -> key_in (Some n) (keys d) = false) ->
    zip_dict ns vs d = d ++ combine (map Some ns) (map CStr vs).
Proof.
  revert vs. induction ns as [|n ns IH]; intros vs d Hlen Hnd Hfresh.
  - destruct vs; simpl; now rewrite app_nil_r.
  - destruct vs as [|v vs]; [discriminate|]. simpl.
    inversion Hnd as [|? ? Hn Hns]; subst.
    rewrite dict_set_fresh by (apply Hfresh; now left).
    rewrite IH.
    + now rewrite <- app_assoc.
    + simpl in Hlen. lia.
    + assumption.
    + intros m Hm. unfold keys. rewrite map_app, key_in_app.
      unfold keys in Hfresh. rewrite Hfresh by now right. simpl.
      destruct (String.eqb m n) eqn:E; auto.
      apply String.eqb_eq in E. subst. contradiction.
Qed.

Lemma combine_values (names : list string) :
  forall r,
    keys r = map Some names ->
    all_text r = true ->
    combine (map Some names) (map CStr (values_text r)) = r.
Proof.
  induction names as [|n names IH]; intros r Hk Ht.
  - destruct r; [reflexivity | discriminate].
  - destruct r as [|[k v] r]; [discriminate|].
    simpl in Hk. inversion Hk; subst.
    unfold all_text in Ht. simpl in Ht.
    apply andb_true_iff in Ht. destruct Ht as [Hv Ht].
    destruct v; try discriminate. simpl.
    rewrite IH by assumption. reflexivity.
Qed.

Lemma reader_row_values (names : list string) (r : row) :
  keys r = map Some names ->
  NoDup names ->
  all_text r = true ->
  reader_row names (values_text r) = r.
Proof.
  intros Hk Hnd Ht.
  assert (Hlen : List.length (values_text r) = List.length names).
  { unfold values_text. rewrite length_map.
    apply (f_equal (@List.length key)) in Hk.
    unfold keys in Hk. now rewrite !length_map in Hk. }
  unfold reader_row. rewrite Hlen, Nat.ltb_irrefl.
  rewrite zip_dict_fresh; auto.
  simpl. now apply combine_values.
Qed.

Lemma cells_of_self (r : row) : NoDup (keys r) -> cells_of (keys r) r = map snd r.
Proof.
  unfold cells_of, keys. induction r as [|[k v] r IH]; intros Hnd; auto.
  simpl in *. rewrite key_eqb_refl. inversion Hnd as [|? ? Hk Hr]; subst.
  f_equal. rewrite <- (IH Hr). apply map_ext_in. intros k' Hk'.
  destruct (key_eqb k' k) eqn:E; auto.
  apply key_eqb_eq in E. subst. contradiction.
Qed.

Lemma texts_values (r : row) :
  all_text r = true -> texts (map snd r) = Some (values_text r).
Proof.
  unfold all_text. induction r as [|[k v] r IH]; simpl; auto.
  intros H. apply andb_true_iff in H. destruct H as [Hv Hr].
  destruct v; try discriminate. now rewrite (IH Hr).
Qed.

Lemma texts_names (names : list string) :
  texts (map cell_of_key (map Some names)) = Some names.
Proof. induction names as [|n names IH]; simpl; auto. now rewrite IH. Qed.

Lemma take_while_all {A} (p : A -> bool) (l : list A) :
  forallb p l = true -> take_while p l = l.
Proof.
  induction l as [|x l IH]; simpl; auto.
  intros H. apply andb_true_iff in H. destruct H as [Hx Hl].
  rewrite Hx. now rewrite IH.
Qed.

Lemma nodup_some (names : list string) : NoDup names -> NoDup (map Some names).
Proof.
  induction 1 as [|n names Hn Hnd IH]; simpl; constructor; auto.
  intros Hin. apply in_map_iff in Hin. destruct Hin as [m [E Hm]].
  inversion E. subst. contradiction.
Qed.

(** X15: what [write_csv] writes, [read_csv] reads back.  For rows that
    all have the same columns, in the same order, each once and at least
    one, and strings as values, the records handed to the writer, header
    first, are records from which the reader builds the same rows again.
    (The CSV text between the two is the [csv] module's.) *)
Theorem written_table_reads_back (names : list string) (rows : list row) :
  names <> [] ->
  NoDup names ->
  (forall r, In r rows -> keys r = map Some names /\ all_text r = true) ->
  exists recs,
    records_of (table_of rows) = Some recs /\ reader_rows recs = rows.
Proof.
  intros Hne Hnd Hrows. destruct rows as [|r0 rest].
  - exists []. split; reflexivity.
  - destruct (Hrows r0 (or_introl eq_refl)) as [Hk0 Ht0].
    assert (Hfit : forallb (fits (keys r0)) (r0 :: rest) = true).
    { apply forallb_forall. intros r Hr.
      destruct (Hrows r Hr) as [Hk _]. rewrite Hk0, <- Hk.
      apply fits_own_keys. }
    assert (Hcells : forall r, In r (r0 :: rest) ->
                               texts (cells_of (keys r0) r)
                               = Some (values_text r)).
    { intros r Hr. destruct (Hrows r Hr) as [Hk Ht].
      rewrite Hk0, <- Hk. rewrite cells_of_self.
      - now apply texts_values.
      - rewrite Hk. now apply nodup_some. }
    exists (names :: map values_text (r0 :: rest)). split.
    + unfold table_of, records_of. rewrite writerows_take. cbn [fst].
      rewrite (take_while_all _ _ Hfit). cbn [all_texts].
      rewrite Hk0, texts_names. rewrite <- Hk0.
      assert (H : forall l, (forall r, In r l -> In r (r0 :: rest)) ->
                            all_texts (map (cells_of (keys r0)) l)
                            = Some (map values_text l)).
      { induction l as [|r l IH]; intros Hl; [reflexivity|].
        cbn [map all_texts]. rewrite (Hcells r (Hl r (or_introl eq_refl))).
        rewrite IH; [reflexivity|]. intros x Hx. apply Hl. now right. }
      rewrite H by auto. reflexivity.
    + unfold reader_rows.
      assert (H : forall l, (forall r, In r l -> In r (r0 :: rest)) ->
                            map (reader_row names)
                              (filter (fun r => negb (is_blank r))
                                 (map values_text l)) = l).
      { induction l as [|r l IH]; intros Hl; [reflexivity|].
        cbn [map filter].
        destruct (Hrows r (Hl r (or_introl eq_refl))) as [Hk Ht].
        assert (Hb : is_blank (values_text r) = false).
        { destruct r as [|kv r]; [|reflexivity].
          destruct names; [contradiction | discriminate]. }
        rewrite Hb. cbn [negb map].
        rewrite (@reader_row_values names r Hk Hnd Ht).
        f_equal. apply IH. intros x Hx. apply Hl. now right. }
      apply H. auto.
Qed.

Lemma written_table_reads_back_witness :
  exists recs,
    records_of
      (table_of [ [(Some "id", CStr "1"); (Some "age", CStr "30")];
                  [(Some "id", CStr "2"); (Some "age", CStr "")] ])
    = Some recs
    /\ reader_rows recs
       = [ [(Some "id", CStr "1"); (Some "age", CStr "30")];
           [(Some "id", CStr "2"); (Some "age", CStr "")] ].
Proof.
  apply (@written_table_reads_back ["id"; "age"]).
  - discriminate.
  - repeat constructor; simpl; intuition discriminate.
  - intros r [<-|[<-|[]]]; split; reflexivity.
Defined.

(** ** More on configuration resolution *)

Lemma py_path_text (v : yaml) (p : path) : py_path v = Ok p -> is_text v = true.
Proof. destruct v; simpl; try discriminate; reflexivity. Qed.

Lemma py_list_listable (v : yaml) (l : list yaml) :
  py_list v = Ok l -> is_listable v = true.
Proof. destruct v; simpl; try discriminate; reflexivity. Qed.

Lemma load_config_accepts_valid (d : yaml) (cfg : Config) :
  load_config (Document d) = Ok cfg -> valid_document d = true.
Proof.
  intros H. unfold load_config in H. invert_config.
  match goal with
  | H1 : or_default ?o ?d = YMap ?a, H2 : or_default ?o ?d = YMap ?b |- _ =>
      rewrite H1 in H2; inversion H2; subst; clear H2
  end.
  repeat match goal with
         | H : py_path _ = Ok _ |- _ => apply py_path_text in H
         | H : py_list _ = Ok _ |- _ => apply py_list_listable in H
         | H : py_int _ = Ok _ |- _ => apply py_int_numeric in H
         end.
  unfold valid_document, holds_at, holds_if_at, required_fields,
    filter_section.
  cbn [forallb lookup].
  repeat match goal with
         | E : assoc ?k ?m = Some _ |- context [assoc ?k ?m] => rewrite E
         end.
  repeat match goal with
         | E : is_text _ = true |- _ => rewrite E; clear E
         | E : is_listable _ = true |- _ => rewrite E; clear E
         end.
  cbn [andb is_map].
  destruct (assoc "min_age" _); cbn [or_default] in *;
    destruct (assoc "add_columns" _) as [v|]; cbn [or_default] in *;
    subst; cbn [is_map andb];
    repeat match goal with
           | E : numeric _ = true |- _ => rewrite E; clear E
           end;
    reflexivity.
Qed.

(** X16: [load_config] returns a configuration for exactly the valid
    documents: the mappings [run], [paths], [inputs], [transform],
    [transform.filter] and [outputs] with the name of the run, five
    directories that are strings, a source file, expected columns that can
    be listed, three output file names, a [min_age] that is absent or
    numeric, and an [add_columns] that is absent or a mapping.  For every
    other document it raises. *)
Theorem load_config_accepts_exactly_valid_documents (d : yaml) :
  (valid_document d = true <-> exists cfg, load_config (Document d) = Ok cfg)
  /\ (valid_document d = false <-> exists e, load_config (Document d) = Raise e).
Proof.
  assert (H : valid_document d = true
              <-> exists cfg, load_config (Document d) = Ok cfg).
  { split; [apply load_config_valid|].
    intros [cfg Hcfg]. now apply (@load_config_accepts_valid d cfg). }
  split; [exact H|].
  destruct (load_config (Document d)) as [cfg|e] eqn:E.
  - split.
    + intros Hv. destruct H as [_ H]. rewrite H in Hv by eauto. discriminate.
    + intros [e He]. discriminate.
  - split; [eauto|]. intros _.
    destruct (valid_document d) eqn:Hv; auto.
    destruct H as [H _]. destruct (H eq_refl) as [cfg Hcfg]. discriminate.
Qed.

(** X17: a resolved configuration carries the values of its document: the
    name of the run, the source file and the three output file names as
    they are written; the mode and the flags from their fields or their
    defaults, a flag being the truth value of its field; the directories
    from the strings of [paths]; the expected columns from listing their
    field; and [min_age] from converting its field, or 0, to an integer. *)
Theorem resolved_configuration_reads_document (d : yaml) (cfg : Config) :
  load_config (Document d) = Ok cfg ->
  lookup d ["run"; "name"] = Some (run_name cfg)
  /\ mode cfg = or_default (lookup d ["run"; "mode"]) (YStr "full")
  /\ fail_fast cfg
     = py_bool (or_default (lookup d ["run"; "fail_fast"]) (YBool true))
  /\ (exists v, lookup d ["paths"; "raw_dir"] = Some v
                /\ py_path v = Ok (raw_dir cfg))
  /\ (exists v, lookup d ["paths"; "staging_dir"] = Some v
                /\ py_path v = Ok (staging_dir cfg))
  /\ (exists v, lookup d ["paths"; "output_dir"] = Some v
                /\ py_path v = Ok (output_dir cfg))
  /\ (exists v, lookup d ["paths"; "reports_dir"] = Some v
                /\ py_path v = Ok (reports_dir cfg))
  /\ (exists v, lookup d ["paths"; "logs_dir"] = Some v
                /\ py_path v = Ok (logs_dir cfg))
  /\ lookup d ["inputs"; "source_file"] = Some (source_file cfg)
  /\ (exists v, lookup d ["inputs"; "expected_columns"] = Some v
                /\ py_list v = Ok (expected_columns cfg))
  /\ py_int (or_default (lookup d ["transform"; "filter"; "min_age"]) (YInt 0))
     = Ok (min_age cfg)
  /\ add_migrated_at_utc cfg
     = py_bool (or_default
                  (lookup d ["transform"; "add_columns"; "migrated_at_utc"])
                  (YBool true))
  /\ add_run_id cfg
     = py_bool (or_default (lookup d ["transform"; "add_columns"; "run_id"])
                  (YBool true))
  /\ lookup d ["outputs"; "output_file"] = Some (output_file cfg)
  /\ lookup d ["outputs"; "report_file"] = Some (report_file cfg)
  /\ lookup d ["outputs"; "log_file"] = Some (log_file cfg).
Proof.
  intros H. apply load_config_ok in H.
  destruct H as (H1 & H2 & H3 & H4 & H5 & H6 & H7 & H8 & H9 & H10 & _ & H12
                 & H13 & H14 & H15 & H16 & H17).
  repeat (split; [assumption|]). assumption.
Qed.

Lemma resolved_configuration_reads_document_witness :
  mode (sample_config 18 true true) = YStr "full"
  /\ fail_fast (sample_config 18 true true) = true
  /\ min_age (sample_config 18 true true) = 18%Z
  /\ source_file (sample_config 18 true true) = YStr "people.csv".
Proof.
  destruct (@resolved_configuration_reads_document
              (sample_document [] ["id"; "age"]
                 [("filter", YMap [("min_age", YStr " 18 ")])])
              (sample_config 18 true true) eq_refl)
    as (_ & H2 & H3 & _ & _ & _ & _ & _ & H9 & _ & H11 & _).
  split; [exact H2|]. split; [exact H3|].
  split; [now inversion H11|]. now inversion H9.
Defined.

(** X18: the conversions of [load_config] have edges a writer of
    configurations meets.  A flag written as a string is true unless the
    string is empty, so the string [false] enables it; a flag is false for
    null, false, 0 and the empty string, list and mapping.  Expected columns
    written as one string are its characters, one column each.  A boolean
    [min_age] is 1 or 0. *)
Theorem configuration_conversions (d : yaml) (cfg : Config) :
  load_config (Document d) = Ok cfg ->
  (forall s,
      s <> "" ->
      (lookup d ["run"; "fail_fast"] = Some (YStr s) -> fail_fast cfg = true)
      /\ (lookup d ["transform"; "add_columns"; "migrated_at_utc"]
          = Some (YStr s) -> add_migrated_at_utc cfg = true)
      /\ (lookup d ["transform"; "add_columns"; "run_id"] = Some (YStr s) ->
          add_run_id cfg = true))
  /\ (forall v,
        In v [YNull; YBool false; YInt 0; YStr ""; YSeq []; YMap []] ->
        lookup d ["run"; "fail_fast"] = Some v -> fail_fast cfg = false)
  /\ (forall s,
        lookup d ["inputs"; "expected_columns"] = Some (YStr s) ->
        expected_columns cfg
        = map (fun c => YStr (String c EmptyString)) (list_ascii_of_string s))
  /\ (forall b,
        lookup d ["transform"; "filter"; "min_age"] = Some (YBool b) ->
        min_age cfg = if b then 1%Z else 0%Z).
Proof.
  intros H. apply load_config_ok in H.
  destruct H as (_ & _ & Hff & _ & _ & _ & _ & _ & _ & [v [Hv Hlist]] & _
                 & Hint & Hts & Hid & _).
  assert (Hs : forall s, s <> "" -> py_bool (YStr s) = true).
  { intros s Hne. simpl. destruct (String.eqb s "") eqn:E; auto.
    apply String.eqb_eq in E. contradiction. }
  split; [|split; [|split]].
  - intros s Hne. repeat split; intros E; rewrite E in *; simpl or_default in *;
      rewrite Hs in * by assumption; assumption.
  - intros v' Hin E. rewrite E in Hff. simpl in Hff, Hin.
    repeat (destruct Hin as [<-|Hin]; [exact Hff|]). contradiction.
  - intros s E. rewrite E in Hv. inversion Hv; subst.
    simpl in Hlist. now inversion Hlist.
  - intros b E. rewrite E in Hint. simpl in Hint. now inversion Hint.
Qed.

Lemma configuration_conversions_witness :
  fail_fast
    {| run_name := YStr "demo";
       mode := YStr "full";
       fail_fast := true;
       raw_dir := Dir "raw";
       staging_dir := Dir "staging";
       output_dir := Dir "output";
       reports_dir := Dir "reports";
       logs_dir := Dir "logs";
       source_file := YStr "people.csv";
       expected_columns := [YStr "i"; YStr "d"];
       min_age := 1%Z;
       add_migrated_at_utc := true;
       add_run_id := true;
       output_file := YStr "people_out.csv";
       report_file := YStr "report.json";
       log_file := YStr "run.log" |}
  = true.
Proof.
  refine (proj1 (proj1
            (@configuration_conversions
               (YMap [ ("run", YMap [("name", YStr "demo");
                                     ("fail_fast", YStr "false")]);
                       ("paths", sample_paths);
                       ("inputs", YMap [("source_file", YStr "people.csv");
                                        ("expected_columns", YStr "id")]);
                       ("transform",
                        YMap [("filter", YMap [("min_age", YBool true)])]);
                       ("outputs", sample_outputs) ])
               _ eq_refl)
            "false" _) eq_refl).
  discriminate.
Defined.

(** ** More on schema validation *)

Lemma observed_header_names (w : World) (input_path : path) (h : record)
  (data : list record) (headers : list key) :
  csv_at w input_path = Some (h :: data) ->
  observed_headers w (reader_rows (h :: data)) input_path = Ok headers ->
  forall n, key_in (Some n) headers = existsb (String.eqb n) h.
Proof.
  intros Hcsv Hobs n. unfold observed_headers in Hobs.
  destruct (reader_rows (h :: data)) as [|r0 rows] eqn:E.
  - rewrite Hcsv in Hobs. simpl in Hobs. inversion Hobs.
    apply key_in_some_names.
  - inversion Hobs. subst headers.
    assert (Hr0 : In r0 (reader_rows (h :: data))) by (rewrite E; now left).
    unfold reader_rows in Hr0. apply in_map_iff in Hr0.
    destruct Hr0 as [vals [<- _]].
    rewrite reader_row_names. apply key_in_some_names.
Qed.

(** X19: for expected columns that are strings, validation depends on the
    header line alone: whatever the data records are, also ragged ones, the
    missing columns are the expected names that are not in the header line,
    in the order of the configuration, and the run is stopped for them
    exactly when there is one and [fail_fast] is true. *)
Theorem validation_reads_header_names (w : World) (input_path : path)
  (h : record) (data : list record) (names : list string) (ff : bool)
  (s : state) :
  csv_at w input_path = Some (h :: data) ->
  exists headers,
    observed_headers w (reader_rows (h :: data)) input_path = Ok headers
    /\ missing_columns (map YStr names) headers
       = map YStr (filter (fun n => negb (existsb (String.eqb n) h)) names)
    /\ validate_columns w (reader_rows (h :: data)) (map YStr names)
         input_path ff s
       = if nonempty (filter (fun n => negb (existsb (String.eqb n) h)) names)
            && ff
         then ({| ticks := ticks s;
                  trace := trace s
                           ++ [Stderr
                                 (MissingColumns
                                    (map YStr
                                       (filter
                                          (fun n =>
                                             negb (existsb (String.eqb n) h))
                                          names))
                                    input_path headers)] |},
               Exit 1%Z)
         else (s, Return headers).
Proof.
  intros Hcsv.
  destruct (observed_headers w (reader_rows (h :: data)) input_path)
    as [headers|e] eqn:Hobs.
  2:{ exfalso. exact (@observed_headers_found w _ input_path _ e Hcsv Hobs). }
  exists headers. split; [reflexivity|].
  assert (Hmiss : missing_columns (map YStr names) headers
                  = map YStr
                      (filter (fun n => negb (existsb (String.eqb n) h))
                         names)).
  { unfold missing_columns. induction names as [|n names IH]; simpl; auto.
    rewrite names_key_in.
    rewrite (@observed_header_names w input_path h data headers Hcsv Hobs n).
    destruct (existsb (String.eqb n) h); simpl; now rewrite IH. }
  split; [exact Hmiss|].
  unfold validate_columns. rewrite Hobs, bind_lift_ok. cbv zeta.
  rewrite Hmiss.
  assert (Hne : forall l : list string, nonempty (map YStr l) = nonempty l).
  { now destruct l. }
  rewrite Hne.
  destruct (nonempty (filter (fun n => negb (existsb (String.eqb n) h)) names)
            && ff).
  - rewrite bind_die. reflexivity.
  - reflexivity.
Qed.

Lemma validation_reads_header_names_witness :
  let w := sample_world ["config.yaml"] NoFile
             (Some [["id"; "city"]; ["1"]; ["2"; "Oslo"; "x"]]) in
  exists headers,
    observed_headers w
      (reader_rows [["id"; "city"]; ["1"]; ["2"; "Oslo"; "x"]])
      (Child (Dir "raw") "people.csv") = Ok headers
    /\ missing_columns (map YStr ["id"; "age"; "zip"]) headers
       = map YStr ["age"; "zip"]
    /\ validate_columns w
         (reader_rows [["id"; "city"]; ["1"]; ["2"; "Oslo"; "x"]])
         (map YStr ["id"; "age"; "zip"]) (Child (Dir "raw") "people.csv")
         true init
       = ({| ticks := 0;
             trace := [Stderr (MissingColumns (map YStr ["age"; "zip"])
                                 (Child (Dir "raw") "people.csv") headers)] |},
          Exit 1%Z).
Proof.
  cbv zeta.
  apply (@validation_reads_header_names
           (sample_world ["config.yaml"] NoFile
              (Some [["id"; "city"]; ["1"]; ["2"; "Oslo"; "x"]]))
           (Child (Dir "raw") "people.csv") ["id"; "city"]
           [["1"]; ["2"; "Oslo"; "x"]] ["id"; "age"; "zip"] true init).
  reflexivity.
Defined.

(** ** A report JSON has no form for *)

Lemma main_report_raises (w : World) (script arg : string) (cfg : Config)
  (log_path input_path output_path report_path : path)
  (recs : list record) (headers : list key) (transformed : list row) :
  argv w = [script; arg] ->
  load_config (config_at w arg) = Ok cfg ->
  path_div (logs_dir cfg) (log_file cfg) = Ok log_path ->
  path_div (raw_dir cfg) (source_file cfg) = Ok input_path ->
  csv_at w input_path = Some recs ->
  fieldnames recs <> None ->
  observed_headers w (reader_rows recs) input_path = Ok headers ->
  nonempty (missing_columns (expected_columns cfg) headers) && fail_fast cfg
  = false ->
  transform_rows (reader_rows recs) cfg (uuid4 w) (clock w 0) = Ok transformed ->
  path_div (output_dir cfg) (output_file cfg) = Ok output_path ->
  writable transformed = true ->
  path_div (reports_dir cfg) (report_file cfg) = Ok report_path ->
  report_is_json cfg = false ->
  main w init
  = ({| ticks := 2;
        trace := start_events w cfg log_path
                 ++ late_events w cfg log_path
                      (ReportError output_path report_path transformed) |},
     Uncaught TypeError).
Proof.
  intros Hargv Hcfg Hlog Hin Hcsv Hfn Hobs Hmiss Htr Hout Hw Hrep Hjson.
  unfold main. rewrite Hargv.
  destruct (load_config_file _ Hcfg) as [data Hdoc]. rewrite Hdoc in *.
  rewrite bind_ret, Hcfg, bind_lift_ok, bind_ensure_dirs, bind_utcnow.
  cbn [ticks trace init app].
  rewrite Hlog, bind_lift_ok, bind_log_line, Hin, bind_lift_ok, Hcsv, bind_ret.
  cbn [ticks trace app].
  unfold read_csv. rewrite Hcsv.
  destruct (fieldnames recs) eqn:Hf; [|congruence].
  rewrite bind_assoc, bind_ret, bind_ret.
  unfold validate_columns. rewrite bind_assoc, Hobs, bind_lift_ok.
  cbv zeta. rewrite Hmiss, bind_assoc, bind_ret, bind_ret.
  rewrite Htr, bind_lift_ok, Hout, bind_lift_ok.
  rewrite (bind_write_csv _ _ _ _ Hw), (bind_write_csv _ _ _ _ Hw).
  rewrite Hrep, bind_lift_ok.
  rewrite bind_write_json_raise with (e := TypeError)
    by (now apply (json_dumps_raises cfg)).
  cbn [ticks trace app]. reflexivity.
Qed.

(** X20: the run name and the mode go into the report as the document has
    them, and a run finds out only when it serialises the report whether
    JSON has a form for them.  Under a configuration whose file names are
    single path components, over a rectangular file whose header covers
    the expected columns, the run ends with status 0 exactly when JSON has
    a form for both, as it has when both are strings; otherwise (a date,
    binary data or a set, also inside a list or a mapping) the run ends
    with status 1 after it has written the staging file and the output
    file and created the directory of the report, without a report and
    without a SUCCESS line. *)
Theorem report_needs_json_values (w : World) (script arg : string)
  (cfg : Config) (h : record) (data : list record) :
  argv w = [script; arg] ->
  load_config (config_at w arg) = Ok cfg ->
  names_are_plain cfg = true ->
  csv_at w (Child (raw_dir cfg) (text_of (source_file cfg)))
  = Some (h :: data) ->
  rectangular h data = true ->
  covers h (expected_columns cfg) = true ->
  (snd (run w) = 0%Z <-> report_is_json cfg = true)
  /\ (is_text (run_name cfg) = true -> is_text (mode cfg) = true ->
      snd (run w) = 0%Z)
  /\ (report_is_json cfg = false ->
      let transformed :=
        map (enrich cfg (uuid4 w) (clock w 0))
          (filter (fun r => (min_age cfg <=? claimed_age r)%Z)
             (reader_rows (h :: data))) in
      run w
      = (start_events w cfg (Child (logs_dir cfg) (text_of (log_file cfg)))
         ++ [ Mkdir (staging_dir cfg);
              Write (staging_path_of cfg) (table_of transformed);
              Mkdir (output_dir cfg);
              Write (Child (output_dir cfg) (text_of (output_file cfg)))
                (table_of transformed);
              Mkdir (reports_dir cfg) ],
         1%Z)).
Proof.
  intros Hargv Hcfg Hnames Hcsv Hrect Hcov.
  pose proof (names_plain_text cfg Hnames) as Htexts.
  assert (Hfail : report_is_json cfg = false ->
            run w
            = (start_events w cfg
                 (Child (logs_dir cfg) (text_of (log_file cfg)))
               ++ [ Mkdir (staging_dir cfg);
                    Write (staging_path_of cfg)
                      (table_of
                         (map (enrich cfg (uuid4 w) (clock w 0))
                            (filter
                               (fun r => (min_age cfg <=? claimed_age r)%Z)
                               (reader_rows (h :: data)))));
                    Mkdir (output_dir cfg);
                    Write (Child (output_dir cfg) (text_of (output_file cfg)))
                      (table_of
                         (map (enrich cfg (uuid4 w) (clock w 0))
                            (filter
                               (fun r => (min_age cfg <=? claimed_age r)%Z)
                               (reader_rows (h :: data)))));
                    Mkdir (reports_dir cfg) ],
               1%Z)).
  { intros Hjson. unfold names_are_text in Htexts.
    repeat (apply andb_true_iff in Htexts; destruct Htexts as [Htexts ?]).
    destruct (@observed_headers_rectangular w _ h data Hcsv Hrect)
      as [headers [Hobs Hk]].
    pose proof (@rows_rectangular_text h data Hrect) as Htext.
    unfold run.
    rewrite (@main_report_raises w script arg cfg
               (Child (logs_dir cfg) (text_of (log_file cfg)))
               (Child (raw_dir cfg) (text_of (source_file cfg)))
               (Child (output_dir cfg) (text_of (output_file cfg)))
               (Child (reports_dir cfg) (text_of (report_file cfg)))
               (h :: data) headers
               (map (enrich cfg (uuid4 w) (clock w 0))
                  (filter (fun r => (min_age cfg <=? claimed_age r)%Z)
                     (reader_rows (h :: data)))));
      auto using path_div_text.
    - discriminate.
    - now rewrite (@missing_none _ h headers Hk Hcov).
    - rewrite transform_rows_text by assumption.
      now rewrite filter_retained_text.
    - apply writable_enriched with (ks := map Some h).
      intros r Hr. apply filter_In in Hr. destruct Hr as [Hr _].
      now apply (reader_rows_rectangular h data r Hrect). }
  assert (Hpass : report_is_json cfg = true -> snd (run w) = 0%Z).
  { intros Hjson.
    destruct (@main_rectangular w script arg cfg h data Hargv Hcfg Htexts Hcsv
                Hrect (or_introl Hcov) Hjson) as [headers [_ [_ Hmain]]].
    unfold run. rewrite Hmain. reflexivity. }
  split; [|split].
  - split; [|exact Hpass].
    intros Hz. destruct (report_is_json cfg) eqn:Hjson; [reflexivity|].
    rewrite (Hfail eq_refl) in Hz. discriminate.
  - intros Hn Hm. apply Hpass. unfold report_is_json.
    destruct (run_name cfg); try discriminate.
    destruct (mode cfg); try discriminate. reflexivity.
  - exact Hfail.
Qed.

Lemma report_needs_json_values_witness :
  let w := sample_world ["config.yaml"] (Document dated_document)
             (Some [["id"; "age"]; ["1"; "30"]]) in
  run w
  = (start_events w dated_config (Child (Dir "logs") "run.log")
     ++ [ Mkdir (Dir "staging");
          Write (Child (Dir "staging") "staged_people.csv")
            (Table [ [CStr "id"; CStr "age"; CStr "migrated_at_utc";
                      CStr "run_id"];
                     [CStr "1"; CStr "30"; CStr (clock w 0);
                      CStr (uuid4 w)] ]);
          Mkdir (Dir "output");
          Write (Child (Dir "output") "people_out.csv")
            (Table [ [CStr "id"; CStr "age"; CStr "migrated_at_utc";
                      CStr "run_id"];
                     [CStr "1"; CStr "30"; CStr (clock w 0);
                      CStr (uuid4 w)] ]);
          Mkdir (Dir "reports") ],
     1%Z).
Proof.
  cbv zeta.
  apply (proj2 (proj2
           (@report_needs_json_values
              (sample_world ["config.yaml"] (Document dated_document)
                 (Some [["id"; "age"]; ["1"; "30"]]))
              "run_migration.py" "config.yaml" dated_config
              ["id"; "age"] [["1"; "30"]]
              eq_refl eq_refl eq_refl eq_refl eq_refl eq_refl))
           eq_refl).
Defined.
